(** * ios-control: the device facade and the element resolver

    A shallow embedding of [ios_control/device.py].  The facade shells out
    to external tools; every external process is an oracle of the [World],
    threaded through a state-and-exception monad together with the
    [Session] fields of [IOSDevice].  The element resolver is a pure
    recursive search over the value produced by [json.loads].

    Conventions of the model:
    - Python [str] is [string]; characters are ASCII, so [lower] and
      [strip] act on the ASCII letters and the ASCII white space only;
    - JSON numbers are integers ([Z]); [//] is floor division, [Z.div];
    - exceptions are identified by their class, messages are not kept. *)

From Stdlib Require Import ZArith String Ascii List Bool Lia.
From stdpp Require Import base option list strings gmap pretty.
Import ListNotations.

Set Warnings "-register-all".

Local Open Scope string_scope.
Local Open Scope Z_scope.
Local Open Scope list_scope.

(** ** Python strings *)

Module PyStr.

(** [str.isspace] on the ASCII range. *)
Definition isspace (c : ascii) : bool :=
  let n := nat_of_ascii c in
  ((9 <=? n)%nat && (n <=? 13)%nat) || ((28 <=? n)%nat && (n <=? 32)%nat).

(** [str.lower] on one character. *)
Definition lower_char (c : ascii) : ascii :=
  let n := nat_of_ascii c in
  if ((65 <=? n)%nat && (n <=? 90)%nat)%bool then ascii_of_nat (n + 32) else c.

Fixpoint lower (s : string) : string :=
  match s with
  | EmptyString => EmptyString
  | String c r => String (lower_char c) (lower r)
  end.

Fixpoint lstrip (s : string) : string :=
  match s with
  | EmptyString => EmptyString
  | String c r => if isspace c then lstrip r else s
  end.

(** [rstrip] keeps a character when it is not white space or when
    something is kept after it. *)
Fixpoint rstrip (s : string) : string :=
  match s with
  | EmptyString => EmptyString
  | String c r =>
      match rstrip r with
      | EmptyString => if isspace c then EmptyString else String c EmptyString
      | r' => String c r'
      end
  end.

(** [s.strip()] *)
Definition strip (s : string) : string := rstrip (lstrip s).

(** [s.startswith(p)] *)
Fixpoint startswith (p s : string) : bool :=
  match p, s with
  | EmptyString, _ => true
  | String _ _, EmptyString => false
  | String a p', String b s' => if Ascii.eqb a b then startswith p' s' else false
  end.

(** [sub in s] *)
Fixpoint contains (sub s : string) : bool :=
  if startswith sub s then true
  else match s with
       | EmptyString => false
       | String _ r => contains sub r
       end.

Fixpoint drop (n : nat) (s : string) : string :=
  match n, s with
  | O, _ => s
  | S _, EmptyString => EmptyString
  | S n', String _ r => drop n' r
  end.

(** [s.split(sep, 1)] when [sep] occurs in [s]: the text before the
    first occurrence and the text after it; [None] when [sep] does not
    occur ([split] then returns the one-element list [[s]]). *)
Fixpoint split_once (sep s : string) : option (string * string) :=
  if startswith sep s then Some (EmptyString, drop (String.length sep) s)
  else match s with
       | EmptyString => None
       | String c r =>
           match split_once sep r with
           | Some (a, b) => Some (String c a, b)
           | None => None
           end
       end.

(** [s.split("\n")]: never empty, [""] splits into [[""]]. *)
Fixpoint split_lines (s : string) : list string :=
  match s with
  | EmptyString => [EmptyString]
  | String c r =>
      if Ascii.eqb c "010"%char then EmptyString :: split_lines r
      else match split_lines r with
           | h :: t => String c h :: t
           | [] => [String c EmptyString]
           end
  end.

(** Truth value of a string: non-empty. *)
Definition nonempty (s : string) : bool :=
  match s with EmptyString => false | _ => true end.

End PyStr.

(** ** Exceptions and results *)

Inductive exn : Type :=
| CalledProcessError
| FileNotFoundError
| JSONDecodeError
| TypeError
| AttributeError
| DeviceNotFoundError
| IOSConnectionError
| AuthenticationError
| UnsupportedOperationError
| OtherException (cls : string).

Inductive res (A : Type) : Type :=
| Ok (a : A)
| Raise (e : exn)
| OutOfFuel.

Arguments Ok {A} a.
Arguments Raise {A} e.
Arguments OutOfFuel {A}.

(** ** The value produced by [json.loads] *)

Inductive json : Type :=
| JNull
| JBool (b : bool)
| JInt (n : Z)
| JStr (s : string)
| JList (items : list json)
| JDict (kvs : list (string * json)).

Module Py.

(** [bool(v)] *)
Definition truthy (v : json) : bool :=
  match v with
  | JNull => false
  | JBool b => b
  | JInt n => negb (n =? 0)
  | JStr s => PyStr.nonempty s
  | JList l => match l with [] => false | _ => true end
  | JDict l => match l with [] => false | _ => true end
  end.

(** [a or b] *)
Definition or (a b : json) : json := if truthy a then a else b.

(** A dict is an association list; a key is looked up at its first
    binding (the dicts of [json.loads] have one binding per key). *)
Fixpoint lookup {A : Type} (k : string) (kvs : list (string * A)) : option A :=
  match kvs with
  | [] => None
  | (k', v) :: r => if String.eqb k k' then Some v else lookup k r
  end.

Section Values.
Context {A B : Type} (f : A -> B).

(** The dict with [f] applied to every value. *)
Fixpoint map_values (kvs : list (string * A)) : list (string * B) :=
  match kvs with
  | [] => []
  | (k, v) :: r => (k, f v) :: map_values r
  end.
End Values.

(** [k in d] *)
Definition has_key (k : string) (d : list (string * json)) : bool :=
  match lookup k d with Some _ => true | None => false end.

(** [d.get(k, default)] *)
Definition get (d : list (string * json)) (k : string) (default : json) : json :=
  match lookup k d with Some v => v | None => default end.

(** The integer an operand of [+] or [//] stands for; [bool] is a
    subclass of [int].  Every other operand makes
    [a + b // 2] and [(a + b) // 2] raise [TypeError]. *)
Definition as_int (v : json) : option Z :=
  match v with
  | JInt n => Some n
  | JBool b => Some (if b then 1 else 0)
  | _ => None
  end.

(** [a + b // 2] *)
Definition add_half (a b : json) : res Z :=
  match as_int a, as_int b with
  | Some x, Some w => Ok (x + w / 2)
  | _, _ => Raise TypeError
  end.

(** [(a + b) // 2] *)
Definition half_sum (a b : json) : res Z :=
  match as_int a, as_int b with
  | Some x, Some y => Ok ((x + y) / 2)
  | _, _ => Raise TypeError
  end.

(** The pair [(x, y)] once both components are evaluated, [x] first. *)
Definition pair (x y : res Z) : res (Z * Z) :=
  match x with
  | Ok a => match y with
            | Ok b => Ok (a, b)
            | Raise e => Raise e
            | OutOfFuel => OutOfFuel
            end
  | Raise e => Raise e
  | OutOfFuel => OutOfFuel
  end.

End Py.

(** ** The element resolver *)

(** [IOSDevice._get_center_coordinates] *)
Definition _get_center_coordinates (bounds : json) : res (Z * Z) :=
  match bounds with
  | JDict d =>
      if Py.has_key "x" d && Py.has_key "y" d
         && Py.has_key "width" d && Py.has_key "height" d
      then Py.pair (Py.add_half (Py.get d "x" JNull) (Py.get d "width" JNull))
                   (Py.add_half (Py.get d "y" JNull) (Py.get d "height" JNull))
      else if Py.has_key "left" d && Py.has_key "top" d
              && Py.has_key "right" d && Py.has_key "bottom" d
      then Py.pair (Py.half_sum (Py.get d "left" JNull) (Py.get d "right" JNull))
                   (Py.half_sum (Py.get d "top" JNull) (Py.get d "bottom" JNull))
      else Ok (100, 100)
  | JList (b0 :: b1 :: b2 :: b3 :: _) =>
      Py.pair (Py.half_sum b0 b2) (Py.half_sum b1 b3)
  | _ => Ok (100, 100)
  end.

Section Loop.
Context {A : Type} (search : A -> res (option (Z * Z))).

(** [for x in xs: result = search(x); if result: return result], then
    [None].  A tuple [(x, y)] is true, so [if result:] is the test that
    the result is not [None]. *)
Fixpoint first_result (xs : list A) : res (option (Z * Z)) :=
  match xs with
  | [] => Ok None
  | x :: rest =>
      match search x with
      | Ok None => first_result rest
      | r => r
      end
  end.
End Loop.

Section Resolver.

(** The arguments [text] and [exact_match] of [_find_element_by_text],
    captured by the closure [search_recursive]. *)
Variable text : string.
Variable exact_match : bool.

(** [element.get("text", "") or element.get("label", "") or
    element.get("name", "")] *)
Definition element_text (element : list (string * json)) : json :=
  Py.or (Py.or (Py.get element "text" (JStr "")) (Py.get element "label" (JStr "")))
        (Py.get element "name" (JStr "")).

(** [element.get("bounds") or element.get("frame")] *)
Definition element_bounds (element : list (string * json)) : json :=
  Py.or (Py.get element "bounds" JNull) (Py.get element "frame" JNull).

(** [element.get("children", []) or element.get("elements", [])] *)
Definition element_children (element : list (string * json)) : json :=
  Py.or (Py.get element "children" (JList [])) (Py.get element "elements" (JList [])).

(** The key under which [element_children] finds its value, when it is
    not the default [[]]. *)
Definition children_key (element : list (string * json)) : string :=
  if Py.truthy (Py.get element "children" (JList [])) then "children" else "elements".

(** The test on the text of a node: [element_text == text] when
    [exact_match], [text.lower() in element_text.lower()] otherwise.  A
    value that is not a string is never equal to [text] and has no
    [lower]. *)
Definition text_test (et : json) : res bool :=
  if exact_match then
    match et with
    | JStr t => Ok (String.eqb t text)
    | _ => Ok false
    end
  else
    match et with
    | JStr t => Ok (PyStr.contains (PyStr.lower text) (PyStr.lower t))
    | _ => Raise AttributeError
    end.

(** The block under [if element_text:].  [Some r]: the function leaves
    with [r] there; [None]: control reaches the search in the children. *)
Definition check_element (element : list (string * json))
  : option (res (option (Z * Z))) :=
  let et := element_text element in
  if Py.truthy et then
    match text_test et with
    | Ok true =>
        let bounds := element_bounds element in
        if Py.truthy bounds then
          match _get_center_coordinates bounds with
          | Ok c => Some (Ok (Some c))
          | Raise e => Some (Raise e)
          | OutOfFuel => Some OutOfFuel
          end
        else None
    | Ok false => None
    | Raise e => Some (Raise e)
    | OutOfFuel => Some OutOfFuel
    end
  else None.

(** [search_recursive], with the loop [for child in children] as
    [for_each]: a list is gone through, the keys of a dict and the
    characters of a string are visited and are no elements, anything
    else cannot be iterated.  The loop is computed for every value of the
    dict and the one of [element_children] is taken, which keeps the
    recursion structural. *)
Fixpoint search_recursive (element : json) : res (option (Z * Z)) :=
  match element with
  | JDict kvs =>
      match check_element kvs with
      | Some r => r
      | None =>
          match Py.lookup (children_key kvs) (Py.map_values for_each kvs) with
          | Some r => r
          | None => Ok None
          end
      end
  | JList items => first_result search_recursive items
  | _ => Ok None
  end
with for_each (children : json) : res (option (Z * Z)) :=
  match children with
  | JList items => first_result search_recursive items
  | JDict _ | JStr _ => Ok None
  | JNull | JBool _ | JInt _ => Raise TypeError
  end.

(** [IOSDevice._find_element_by_text] *)
Definition _find_element_by_text (ui_info : json) : res (option (Z * Z)) :=
  search_recursive ui_info.

End Resolver.

(** ** External processes and the session *)

(** What [subprocess.run(argv, capture_output=True, text=True, check=True)]
    does: the process exits with status zero and its standard output is
    captured, it exits with another status ([CalledProcessError]), the
    executable does not exist on the host ([FileNotFoundError]), or the
    call raises an exception of another class, named [cls]: a
    [PermissionError] for an executable that may not be run, a
    [UnicodeDecodeError] for an output that is no text, a [ValueError]
    for an argument with a null character, and so on. *)
Inductive outcome : Type :=
| Exit0 (stdout : string)
| NonZero
| Missing
| Fails (cls : string).

(** The host the library runs on.  [json_loads] is [json.loads], [None]
    when the text is not JSON; the clock counts milliseconds. *)
Class Host (World : Type) : Type := {
  host_run : list string -> World -> outcome * World;
  host_time : World -> Z * World;
  host_sleep : Z -> World -> World;
  json_loads : string -> option json
}.

(** A record of the list built by [list_devices]:
    [{"udid": ..., "name": ..., "ios_version": ...}]. *)
Record Device : Type := {
  d_udid : string;
  d_name : string;
  d_ios_version : string
}.

(** The fields of an [IOSDevice]. *)
Record Session : Type := {
  udid : option string;
  _device_info : option Device;
  _connected : bool
}.

(** [IOSDevice.__init__] *)
Definition __init__ (u : option string) : Session :=
  {| udid := u; _device_info := None; _connected := false |}.

(** One call of [subprocess.run] and what came of it. *)
Definition call : Type := (list string * outcome)%type.

Record Machine (World : Type) : Type := {
  session : Session;
  world : World;
  calls : list call
}.

Arguments session {World} m.
Arguments world {World} m.
Arguments calls {World} m.

(** Computations of the facade: they read and write the machine and end
    with a value or a raised exception. *)
Definition M (World A : Type) : Type := Machine World -> res A * Machine World.

Section Monad.

Context {World : Type}.

Definition ret {A} (a : A) : M World A := fun m => (Ok a, m).

Definition raise {A} (e : exn) : M World A := fun m => (Raise e, m).

Definition out_of_fuel {A} : M World A := fun m => (OutOfFuel, m).

Definition bind {A B} (c : M World A) (k : A -> M World B) : M World B :=
  fun m =>
    match c m with
    | (Ok a, m') => k a m'
    | (Raise e, m') => (Raise e, m')
    | (OutOfFuel, m') => (OutOfFuel, m')
    end.

(** [try: body / except ...: handler]; [handler e] is [None] when no
    [except] clause matches the class of [e]. *)
Definition try_except {A} (body : M World A) (handler : exn -> option (M World A))
  : M World A :=
  fun m =>
    match body m with
    | (Raise e, m') =>
        match handler e with
        | Some h => h m'
        | None => (Raise e, m')
        end
    | r => r
    end.

(** A pure computation that may have raised. *)
Definition lift {A} (r : res A) : M World A := fun m => (r, m).

Definition get_session : M World Session := fun m => (Ok (session m), m).

Definition put_session (s : Session) : M World unit :=
  fun m => (Ok tt, {| session := s; world := world m; calls := calls m |}).

End Monad.

(** [let* x := c in k] runs [c], names its value [x] and goes on with
    [k]; an exception raised by [c] ends the computation. *)
Notation "'let*' x ':=' c 'in' k" := (bind c (fun x => k))
  (at level 10, x name, c at level 100, k at level 200).

(** ** The device facade *)

(** An entry of the list built by [list_apps]. *)
Record App : Type := {
  bundle_id : string;
  app_name : string
}.

Section Facade.

Context {World : Type} `{Host World}.

(** [subprocess.run(argv, capture_output=True, text=True, check=True)],
    giving the captured standard output. *)
Definition subprocess_run (argv : list string) : M World string :=
  fun m =>
    let '(o, w) := host_run argv (world m) in
    let m' := {| session := session m; world := w; calls := calls m ++ [(argv, o)] |} in
    match o with
    | Exit0 out => (Ok out, m')
    | NonZero => (Raise CalledProcessError, m')
    | Missing => (Raise FileNotFoundError, m')
    | Fails cls => (Raise (OtherException cls), m')
    end.

(** [time.time()] *)
Definition time_time : M World Z :=
  fun m =>
    let '(t, w) := host_time (world m) in
    (Ok t, {| session := session m; world := w; calls := calls m |}).

(** [time.sleep] *)
Definition time_sleep (ms : Z) : M World unit :=
  fun m =>
    (Ok tt, {| session := session m; world := host_sleep ms (world m);
               calls := calls m |}).

Definition set_udid (u : option string) : M World unit :=
  let* s := get_session in
  put_session {| udid := u; _device_info := _device_info s; _connected := _connected s |}.

Definition set_device_info (d : option Device) : M World unit :=
  let* s := get_session in
  put_session {| udid := udid s; _device_info := d; _connected := _connected s |}.

Definition set_connected (b : bool) : M World unit :=
  let* s := get_session in
  put_session {| udid := udid s; _device_info := _device_info s; _connected := b |}.

(** [self.udid] as an element of an argument list: [subprocess.run]
    raises [TypeError] on [None]. *)
Definition self_udid : M World string :=
  let* s := get_session in
  match udid s with
  | Some u => ret u
  | None => raise TypeError
  end.

(** The property [is_connected]. *)
Definition is_connected : M World bool :=
  let* s := get_session in ret (_connected s).

(** The property [device_info]. *)
Definition device_info : M World (option Device) :=
  let* s := get_session in ret (_device_info s).

(** [if not self.is_connected: raise IOSConnectionError("Device not connected")] *)
Definition require_connected : M World unit :=
  let* c := is_connected in
  if c then ret tt else raise IOSConnectionError.

(** The [except] clauses shared by the single-tool operations. *)
Definition tool_failure {A} (e : exn) : option (M World A) :=
  match e with
  | CalledProcessError => Some (raise IOSConnectionError)
  | FileNotFoundError => Some (raise UnsupportedOperationError)
  | _ => None
  end.

(** [except Exception as e: raise IOSConnectionError(...)] *)
Definition any_failure {A} (e : exn) : option (M World A) :=
  Some (raise IOSConnectionError).

(** *** Discovery *)

Definition unknown_device (u : string) : Device :=
  {| d_udid := u; d_name := "Unknown Device"; d_ios_version := "Unknown" |}.

(** [[uid for uid in result.stdout.strip().split("\n") if uid]] *)
Definition device_ids (stdout : string) : list string :=
  List.filter PyStr.nonempty (PyStr.split_lines (PyStr.strip stdout)).

Definition name_command (u : string) : list string :=
  ["ideviceinfo"; "-u"; u; "-k"; "DeviceName"].

Definition version_command (u : string) : list string :=
  ["ideviceinfo"; "-u"; u; "-k"; "ProductVersion"].

(** The body of [for udid in device_ids]: the record appended to
    [devices]. *)
Definition device_record (u : string) : M World Device :=
  try_except
    (let* name_out := subprocess_run (name_command u) in
     let* version_out := subprocess_run (version_command u) in
     ret {| d_udid := u; d_name := PyStr.strip name_out;
            d_ios_version := PyStr.strip version_out |})
    (fun e => match e with
              | CalledProcessError => Some (ret (unknown_device u))
              | _ => None
              end).

Fixpoint for_udid (ids : list string) (devices : list Device) : M World (list Device) :=
  match ids with
  | [] => ret devices
  | u :: rest => let* d := device_record u in for_udid rest (devices ++ [d])
  end.

(** [IOSDevice.list_devices] *)
Definition list_devices : M World (list Device) :=
  try_except
    (let* out := subprocess_run ["idevice_id"; "-l"] in
     for_udid (device_ids out) [])
    (fun e => match e with
              | CalledProcessError | FileNotFoundError => Some (ret [])
              | _ => None
              end).

(** *** Life cycle *)

(** [if self.udid:] *)
Definition udid_given (u : option string) : bool :=
  match u with
  | Some s => PyStr.nonempty s
  | None => false
  end.

(** [d.get("udid") == self.udid] *)
Definition has_udid (u : option string) (d : Device) : bool :=
  match u with
  | Some s => String.eqb (d_udid d) s
  | None => false
  end.

(** [IOSDevice.connect] *)
Definition connect : M World bool :=
  try_except
    (let* devices := list_devices in
     match devices with
     | [] => raise DeviceNotFoundError
     | first :: _ =>
         let* s := get_session in
         let* device :=
           (if udid_given (udid s) then
              match List.find (has_udid (udid s)) devices with
              | Some d => ret d
              | None => raise DeviceNotFoundError
              end
            else
              let* _ := set_udid (Some (d_udid first)) in ret first) in
         let* _ := set_device_info (Some device) in
         let* _ := set_connected true in
         ret true
     end)
    any_failure.

(** [IOSDevice.disconnect] *)
Definition disconnect : M World unit :=
  let* _ := set_connected false in
  set_device_info None.

(** [IOSDevice.__enter__] *)
Definition __enter__ : M World unit :=
  let* _ := connect in ret tt.

(** [IOSDevice.__exit__] *)
Definition __exit__ : M World unit :=
  disconnect.

(** [IOSDevice.__str__] *)
Definition __str__ : M World string :=
  let* s := get_session in
  let u := match udid s with Some u => u | None => "None" end in
  match _device_info s with
  | Some d => ret ("IOSDevice(udid=" +:+ u +:+ ", name=" +:+ d_name d +:+ ")")
  | None =>
      ret ("IOSDevice(udid=" +:+ u +:+ ", connected="
           +:+ (if _connected s then "True" else "False") +:+ ")")
  end.

(** *** Information and applications *)

(** The loop of [get_device_info] over the lines of the dump. *)
Definition info_line (info : gmap string string) (line : string) : gmap string string :=
  if PyStr.contains ":" line then
    match PyStr.split_once ":" line with
    | Some (key, value) => <[PyStr.strip key := PyStr.strip value]> info
    | None => info
    end
  else info.

Definition parse_info (stdout : string) : gmap string string :=
  fold_left info_line (PyStr.split_lines stdout) ∅.

(** [IOSDevice.get_device_info] *)
Definition get_device_info : M World (gmap string string) :=
  let* _ := require_connected in
  try_except
    (let* u := self_udid in
     let* out := subprocess_run ["ideviceinfo"; "-u"; u] in
     ret (parse_info out))
    tool_failure.

(** [IOSDevice.install_app] *)
Definition install_app (ipa_path : string) : M World bool :=
  let* _ := require_connected in
  try_except
    (let* u := self_udid in
     let* _ := subprocess_run ["ideviceinstaller"; "-u"; u; "-i"; ipa_path] in
     ret true)
    tool_failure.

(** [IOSDevice.uninstall_app] *)
Definition uninstall_app (bundle : string) : M World bool :=
  let* _ := require_connected in
  try_except
    (let* u := self_udid in
     let* _ := subprocess_run ["ideviceinstaller"; "-u"; u; "-U"; bundle] in
     ret true)
    tool_failure.

(** The loop of [list_apps] over the lines of the listing. *)
Definition app_line (apps : list App) (line : string) : list App :=
  if PyStr.contains " - " line then
    match PyStr.split_once " - " line with
    | Some (a, b) => apps ++ [{| bundle_id := PyStr.strip a; app_name := PyStr.strip b |}]
    | None => apps
    end
  else apps.

(** [IOSDevice.list_apps] *)
Definition list_apps : M World (list App) :=
  let* _ := require_connected in
  try_except
    (let* u := self_udid in
     let* out := subprocess_run ["ideviceinstaller"; "-u"; u; "-l"] in
     ret (fold_left app_line (PyStr.split_lines out) []))
    tool_failure.

(** [IOSDevice.reboot] *)
Definition reboot : M World bool :=
  let* _ := require_connected in
  try_except
    (let* u := self_udid in
     let* _ := subprocess_run ["idevicediagnostics"; "-u"; u; "restart"] in
     ret true)
    tool_failure.

(** [IOSDevice.screenshot] *)
Definition screenshot (output_path : string) : M World string :=
  let* _ := require_connected in
  try_except
    (let* u := self_udid in
     let* _ := subprocess_run ["idevicescreenshot"; "-u"; u; output_path] in
     ret output_path)
    tool_failure.

(** *** Gestures *)

Definition dvt (operation : string) (u : string) (arguments : list string) : list string :=
  ["python3"; "-m"; "pymobiledevice3"; "developer"; "dvt"; operation; "--udid"; u]
    ++ arguments.

Definition tidevice (operation : string) (u : string) (arguments : list string) : list string :=
  ["tidevice"; "--udid"; u; operation] ++ arguments.

(** The [try] statement of [tap], [swipe], [input_text] and
    [home_button]: the command of the first tool, the command of the
    second one when the first exits with a failure, and the exception
    raised when the first tool does not exist. *)
Definition with_fallback (primary secondary : string -> list string) : M World bool :=
  try_except
    (let* u := self_udid in
     let* _ := subprocess_run (primary u) in
     ret true)
    (fun e =>
       match e with
       | CalledProcessError =>
           Some (try_except
                   (let* u := self_udid in
                    let* _ := subprocess_run (secondary u) in
                    ret true)
                   (fun e' =>
                      match e' with
                      | CalledProcessError | FileNotFoundError =>
                          Some (raise IOSConnectionError)
                      | _ => None
                      end))
       | FileNotFoundError => Some (raise UnsupportedOperationError)
       | _ => None
       end).

(** [str(x)] for an [int]. *)
Definition str (x : Z) : string := pretty x.

Definition tap_primary (x y : Z) (u : string) : list string :=
  dvt "tap" u [str x; str y].

Definition tap_secondary (x y : Z) (u : string) : list string :=
  tidevice "tap" u [str x; str y].

(** [IOSDevice.tap] *)
Definition tap (x y : Z) : M World bool :=
  let* _ := require_connected in
  with_fallback (tap_primary x y) (tap_secondary x y).

(** [IOSDevice.swipe]; [duration] is the text [str(duration)] of the
    number of seconds. *)
Definition swipe (start_x start_y end_x end_y : Z) (duration : string) : M World bool :=
  let* _ := require_connected in
  with_fallback
    (fun u => dvt "swipe" u [str start_x; str start_y; str end_x; str end_y;
                             "--duration"; duration])
    (fun u => tidevice "swipe" u [str start_x; str start_y; str end_x; str end_y]).

(** [IOSDevice.input_text] *)
Definition input_text (t : string) : M World bool :=
  let* _ := require_connected in
  with_fallback (fun u => dvt "input" u [t]) (fun u => tidevice "input" u [t]).

(** [IOSDevice.long_press] *)
Definition long_press (x y : Z) (duration : string) : M World bool :=
  let* _ := require_connected in
  try_except
    (let* u := self_udid in
     let* _ := subprocess_run (dvt "longpress" u [str x; str y; "--duration"; duration]) in
     ret true)
    tool_failure.

(** [IOSDevice.home_button] *)
Definition home_button : M World bool :=
  let* _ := require_connected in
  with_fallback (fun u => dvt "home" u []) (fun u => tidevice "home" u []).

(** [IOSDevice.back_button] *)
Definition back_button : M World bool :=
  let* _ := require_connected in
  try_except (swipe 10 300 200 300 "0.3") any_failure.

(** *** Elements by text *)

(** [IOSDevice._get_ui_hierarchy] *)
Definition _get_ui_hierarchy : M World json :=
  try_except
    (let* u := self_udid in
     let* out := subprocess_run (dvt "ui" u ["--format"; "json"]) in
     match json_loads out with
     | Some ui => ret ui
     | None => raise JSONDecodeError
     end)
    (fun e =>
       match e with
       | CalledProcessError =>
           Some (try_except
                   (let* u := self_udid in
                    let* out := subprocess_run ["tidevice"; "--udid"; u; "dump-hierarchy"] in
                    ret (JDict [("hierarchy", JStr out)]))
                   (fun e' =>
                      match e' with
                      | CalledProcessError | FileNotFoundError =>
                          Some (raise UnsupportedOperationError)
                      | _ => None
                      end))
       | FileNotFoundError => Some (raise UnsupportedOperationError)
       | _ => None
       end).

(** [IOSDevice.tap_by_text] *)
Definition tap_by_text (t : string) (exact_match : bool) : M World bool :=
  let* _ := require_connected in
  try_except
    (let* ui_info := _get_ui_hierarchy in
     let* coordinates := lift (_find_element_by_text t exact_match ui_info) in
     match coordinates with
     | Some (x, y) => tap x y
     | None => raise IOSConnectionError
     end)
    any_failure.

(** One turn of the loop of [wait_for_element_by_text]: [true] when the
    element is there and the method returns. *)
Definition poll (t : string) (exact_match : bool) : M World bool :=
  try_except
    (let* ui_info := _get_ui_hierarchy in
     let* coordinates := lift (_find_element_by_text t exact_match ui_info) in
     match coordinates with
     | Some _ => ret true
     | None => let* _ := time_sleep 500 in ret false
     end)
    (fun _ => Some (let* _ := time_sleep 500 in ret false)).

(** [while time.time() - start_time < timeout], at most [fuel] turns. *)
Fixpoint wait_loop (fuel : nat) (start_time timeout : Z) (t : string)
  (exact_match : bool) : M World bool :=
  match fuel with
  | O => out_of_fuel
  | S fuel' =>
      let* now := time_time in
      if now - start_time <? timeout * 1000 then
        let* found := poll t exact_match in
        if found then ret true
        else wait_loop fuel' start_time timeout t exact_match
      else ret false
  end.

(** [IOSDevice.wait_for_element_by_text] *)
Definition wait_for_element_by_text (fuel : nat) (t : string) (timeout : Z)
  (exact_match : bool) : M World bool :=
  let* _ := require_connected in
  let* start_time := time_time in
  wait_loop fuel start_time timeout t exact_match.

(** *** Screen size *)

Definition screen_sizes : list (string * (Z * Z)) :=
  [ ("iPhone16,2", (393, 852)); ("iPhone16,1", (393, 852));
    ("iPhone15,5", (428, 926)); ("iPhone15,4", (390, 844));
    ("iPhone14,3", (428, 926)); ("iPhone14,2", (390, 844));
    ("iPhone13,4", (428, 926)); ("iPhone13,3", (390, 844));
    ("iPad14,6", (1024, 1366)); ("iPad13,11", (1024, 1366)) ].

(** [IOSDevice.get_screen_size] *)
Definition get_screen_size : M World (Z * Z) :=
  let* _ := require_connected in
  try_except
    (let* info := get_device_info in
     let product_type := default "" (info !! "ProductType") in
     ret (default (375, 667) (Py.lookup product_type screen_sizes)))
    (fun _ => Some (ret (375, 667))).

(** *** The operations of the facade *)

Inductive operation : Type :=
| Connect
| Disconnect
| Enter
| Exit
| IsConnected
| DeviceInfo
| Str
| ListDevices
| GetDeviceInfo
| InstallApp (ipa_path : string)
| UninstallApp (bundle : string)
| ListApps
| Reboot
| Screenshot (output_path : string)
| Tap (x y : Z)
| Swipe (start_x start_y end_x end_y : Z) (duration : string)
| InputText (t : string)
| TapByText (t : string) (exact_match : bool)
| LongPress (x y : Z) (duration : string)
| HomeButton
| BackButton
| WaitForElementByText (fuel : nat) (t : string) (timeout : Z) (exact_match : bool)
| GetScreenSize.

Inductive value : Type :=
| VNone
| VBool (b : bool)
| VStr (s : string)
| VDevice (d : option Device)
| VDevices (l : list Device)
| VInfo (i : gmap string string)
| VApps (l : list App)
| VPoint (p : Z * Z).

Definition fmap_M {A B} (f : A -> B) (c : M World A) : M World B :=
  let* a := c in ret (f a).

Definition exec (o : operation) : M World value :=
  match o with
  | Connect => fmap_M VBool connect
  | Disconnect => fmap_M (fun _ => VNone) disconnect
  | Enter => fmap_M (fun _ => VNone) __enter__
  | Exit => fmap_M (fun _ => VNone) __exit__
  | IsConnected => fmap_M VBool is_connected
  | DeviceInfo => fmap_M VDevice device_info
  | Str => fmap_M VStr __str__
  | ListDevices => fmap_M VDevices list_devices
  | GetDeviceInfo => fmap_M VInfo get_device_info
  | InstallApp p => fmap_M VBool (install_app p)
  | UninstallApp b => fmap_M VBool (uninstall_app b)
  | ListApps => fmap_M VApps list_apps
  | Reboot => fmap_M VBool reboot
  | Screenshot p => fmap_M VStr (screenshot p)
  | Tap x y => fmap_M VBool (tap x y)
  | Swipe a b c d t => fmap_M VBool (swipe a b c d t)
  | InputText t => fmap_M VBool (input_text t)
  | TapByText t e => fmap_M VBool (tap_by_text t e)
  | LongPress x y d => fmap_M VBool (long_press x y d)
  | HomeButton => fmap_M VBool home_button
  | BackButton => fmap_M VBool back_button
  | WaitForElementByText f t n e => fmap_M VBool (wait_for_element_by_text f t n e)
  | GetScreenSize => fmap_M VPoint get_screen_size
  end.

(** The operations that write the session. *)
Definition life_cycle (o : operation) : bool :=
  match o with
  | Connect | Disconnect | Enter | Exit => true
  | _ => false
  end.

End Facade.

(** ** A host that replays recorded outcomes *)

(** The outcomes of the successive calls of [subprocess.run], in order,
    as the [side_effect] list of a mocked [subprocess]; nothing can be run
    once the list is used up.  The clock moves when the program sleeps. *)
Record Script : Type := {
  replies : list outcome;
  clock : Z
}.

#[global] Instance scripted : Host Script := {
  host_run _ w :=
    match replies w with
    | [] => (Missing, w)
    | o :: r => (o, {| replies := r; clock := clock w |})
    end;
  host_time w := (clock w, w);
  host_sleep ms w := {| replies := replies w; clock := clock w + ms |};
  json_loads _ := None
}.

Definition machine (s : Session) (outcomes : list outcome) : Machine Script :=
  {| session := s; world := {| replies := outcomes; clock := 0 |}; calls := [] |}.

(** ** The resolver as the specification words it *)

Section ResolverSpec.

Variable text : string.
Variable exact_match : bool.

(** The mapping nodes of a hierarchy in depth-first pre-order: a mapping
    comes before the nodes of its children collection, the elements of
    a sequence follow one another. *)
Fixpoint preorder (h : json) : list (list (string * json)) :=
  match h with
  | JDict kvs =>
      kvs :: default [] (Py.lookup (children_key kvs) (Py.map_values collection kvs))
  | JList items => flat_map preorder items
  | _ => []
  end
with collection (children : json) : list (list (string * json)) :=
  match children with
  | JList items => flat_map preorder items
  | _ => []
  end.

(** The text of a node: the first non-empty of its three text fields. *)
Definition node_text (node : list (string * json)) : option string :=
  match element_text node with
  | JStr t => if PyStr.nonempty t then Some t else None
  | _ => None
  end.

(** The match rule: full equality when [exact_match], substring
    without regard to case otherwise. *)
Definition matches (t : string) : bool :=
  if exact_match then String.eqb t text
  else PyStr.contains (PyStr.lower text) (PyStr.lower t).

(** A node counts when its text matches and it carries bounds. *)
Definition counts (node : list (string * json)) : bool :=
  match node_text node with
  | Some t => matches t && Py.truthy (element_bounds node)
  | None => false
  end.

(** The center of the first node that counts in a list of nodes, no
    match when there is none. *)
Definition center_of_first (nodes : list (list (string * json)))
  : res (option (Z * Z)) :=
  match List.find counts nodes with
  | Some node =>
      match _get_center_coordinates (element_bounds node) with
      | Ok c => Ok (Some c)
      | Raise e => Raise e
      | OutOfFuel => OutOfFuel
      end
  | None => Ok None
  end.

Definition first_match (h : json) : res (option (Z * Z)) :=
  center_of_first (preorder h).

End ResolverSpec.

(** A hierarchy as the data model has it: the text fields of a mapping
    hold strings, its children collection is a sequence of nodes. *)
Definition text_field (node : list (string * json)) (k : string) : bool :=
  match Py.lookup k node with
  | Some (JStr _) | None => true
  | Some _ => false
  end.

Fixpoint hierarchy (h : json) : bool :=
  match h with
  | JDict kvs =>
      text_field kvs "text" && text_field kvs "label" && text_field kvs "name"
      && default true (Py.lookup (children_key kvs) (Py.map_values sequence kvs))
  | JList items => forallb hierarchy items
  | _ => true
  end
with sequence (children : json) : bool :=
  match children with
  | JList items => forallb hierarchy items
  | _ => false
  end.

(** [q] occurs in [t]. *)
Definition occurs_in (q t : string) : Prop :=
  exists before after, t = before +:+ q +:+ after.

(** The bounds values the decoding has a formula for: a mapping with
    the keys of one of the two conventions, a sequence of four elements
    or more. *)
Definition decoded (bounds : json) : bool :=
  match bounds with
  | JDict d =>
      (Py.has_key "x" d && Py.has_key "y" d
       && Py.has_key "width" d && Py.has_key "height" d)
      || (Py.has_key "left" d && Py.has_key "top" d
          && Py.has_key "right" d && Py.has_key "bottom" d)
  | JList items => (4 <=? List.length items)%nat
  | _ => false
  end.

(** ** Sample inputs *)

(** A screen with a title that has no bounds, a button under it and a
    second button after it. *)
Definition screen_example : json :=
  JDict
    [ ("name", JStr "Window");
      ("children",
        JList
          [ JDict [ ("text", JStr "Save");
                    ("elements",
                      JList [ JDict [ ("label", JStr "Save changes");
                                      ("frame", JList [JInt 10; JInt 20; JInt 110; JInt 60]) ] ]) ];
            JDict [ ("text", JStr "Save");
                    ("bounds", JDict [ ("x", JInt 0); ("y", JInt 100);
                                       ("width", JInt 80); ("height", JInt 40) ]) ] ]) ].

(** The shapes of bounds the specification names: the mappings of the
    two conventions and the sequence of four elements. *)
Definition named_shape (bounds : json) : bool :=
  match bounds with
  | JDict d =>
      (Py.has_key "x" d && Py.has_key "y" d
       && Py.has_key "width" d && Py.has_key "height" d)
      || (Py.has_key "left" d && Py.has_key "top" d
          && Py.has_key "right" d && Py.has_key "bottom" d)
  | JList items => (List.length items =? 4)%nat
  | _ => false
  end.

(** A node with a text and a bounds value. *)
Definition labelled (t : string) (bounds : json) : json :=
  JDict [("text", JStr t); ("bounds", bounds)].

(** A line of output: the text and the newline that ends it. *)
Definition line (s : string) : string := s +:+ String "010"%char "".

(** The session of the test [test_connect_specific_device_not_found] on a
    host where discovery finds one other device. *)
Definition other_device_host : Machine Script :=
  machine (__init__ (Some "non-existent-udid"))
    [Exit0 (line "other-udid"); Exit0 (line "Other Device"); Exit0 (line "17.0")].

(** A connected session. *)
Definition connected_session : Session :=
  {| udid := Some "A1";
     _device_info := Some {| d_udid := "A1"; d_name := "iPhone"; d_ios_version := "17.0" |};
     _connected := true |}.

Section Trace.

Context {World : Type}.

(** The machine after one call of [subprocess.run]. *)
Definition after_call (m : Machine World) (argv : list string) (o : outcome) (w : World)
  : Machine World :=
  {| session := session m; world := w; calls := calls m ++ [(argv, o)] |}.

(** A computation that never writes the session. *)
Definition keeps_session {A : Type} (c : M World A) : Prop :=
  forall m : Machine World, session (snd (c m)) = session m.

(** A computation that only adds to the record of the calls. *)
Definition grows {A : Type} (c : M World A) : Prop :=
  forall m : Machine World, exists cs, calls (snd (c m)) = (calls m ++ cs)%list.

(** A computation that raises an exception of another class only when
    the last command it ran raised it. *)
Definition passes_on {A : Type} (c : M World A) : Prop :=
  grows c
  /\ forall (m : Machine World) (cls : string),
      fst (c m) = Raise (OtherException cls) ->
      exists cs argv, calls (snd (c m)) = (calls m ++ cs ++ [(argv, Fails cls)])%list.

End Trace.

(** The invariant of a session: a connected session has its device
    record and a non-empty udid. *)
Definition session_ok (s : Session) : Prop :=
  _connected s = true ->
  (exists d, _device_info s = Some d) /\ (exists u, udid s = Some u /\ u <> "").

(** ** The information dump as the specification words it *)

(** The key and the value a line with a colon gives: the text before its
    first colon and the text after it, white space stripped from both. *)
Definition key_value (ln key value : string) : Prop :=
  exists a b,
    ln = a +:+ ":" +:+ b /\ ~ occurs_in ":" a
    /\ key = PyStr.strip a /\ value = PyStr.strip b.

(** The value of a key in the mapping: the one given by the last line
    that gives the key one. *)
Definition last_value (lines : list string) (key value : string) : Prop :=
  exists before ln after,
    lines = (before ++ ln :: after)%list
    /\ key_value ln key value
    /\ forall ln' value', In ln' after -> ~ key_value ln' key value'.

(** The same, computed. *)
Definition line_entry (ln : string) : option (string * string) :=
  match PyStr.split_once ":" ln with
  | Some (a, b) => Some (PyStr.strip a, PyStr.strip b)
  | None => None
  end.

Fixpoint last_entry (key : string) (lines : list string) : option string :=
  match lines with
  | [] => None
  | ln :: rest =>
      match last_entry key rest with
      | Some v => Some v
      | None =>
          match line_entry ln with
          | Some (k, v) => if String.eqb k key then Some v else None
          | None => None
          end
      end
  end.

(** A connected session and a dump with a repeated key. *)
Definition info_host : Machine Script :=
  machine connected_session
    [Exit0 (line "DeviceName: Test iPhone" +:+ line "no colon here"
            +:+ line "  TimeZone :  Europe/Paris:1 " +:+ line "DeviceName: Renamed")].

(** ** Discovery as the specification words it *)

(** The record of one identifier, read off the metadata commands run for
    it: the stripped name and version when both commands succeed, the
    placeholder when the name command fails (the version command is then
    not run) or the version command fails. *)
Inductive record_of (u : string) : list call -> Device -> Prop :=
| record_found (n v : string) :
    record_of u [(name_command u, Exit0 n); (version_command u, Exit0 v)]
      {| d_udid := u; d_name := PyStr.strip n; d_ios_version := PyStr.strip v |}
| record_name_failed :
    record_of u [(name_command u, NonZero)] (unknown_device u)
| record_version_failed (n : string) :
    record_of u [(name_command u, Exit0 n); (version_command u, NonZero)]
      (unknown_device u).

(** One record per identifier, in order. *)
Inductive looked_up : list string -> list call -> list Device -> Prop :=
| looked_up_nil : looked_up [] [] []
| looked_up_cons (u : string) (ids : list string) (cs1 cs : list call)
    (d : Device) (ds : list Device) :
    record_of u cs1 d ->
    looked_up ids cs ds ->
    looked_up (u :: ids) (cs1 ++ cs) (d :: ds).

Definition discovery_command : list string := ["idevice_id"; "-l"].

(** Discovery finds two devices; the version of the second cannot be
    read. *)
Definition two_devices_host : Machine Script :=
  machine (__init__ None)
    [Exit0 (line "A1" +:+ line "B2");
     Exit0 (line "iPhone"); Exit0 (line "17.0");
     Exit0 (line "iPad"); NonZero].

(** Discovery finds a device; the metadata tool is not installed. *)
Definition no_metadata_tool_host : Machine Script :=
  machine (__init__ None) [Exit0 (line "A1"); Missing].

(** A session that is not connected yet, on a host with one device. *)
Definition one_device_host : Machine Script :=
  machine (__init__ None) [Exit0 (line "A1"); Exit0 (line "iPhone"); Exit0 (line "17.0")].

(** ** Helpers for the further properties *)

(** The first and the last character of a string are not white space. *)
Definition no_outer_space (s : string) : Prop :=
  (forall c t, s = String c t -> PyStr.isspace c = false)
  /\ (forall t c, s = t +:+ String c "" -> PyStr.isspace c = false).

Definition newline : string := String "010"%char "".

(** The operations that first test [is_connected]. *)
Definition device_bound (o : operation) : bool :=
  match o with
  | Connect | Disconnect | Enter | Exit
  | IsConnected | DeviceInfo | Str | ListDevices => false
  | _ => true
  end.

(** The command line of the operations that rely on one tool:
    [get_device_info], [install_app], [uninstall_app], [list_apps],
    [reboot], [screenshot] and [long_press]. *)
Definition tool_command (o : operation) (u : string) : option (list string) :=
  match o with
  | GetDeviceInfo => Some ["ideviceinfo"; "-u"; u]
  | InstallApp ipa_path => Some ["ideviceinstaller"; "-u"; u; "-i"; ipa_path]
  | UninstallApp bundle => Some ["ideviceinstaller"; "-u"; u; "-U"; bundle]
  | ListApps => Some ["ideviceinstaller"; "-u"; u; "-l"]
  | Reboot => Some ["idevicediagnostics"; "-u"; u; "restart"]
  | Screenshot output_path => Some ["idevicescreenshot"; "-u"; u; output_path]
  | LongPress x y duration =>
      Some ["python3"; "-m"; "pymobiledevice3"; "developer"; "dvt"; "longpress";
            "--udid"; u; str x; str y; "--duration"; duration]
  | _ => None
  end.

(** The two command lines of the gestures that have a second tool:
    [tap], [swipe], [input_text] and [home_button]. *)
Definition gesture_commands (o : operation) (u : string)
  : option (list string * list string) :=
  match o with
  | Tap x y =>
      Some (["python3"; "-m"; "pymobiledevice3"; "developer"; "dvt"; "tap";
             "--udid"; u; str x; str y],
            ["tidevice"; "--udid"; u; "tap"; str x; str y])
  | Swipe x1 y1 x2 y2 duration =>
      Some (["python3"; "-m"; "pymobiledevice3"; "developer"; "dvt"; "swipe";
             "--udid"; u; str x1; str y1; str x2; str y2; "--duration"; duration],
            ["tidevice"; "--udid"; u; "swipe"; str x1; str y1; str x2; str y2])
  | InputText t =>
      Some (["python3"; "-m"; "pymobiledevice3"; "developer"; "dvt"; "input";
             "--udid"; u; t],
            ["tidevice"; "--udid"; u; "input"; t])
  | HomeButton =>
      Some (["python3"; "-m"; "pymobiledevice3"; "developer"; "dvt"; "home";
             "--udid"; u],
            ["tidevice"; "--udid"; u; "home"])
  | _ => None
  end.

Section Ends.

Context {World : Type}.

(** From a machine whose session is in [S], the computation leaves the
    session as it is and ends with a value in [Q] or with an exception in
    [P]; it runs out of fuel only if [F]. *)
Definition ends_in {A : Type} (S : Session -> Prop) (Q : A -> Prop) (P : exn -> Prop)
  (F : Prop) (c : M World A) : Prop :=
  forall m : Machine World,
    S (session m) ->
    session (snd (c m)) = session m
    /\ match fst (c m) with
       | Ok a => Q a
       | Raise e => P e
       | OutOfFuel => F
       end.

End Ends.

(** The two errors the operations are documented to raise. *)
Definition public_error (e : exn) : Prop :=
  e = IOSConnectionError \/ e = UnsupportedOperationError.

(** The two exceptions of [subprocess.run] the library names in its
    [except] clauses. *)
Definition tool_error (e : exn) : Prop :=
  e = CalledProcessError \/ e = FileNotFoundError.

(** An exception of a class the library does not name. *)
Definition other_error (e : exn) : Prop :=
  exists cls, e = OtherException cls.



(** A size of the table of [get_screen_size], or the default one. *)
Definition known_size (p : Z * Z) : Prop :=
  p = (375, 667) \/ exists model, Py.lookup model screen_sizes = Some p.

(** The command that dumps the hierarchy as JSON, and the one of the
    second tool. *)
Definition ui_command (u : string) : list string :=
  ["python3"; "-m"; "pymobiledevice3"; "developer"; "dvt"; "ui"; "--udid"; u;
   "--format"; "json"].

Definition dump_command (u : string) : list string :=
  ["tidevice"; "--udid"; u; "dump-hierarchy"].

(** A host that replays recorded outcomes and decodes the text
    [screen] to the sample screen. *)
Definition canned : Host Script := {|
  host_run := @host_run Script scripted;
  host_time := @host_time Script scripted;
  host_sleep := @host_sleep Script scripted;
  json_loads := fun out => if String.eqb out "screen" then Some screen_example else None
|}.

(** The first command of [back_button]: the swipe from the left edge. *)
Definition back_command (u : string) : list string :=
  ["python3"; "-m"; "pymobiledevice3"; "developer"; "dvt"; "swipe"; "--udid"; u;
   str 10; str 300; str 200; str 300; "--duration"; "0.3"].

Definition info_command (u : string) : list string := ["ideviceinfo"; "-u"; u].

(** A connected session and the dump of an iPhone 14. *)
Definition iphone14_host : Machine Script :=
  machine connected_session
    [Exit0 (line "DeviceName: Test iPhone" +:+ line "ProductType: iPhone15,4")].

Section WithSession.

Context {World : Type}.

(** The machine with another session. *)
Definition with_session (m : Machine World) (s : Session) : Machine World :=
  {| session := s; world := world m; calls := calls m |}.

End WithSession.

(** The entry a line of the listing of applications gives: the text
    before its first [" - "] and the text after it, both stripped. *)
Definition app_of_line (ln : string) : option App :=
  match PyStr.split_once " - " ln with
  | Some (a, b) => Some {| bundle_id := PyStr.strip a; app_name := PyStr.strip b |}
  | None => None
  end.

(** A host on which discovery finds two devices and every metadata
    command succeeds. *)
Definition two_named_devices_host (u : option string) : Machine Script :=
  machine (__init__ u)
    [Exit0 (line "A1" +:+ line "B2");
     Exit0 (line "iPhone"); Exit0 (line "17.0");
     Exit0 (line "iPad"); Exit0 (line " 16.5 ")].

(** ** The command line ([cli.py]) *)

(** What a [print] of the command line writes, by the statement it
    comes from and the data it shows. *)
Inductive message : Type :=
| MsgNoDevicesFound
| MsgFoundDevices (n : nat)
| MsgDevice (i : nat) (d : Device)
| MsgDeviceInformation (info : gmap string string)
| MsgScreenshotSaved (path : string)
| MsgFoundApps (apps : list App)
| MsgTapped (x y : Z)
| MsgTappedText (t : string) (exact : bool)
| MsgElementNotFound (t : string)
| MsgSwiped (x1 y1 x2 y2 : Z) (duration : string)
| MsgInputText (t : string)
| MsgPressedHome
| MsgBackGesture
| MsgLongPressed (x y : Z) (duration : string)
| MsgNoDeviceFound
| MsgConnectionError
| MsgHelp.

(** The host of a process with a standard output: the world and what
    has been printed. *)
#[global] Instance console_host {World : Type} `{Host World} : Host (World * list message) := {
  host_run argv w := let '(o, w') := host_run argv (fst w) in (o, (w', snd w));
  host_time w := let '(t, w') := host_time (fst w) in (t, (w', snd w));
  host_sleep ms w := (host_sleep ms (fst w), snd w);
  json_loads := json_loads
}.

(** The subcommand and its arguments, as [argparse] hands them over. *)
Inductive command : Type :=
| CmdDevices
| CmdInfo
| CmdScreenshot (output : string)
| CmdApps
| CmdTap (x y : Z)
| CmdTapText (t : string) (exact : bool)
| CmdSwipe (x1 y1 x2 y2 : Z) (duration : string)
| CmdInput (t : string)
| CmdHome
| CmdBack
| CmdLongPress (x y : Z) (duration : string).

Section Cli.

Context {World : Type} `{Host World}.

Local Abbreviation Console := (World * list message)%type.

(** [print(...)] *)
Definition print (msg : message) : M Console unit :=
  fun m =>
    (Ok tt, {| session := session m;
               world := (fst (world m), snd (world m) ++ [msg]);
               calls := calls m |}).

(** What has been printed. *)
Definition console (m : Machine Console) : list message := snd (world m).

(** [with IOSDevice(udid=udid) as device: body]: a new device, then
    [__enter__]; [__exit__] runs when the body is left, also by an
    exception, which goes on after it since [__exit__] returns [None]. *)
Definition with_device {A : Type} (u : option string) (body : M Console A) : M Console A :=
  let* _ := put_session (__init__ u) in
  let* _ := __enter__ in
  fun m =>
    let '(r, m') := body m in
    let '(r', m'') := __exit__ m' in
    (match r' with
     | Ok _ => r
     | Raise e => Raise e
     | OutOfFuel => OutOfFuel
     end, m'').

(** The statement every command on a device is made of:
    [try: with ...: body / except DeviceNotFoundError: ... return False /
    except IOSConnectionError as e: ... return False], then
    [return True] unless the body returned. *)
Definition device_command (u : option string) (body : M Console bool) : M Console bool :=
  try_except (with_device u body)
    (fun e =>
       match e with
       | DeviceNotFoundError => Some (let* _ := print MsgNoDeviceFound in ret false)
       | IOSConnectionError => Some (let* _ := print MsgConnectionError in ret false)
       | _ => None
       end).

(** The loop of [cmd_list_devices] over [enumerate(devices, 1)]. *)
Fixpoint print_devices (i : nat) (devices : list Device) : M Console unit :=
  match devices with
  | [] => ret tt
  | d :: rest => let* _ := print (MsgDevice i d) in print_devices (Datatypes.S i) rest
  end.

Definition cmd_list_devices : M Console bool :=
  let* devices := list_devices in
  match devices with
  | [] => let* _ := print MsgNoDevicesFound in ret false
  | _ =>
      let* _ := print (MsgFoundDevices (List.length devices)) in
      let* _ := print_devices 1 devices in
      ret true
  end.

Definition cmd_device_info (u : option string) : M Console bool :=
  device_command u
    (let* info := get_device_info in
     let* _ := print (MsgDeviceInformation info) in
     ret true).

Definition cmd_screenshot (u : option string) (output : string) : M Console bool :=
  device_command u
    (let* path := screenshot output in
     let* _ := print (MsgScreenshotSaved path) in
     ret true).

Definition cmd_list_apps (u : option string) : M Console bool :=
  device_command u
    (let* apps := list_apps in
     let* _ := print (MsgFoundApps apps) in
     ret true).

Definition cmd_tap (u : option string) (x y : Z) : M Console bool :=
  device_command u
    (let* _ := tap x y in
     let* _ := print (MsgTapped x y) in
     ret true).

Definition cmd_tap_text (u : option string) (t : string) (exact : bool) : M Console bool :=
  device_command u
    (let* tapped := tap_by_text t exact in
     if tapped then
       let* _ := print (MsgTappedText t exact) in ret true
     else
       let* _ := print (MsgElementNotFound t) in ret false).

Definition cmd_swipe (u : option string) (x1 y1 x2 y2 : Z) (duration : string)
  : M Console bool :=
  device_command u
    (let* _ := swipe x1 y1 x2 y2 duration in
     let* _ := print (MsgSwiped x1 y1 x2 y2 duration) in
     ret true).

Definition cmd_input_text (u : option string) (t : string) : M Console bool :=
  device_command u
    (let* _ := input_text t in
     let* _ := print (MsgInputText t) in
     ret true).

Definition cmd_home_button (u : option string) : M Console bool :=
  device_command u
    (let* _ := home_button in
     let* _ := print MsgPressedHome in
     ret true).

Definition cmd_back_button (u : option string) : M Console bool :=
  device_command u
    (let* _ := back_button in
     let* _ := print MsgBackGesture in
     ret true).

Definition cmd_long_press (u : option string) (x y : Z) (duration : string)
  : M Console bool :=
  device_command u
    (let* _ := long_press x y duration in
     let* _ := print (MsgLongPressed x y duration) in
     ret true).

(** The dispatch of [main] on [args.command]. *)
Definition run_command (u : option string) (c : command) : M Console bool :=
  match c with
  | CmdDevices => cmd_list_devices
  | CmdInfo => cmd_device_info u
  | CmdScreenshot output => cmd_screenshot u output
  | CmdApps => cmd_list_apps u
  | CmdTap x y => cmd_tap u x y
  | CmdTapText t exact => cmd_tap_text u t exact
  | CmdSwipe x1 y1 x2 y2 duration => cmd_swipe u x1 y1 x2 y2 duration
  | CmdInput t => cmd_input_text u t
  | CmdHome => cmd_home_button u
  | CmdBack => cmd_back_button u
  | CmdLongPress x y duration => cmd_long_press u x y duration
  end.

(** [main], from the parsed arguments on: the exit status. *)
Definition main (u : option string) (c : option command) : M Console Z :=
  match c with
  | None => let* _ := print MsgHelp in ret 1
  | Some c =>
      let* success := run_command u c in
      ret (if success then 0 else 1)
  end.

End Cli.

(** A process on a host that replays outcomes, nothing printed yet. *)
Definition process (outcomes : list outcome) : Machine (Script * list message) :=
  {| session := __init__ None;
     world := ({| replies := outcomes; clock := 0 |}, []);
     calls := [] |}.
Section Console.

Context {World : Type}.

(** A computation that prints nothing. *)
Definition keeps_console {A : Type} (c : M (World * list message) A) : Prop :=
  forall m : Machine (World * list message), console (snd (c m)) = console m.

(** The body of a [with] statement of the command line that, on a
    session with a udid, either ends with [True] after one message
    among [said], or raises an exception among [raised] with nothing
    printed; the session is left as it is. *)
Definition reports (said : message -> Prop) (raised : exn -> Prop)
  (body : M (World * list message) bool) : Prop :=
  forall m : Machine (World * list message), udid (session m) <> None ->
    session (snd (body m)) = session m
    /\ match fst (body m) with
       | Ok b =>
           b = true /\ exists msg, said msg /\ console (snd (body m)) = console m ++ [msg]
       | Raise e => raised e /\ console (snd (body m)) = console m
       | OutOfFuel => False
       end.

End Console.

(** What a command on a device prints when it succeeds. *)
Definition success_message (c : command) (msg : message) : Prop :=
  match c with
  | CmdDevices => False
  | CmdInfo => exists info, msg = MsgDeviceInformation info
  | CmdScreenshot output => msg = MsgScreenshotSaved output
  | CmdApps => exists apps, msg = MsgFoundApps apps
  | CmdTap x y => msg = MsgTapped x y
  | CmdTapText t exact => msg = MsgTappedText t exact
  | CmdSwipe x1 y1 x2 y2 duration => msg = MsgSwiped x1 y1 x2 y2 duration
  | CmdInput t => msg = MsgInputText t
  | CmdHome => msg = MsgPressedHome
  | CmdBack => msg = MsgBackGesture
  | CmdLongPress x y duration => msg = MsgLongPressed x y duration
  end.

(** The commands that open a device. *)
Definition on_device (c : command) : bool :=
  match c with
  | CmdDevices => false
  | _ => true
  end.

(** The commands whose operation tells a missing tool from a failing
    one: all but [tap-text] and [back], which turn every failure into a
    connection error. *)
Definition tool_bound (c : command) : bool :=
  match c with
  | CmdDevices | CmdTapText _ _ | CmdBack => false
  | _ => true
  end.

(** The first command line a command on a device runs once the device
    is connected, for the commands that are [tool_bound]. *)
Definition first_command (c : command) (u : string) : option (list string) :=
  match c with
  | CmdInfo => tool_command GetDeviceInfo u
  | CmdScreenshot output => tool_command (Screenshot output) u
  | CmdApps => tool_command ListApps u
  | CmdLongPress x y duration => tool_command (LongPress x y duration) u
  | CmdTap x y => option_map fst (gesture_commands (Tap x y) u)
  | CmdSwipe x1 y1 x2 y2 duration =>
      option_map fst (gesture_commands (Swipe x1 y1 x2 y2 duration) u)
  | CmdInput t => option_map fst (gesture_commands (InputText t) u)
  | CmdHome => option_map fst (gesture_commands HomeButton u)
  | CmdDevices | CmdTapText _ _ | CmdBack => None
  end.

(** The exceptions a command on a device lets its operation raise. *)
Definition command_error (c : command) (e : exn) : Prop :=
  e = IOSConnectionError
  \/ ((e = UnsupportedOperationError \/ other_error e) /\ tool_bound c = true).

(** The lines [cmd_list_devices] prints for the devices, numbered from
    [i]. *)
Fixpoint device_lines (i : nat) (devices : list Device) : list message :=
  match devices with
  | [] => []
  | d :: rest => MsgDevice i d :: device_lines (Datatypes.S i) rest
  end.

(** A host with one device, the output of whose tools is given. *)
Definition one_device_process (outcomes : list outcome) : Machine (Script * list message) :=
  process ([Exit0 (line "A1"); Exit0 (line "iPhone"); Exit0 (line "17.0")] ++ outcomes).

(** A call of [subprocess.run] that returned or ended with
    [CalledProcessError]: the process ran. *)
Definition completed (c : call) : Prop :=
  match snd c with
  | Exit0 _ | NonZero => True
  | _ => False
  end.

(** The commands of a run that was broken off: the last one ended with
    [o], those before it completed. *)
Definition broke_off (cs : list call) (o : outcome) : Prop :=
  exists cs0 argv, cs = (cs0 ++ [(argv, o)])%list /\ Forall completed cs0.

(** ** Letter case as the specification words it *)








(** * Properties *)

(** ** Strings *)

Lemma append_cons (a : ascii) (s t : string) : String a s +:+ t = String a (s +:+ t).
Proof. reflexivity. Qed.

Lemma append_empty_r (s : string) : s +:+ "" = s.
Proof. induction s as [|a s IH]; [reflexivity|]. rewrite append_cons, IH. reflexivity. Qed.

Lemma append_assoc (s t u : string) : (s +:+ t) +:+ u = s +:+ (t +:+ u).
Proof.
  induction s as [|a s IH]; [reflexivity|].
  rewrite !append_cons, IH. reflexivity.
Qed.

Lemma startswith_spec (p s : string) :
  PyStr.startswith p s = true <-> exists rest, s = p +:+ rest.
Proof.
  revert s. induction p as [|a p IH]; intros s.
  - split; [intros _; exists s; reflexivity | reflexivity].
  - destruct s as [|b s]; simpl.
    + split; [discriminate | intros [rest Hrest]; discriminate].
    + destruct (Ascii.eqb a b) eqn:E.
      * apply Ascii.eqb_eq in E. subst b. rewrite IH.
        split; intros [rest Hrest]; exists rest.
        -- rewrite append_cons. congruence.
        -- rewrite append_cons in Hrest. congruence.
      * apply Ascii.eqb_neq in E.
        split; [discriminate | intros [rest Hrest]].
        rewrite append_cons in Hrest. congruence.
Qed.

(** [in] on strings finds exactly the occurrences. *)
Lemma contains_spec (q t : string) :
  PyStr.contains q t = true <-> occurs_in q t.
Proof.
  induction t as [|c t IH].
  - simpl. destruct (PyStr.startswith q "") eqn:E.
    + apply startswith_spec in E as [rest Hrest].
      split; [intros _ | reflexivity]. exists "", rest. exact Hrest.
    + split; [discriminate | intros (before & after & Heq)].
      destruct before; [|discriminate].
      assert (PyStr.startswith q "" = true) as Hs
        by (apply startswith_spec; exists after; exact Heq).
      congruence.
  - cbn [PyStr.contains]. destruct (PyStr.startswith q (String c t)) eqn:E.
    + apply startswith_spec in E as [rest Hrest].
      split; [intros _ | reflexivity]. exists "", rest. exact Hrest.
    + rewrite IH. split.
      * intros (before & after & Heq). exists (String c before), after.
        rewrite append_cons. congruence.
      * intros (before & after & Heq). destruct before as [|b before].
        -- assert (PyStr.startswith q (String c t) = true) as Hs
             by (apply startswith_spec; exists after; exact Heq).
           congruence.
        -- rewrite append_cons in Heq. exists before, after. congruence.
Qed.

(** ** Dicts *)

Lemma get_lookup (d : list (string * json)) (k : string) (v default : json) :
  Py.lookup k d = Some v -> Py.get d k default = v.
Proof. unfold Py.get. intros ->. reflexivity. Qed.

Lemma has_key_lookup (d : list (string * json)) (k : string) (v : json) :
  Py.lookup k d = Some v -> Py.has_key k d = true.
Proof. unfold Py.has_key. intros ->. reflexivity. Qed.

(** ** Centers of bounds *)

Lemma center_xywh (d : list (string * json)) (x y w h : Z) :
  Py.lookup "x" d = Some (JInt x) ->
  Py.lookup "y" d = Some (JInt y) ->
  Py.lookup "width" d = Some (JInt w) ->
  Py.lookup "height" d = Some (JInt h) ->
  _get_center_coordinates (JDict d) = Ok (x + w / 2, y + h / 2).
Proof.
  intros Hx Hy Hw Hh. unfold _get_center_coordinates.
  rewrite (has_key_lookup _ _ _ Hx), (has_key_lookup _ _ _ Hy),
    (has_key_lookup _ _ _ Hw), (has_key_lookup _ _ _ Hh).
  rewrite (get_lookup _ _ _ _ Hx), (get_lookup _ _ _ _ Hy),
    (get_lookup _ _ _ _ Hw), (get_lookup _ _ _ _ Hh).
  reflexivity.
Qed.

Lemma center_ltrb (d : list (string * json)) (l t r b : Z) :
  Py.has_key "x" d && Py.has_key "y" d
    && Py.has_key "width" d && Py.has_key "height" d = false ->
  Py.lookup "left" d = Some (JInt l) ->
  Py.lookup "top" d = Some (JInt t) ->
  Py.lookup "right" d = Some (JInt r) ->
  Py.lookup "bottom" d = Some (JInt b) ->
  _get_center_coordinates (JDict d) = Ok ((l + r) / 2, (t + b) / 2).
Proof.
  intros Hno Hl Ht Hr Hb. unfold _get_center_coordinates. rewrite Hno.
  rewrite (has_key_lookup _ _ _ Hl), (has_key_lookup _ _ _ Ht),
    (has_key_lookup _ _ _ Hr), (has_key_lookup _ _ _ Hb).
  rewrite (get_lookup _ _ _ _ Hl), (get_lookup _ _ _ _ Ht),
    (get_lookup _ _ _ _ Hr), (get_lookup _ _ _ _ Hb).
  reflexivity.
Qed.

Lemma center_sequence (a b c d : Z) (more : list json) :
  _get_center_coordinates (JList (JInt a :: JInt b :: JInt c :: JInt d :: more))
  = Ok ((a + c) / 2, (b + d) / 2).
Proof. reflexivity. Qed.

(** ** The resolver *)

Lemma lookup_map_values {A B : Type} (f : A -> B) (k : string) (kvs : list (string * A)) :
  Py.lookup k (Py.map_values f kvs) = option_map f (Py.lookup k kvs).
Proof.
  induction kvs as [|[k' v] kvs IH]; [reflexivity|].
  simpl. destruct (String.eqb k k'); [reflexivity | exact IH].
Qed.

(** The value iterated by [for child in children], by the key it is
    found under. *)
Lemma element_children_key (kvs : list (string * json)) :
  element_children kvs = default (JList []) (Py.lookup (children_key kvs) kvs).
Proof.
  unfold element_children, children_key, Py.or, Py.get.
  destruct (Py.lookup "children" kvs) as [v|] eqn:E; simpl.
  - destruct (Py.truthy v) eqn:T; [rewrite E; reflexivity | reflexivity].
  - reflexivity.
Qed.

Section ResolverFacts.

Variable text : string.
Variable exact_match : bool.

Lemma search_recursive_dict (kvs : list (string * json)) :
  search_recursive text exact_match (JDict kvs)
  = match check_element text exact_match kvs with
    | Some r => r
    | None => for_each text exact_match (element_children kvs)
    end.
Proof.
  change (search_recursive text exact_match (JDict kvs))
    with (match check_element text exact_match kvs with
          | Some r => r
          | None =>
              match Py.lookup (children_key kvs)
                      (Py.map_values (for_each text exact_match) kvs) with
              | Some r => r
              | None => Ok None
              end
          end).
  destruct (check_element text exact_match kvs); [reflexivity|].
  rewrite lookup_map_values, element_children_key.
  destruct (Py.lookup (children_key kvs) kvs); reflexivity.
Qed.

Lemma preorder_dict (kvs : list (string * json)) :
  preorder (JDict kvs) = kvs :: collection (element_children kvs).
Proof.
  change (preorder (JDict kvs))
    with (kvs :: default [] (Py.lookup (children_key kvs)
                               (Py.map_values collection kvs))).
  rewrite lookup_map_values, element_children_key.
  destruct (Py.lookup (children_key kvs) kvs); reflexivity.
Qed.

End ResolverFacts.

Lemma json_nested_ind (P : json -> Prop) :
  P JNull ->
  (forall b, P (JBool b)) ->
  (forall n, P (JInt n)) ->
  (forall s, P (JStr s)) ->
  (forall items, Forall P items -> P (JList items)) ->
  (forall kvs, Forall (fun kv => P (snd kv)) kvs -> P (JDict kvs)) ->
  forall j, P j.
Proof.
  intros HN HB HI HS HL HD. fix IH 1. intros [| b | n | s | items | kvs].
  - exact HN.
  - apply HB.
  - apply HI.
  - apply HS.
  - apply HL. induction items as [|x items IHi]; constructor; [apply IH | exact IHi].
  - apply HD. induction kvs as [|[k v] kvs IHk]; constructor; [apply IH | exact IHk].
Qed.

Lemma lookup_Forall {A : Type} (P : A -> Prop) (k : string) (kvs : list (string * A)) (v : A) :
  Forall (fun kv => P (snd kv)) kvs -> Py.lookup k kvs = Some v -> P v.
Proof.
  induction 1 as [|[k' v'] kvs Hv _ IH]; simpl; [discriminate|].
  destruct (String.eqb k k'); [intros [= <-]; exact Hv | exact IH].
Qed.

Lemma hierarchy_dict (kvs : list (string * json)) :
  hierarchy (JDict kvs)
  = text_field kvs "text" && text_field kvs "label" && text_field kvs "name"
    && default true (option_map sequence (Py.lookup (children_key kvs) kvs)).
Proof.
  change (hierarchy (JDict kvs))
    with (text_field kvs "text" && text_field kvs "label" && text_field kvs "name"
          && default true (Py.lookup (children_key kvs) (Py.map_values sequence kvs))).
  rewrite lookup_map_values. reflexivity.
Qed.

Lemma element_text_string (kvs : list (string * json)) :
  text_field kvs "text" = true -> text_field kvs "label" = true ->
  text_field kvs "name" = true ->
  exists t, element_text kvs = JStr t.
Proof.
  unfold text_field, element_text, Py.or, Py.get. intros H1 H2 H3.
  destruct (Py.lookup "text" kvs) as [[]|]; try discriminate;
    destruct (Py.lookup "label" kvs) as [[]|]; try discriminate;
    destruct (Py.lookup "name" kvs) as [[]|]; try discriminate;
    repeat match goal with |- context [if ?b then _ else _] => destruct b end;
    eauto.
Qed.

Section ResolverFacts2.

Variable text : string.
Variable exact_match : bool.

Local Abbreviation search := (search_recursive text exact_match).
Local Abbreviation centers := (center_of_first text exact_match).

(** On a node whose text is a string, the code leaves at the node
    exactly when the node counts. *)
Lemma check_element_counts (kvs : list (string * json)) (t : string) :
  element_text kvs = JStr t ->
  check_element text exact_match kvs
  = if counts text exact_match kvs
    then Some (match _get_center_coordinates (element_bounds kvs) with
               | Ok c => Ok (Some c)
               | Raise e => Raise e
               | OutOfFuel => OutOfFuel
               end)
    else None.
Proof.
  intros Ht. unfold check_element, counts, node_text, text_test, matches.
  rewrite Ht. simpl Py.truthy at 1.
  destruct (PyStr.nonempty t); [|reflexivity].
  destruct exact_match.
  - destruct (String.eqb t text); [|reflexivity]. simpl.
    destruct (Py.truthy (element_bounds kvs)); [|reflexivity].
    destruct (_get_center_coordinates (element_bounds kvs)); reflexivity.
  - destruct (PyStr.contains (PyStr.lower text) (PyStr.lower t)); [|reflexivity].
    simpl. destruct (Py.truthy (element_bounds kvs)); [|reflexivity].
    destruct (_get_center_coordinates (element_bounds kvs)); reflexivity.
Qed.

Lemma centers_cons (node : list (string * json)) (nodes : list (list (string * json))) :
  centers (node :: nodes)
  = if counts text exact_match node
    then match _get_center_coordinates (element_bounds node) with
         | Ok c => Ok (Some c)
         | Raise e => Raise e
         | OutOfFuel => OutOfFuel
         end
    else centers nodes.
Proof.
  unfold center_of_first. simpl. destruct (counts text exact_match node); reflexivity.
Qed.

Lemma centers_app (a b : list (list (string * json))) :
  centers (a ++ b) = match centers a with Ok None => centers b | r => r end.
Proof.
  induction a as [|node a IH]; [reflexivity|].
  rewrite <- app_comm_cons, !centers_cons.
  destruct (counts text exact_match node); [|exact IH].
  destruct (_get_center_coordinates (element_bounds node)); reflexivity.
Qed.

Lemma first_result_centers (items : list json) :
  Forall (fun x => hierarchy x = true -> search x = centers (preorder x)) items ->
  forallb hierarchy items = true ->
  first_result search items = centers (flat_map preorder items).
Proof.
  induction 1 as [|x items Hx _ IH]; simpl; [reflexivity|].
  intros [Hh Hall]%andb_true_iff.
  rewrite centers_app, (Hx Hh), (IH Hall). reflexivity.
Qed.

Lemma search_first_match_both (h : json) :
  (hierarchy h = true -> search h = centers (preorder h))
  /\ (sequence h = true -> for_each text exact_match h = centers (collection h)).
Proof.
  induction h as [| b | n | s | items IH | kvs IH] using json_nested_ind;
    try (split; [reflexivity | discriminate]).
  - assert (Forall (fun x => hierarchy x = true -> search x = centers (preorder x)) items)
      as IH' by (eapply Forall_impl; [exact IH | intros x [Hx _]; exact Hx]).
    split; intros Hh; exact (first_result_centers items IH' Hh).
  - split; [|discriminate].
    rewrite hierarchy_dict, !andb_true_iff. intros [[[H1 H2] H3] Hc].
    destruct (element_text_string kvs H1 H2 H3) as [t Ht].
    rewrite search_recursive_dict, preorder_dict, centers_cons.
    rewrite (check_element_counts kvs t Ht).
    destruct (counts text exact_match kvs); [reflexivity|].
    rewrite element_children_key.
    destruct (Py.lookup (children_key kvs) kvs) as [v|] eqn:E; [|reflexivity].
    simpl in Hc |- *.
    exact (proj2 (lookup_Forall
                    (fun j => (hierarchy j = true -> search j = centers (preorder j))
                              /\ (sequence j = true ->
                                  for_each text exact_match j = centers (collection j)))
                    _ _ _ IH E) Hc).
Qed.

End ResolverFacts2.

Lemma node_text_string (node : list (string * json)) (t : string) :
  node_text node = Some t -> element_text node = JStr t /\ PyStr.nonempty t = true.
Proof.
  unfold node_text. destruct (element_text node) as [| | |s| |]; try discriminate.
  destruct (PyStr.nonempty s) eqn:E; [|discriminate].
  intros [= ->]. split; [reflexivity | exact E].
Qed.

Lemma search_at_counting_node (text : string) (exact_match : bool)
  (node : list (string * json)) :
  counts text exact_match node = true ->
  search_recursive text exact_match (JDict node)
  = match _get_center_coordinates (element_bounds node) with
    | Ok c => Ok (Some c)
    | Raise e => Raise e
    | OutOfFuel => OutOfFuel
    end.
Proof.
  intros Hc. assert (exists t, node_text node = Some t) as [t Ht].
  { unfold counts in Hc. destruct (node_text node) as [t|]; [eauto | discriminate]. }
  apply node_text_string in Ht as [Ht _].
  rewrite search_recursive_dict, (check_element_counts _ _ _ _ Ht), Hc. reflexivity.
Qed.

Lemma counts_intro (text : string) (exact_match : bool)
  (node : list (string * json)) (t : string) :
  node_text node = Some t ->
  matches text exact_match t = true ->
  Py.truthy (element_bounds node) = true ->
  counts text exact_match node = true.
Proof. unfold counts. intros -> -> ->. reflexivity. Qed.

Lemma search_past_node (text : string) (exact_match : bool)
  (node : list (string * json)) (t : string) :
  node_text node = Some t ->
  Py.truthy (element_bounds node) = false ->
  search_recursive text exact_match (JDict node)
  = for_each text exact_match (element_children node).
Proof.
  intros Ht Hb. pose proof (node_text_string _ _ Ht) as [Hs _].
  rewrite search_recursive_dict, (check_element_counts _ _ _ _ Hs).
  unfold counts. rewrite Ht, Hb, andb_false_r. reflexivity.
Qed.

Section ResolverTotal.

Variable text : string.
Variable exact_match : bool.

Local Abbreviation search := (search_recursive text exact_match).
Local Abbreviation centers := (center_of_first text exact_match).

(** At a node the code leaves exactly when the node counts, or it
    raises (a text that is no string has no [lower]). *)
Lemma check_element_cases (kvs : list (string * json)) :
  check_element text exact_match kvs
  = (if counts text exact_match kvs
     then Some (match _get_center_coordinates (element_bounds kvs) with
                | Ok c => Ok (Some c)
                | Raise e => Raise e
                | OutOfFuel => OutOfFuel
                end)
     else None)
  \/ exists e, check_element text exact_match kvs = Some (Raise e).
Proof.
  destruct (element_text kvs) as [| b | n | t | items | d] eqn:E;
    try (left; exact (check_element_counts _ _ _ _ E));
    unfold check_element, counts, node_text, text_test; rewrite E;
    destruct (Py.truthy _); destruct exact_match; eauto.
Qed.

Lemma first_result_centers_or_raise (items : list json) :
  Forall (fun x => search x = centers (preorder x) \/ exists e, search x = Raise e) items ->
  first_result search items = centers (flat_map preorder items)
  \/ exists e, first_result search items = Raise e.
Proof.
  induction 1 as [|x items Hx _ IH]; simpl; [left; reflexivity|].
  destruct Hx as [Hx | [e Hx]]; rewrite Hx; [|eauto].
  rewrite centers_app.
  destruct (centers (preorder x)) as [[c|]| |]; eauto.
Qed.

(** On every value the search gives the first match of the pre-order
    list, or ends with an exception. *)
Lemma search_first_match_or_raise (h : json) :
  (search h = centers (preorder h) \/ exists e, search h = Raise e)
  /\ (for_each text exact_match h = centers (collection h)
      \/ exists e, for_each text exact_match h = Raise e).
Proof.
  induction h as [| b | n | s | items IH | kvs IH] using json_nested_ind;
    try (split; [left; reflexivity | (left; reflexivity) || (right; eexists; reflexivity)]).
  - assert (Forall (fun x => search x = centers (preorder x)
                             \/ exists e, search x = Raise e) items)
      as IH' by (eapply Forall_impl; [exact IH | intros x [Hx _]; exact Hx]).
    split; exact (first_result_centers_or_raise items IH').
  - split; [|left; reflexivity].
    rewrite search_recursive_dict, preorder_dict, centers_cons.
    destruct (check_element_cases kvs) as [-> | [e ->]]; [|eauto].
    destruct (counts text exact_match kvs); [left; reflexivity|].
    rewrite element_children_key.
    destruct (Py.lookup (children_key kvs) kvs) as [v|] eqn:E; [|left; reflexivity].
    simpl.
    exact (proj2 (lookup_Forall
                    (fun j => (search j = centers (preorder j)
                               \/ exists e, search j = Raise e)
                              /\ (for_each text exact_match j = centers (collection j)
                                  \/ exists e, for_each text exact_match j = Raise e))
                    _ _ _ IH E)).
Qed.

End ResolverTotal.

(** ** Claims on the resolver *)

(** C2. On every hierarchy the resolver returns the center of the first
    node, in depth-first pre-order, whose text matches and which carries a
    bounds value (on a value that is no hierarchy of the data model it
    does the same or ends with an exception); a node whose text matches
    and which has neither bounds field is not returned: the search goes on
    in its children and then in the siblings that follow it. *)
Theorem resolver_first_match_in_preorder (text : string) (exact_match : bool) :
  (forall h : json,
      hierarchy h = true ->
      _find_element_by_text text exact_match h = first_match text exact_match h)
  /\ (forall h : json,
        _find_element_by_text text exact_match h = first_match text exact_match h
        \/ exists e, _find_element_by_text text exact_match h = Raise e)
  /\ (forall (node : list (string * json)) (t : string) (siblings : list json),
        node_text node = Some t ->
        matches text exact_match t = true ->
        Py.lookup "bounds" node = None ->
        Py.lookup "frame" node = None ->
        search_recursive text exact_match (JDict node)
        = for_each text exact_match (element_children node)
        /\ search_recursive text exact_match (JList (JDict node :: siblings))
           = match for_each text exact_match (element_children node) with
             | Ok None => search_recursive text exact_match (JList siblings)
             | r => r
             end).
Proof.
  split; [|split].
  - intros h Hh. exact (proj1 (search_first_match_both text exact_match h) Hh).
  - intros h. exact (proj1 (search_first_match_or_raise text exact_match h)).
  - intros node t siblings Ht _ Hb Hf.
    assert (search_recursive text exact_match (JDict node)
            = for_each text exact_match (element_children node)) as Hnode.
    { apply (search_past_node _ _ _ t Ht).
      unfold element_bounds, Py.or, Py.get. rewrite Hb, Hf. reflexivity. }
    split; [exact Hnode|].
    change (search_recursive text exact_match (JList (JDict node :: siblings)))
      with (match search_recursive text exact_match (JDict node) with
            | Ok None => search_recursive text exact_match (JList siblings)
            | r => r
            end).
    rewrite Hnode. reflexivity.
Qed.

Lemma resolver_first_match_in_preorder_witness :
  hierarchy screen_example = true
  /\ _find_element_by_text "save" false screen_example
     = first_match "save" false screen_example
  /\ _find_element_by_text "save" false screen_example = Ok (Some (60, 40))
  /\ search_recursive "Save" true
       (JList [JDict [("text", JStr "Save")];
               JDict [("text", JStr "Save"); ("bounds", JList [JInt 0; JInt 0; JInt 8; JInt 6])]])
     = Ok (Some (4, 3)).
Proof.
  split; [reflexivity|]. split.
  - apply (proj1 (resolver_first_match_in_preorder "save" false)). reflexivity.
  - split; [reflexivity|].
    rewrite (proj2 (proj2 (proj2 (resolver_first_match_in_preorder "Save" true))
                      [("text", JStr "Save")] "Save"
                      [JDict [("text", JStr "Save");
                              ("bounds", JList [JInt 0; JInt 0; JInt 8; JInt 6])]]
                      eq_refl eq_refl eq_refl eq_refl)).
    reflexivity.
Defined.

Lemma truthy_dict_lookup (d : list (string * json)) (k : string) (v : json) :
  Py.lookup k d = Some v -> Py.truthy (JDict d) = true.
Proof. destruct d; [discriminate | reflexivity]. Qed.

(** [//] rounds towards minus infinity. *)
Lemma floor_half (n : Z) : 2 * (n / 2) <= n < 2 * (n / 2) + 2.
Proof. pose proof (Z.div_mod n 2) as Hd. pose proof (Z.mod_pos_bound n 2). lia. Qed.

(** C3. For every matching node whose bounds are a mapping: bounds
    [{x, y, width, height}] resolve to [(x + width/2, y + height/2)] and
    bounds [{left, top, right, bottom}] resolve to
    [((left + right)/2, (top + bottom)/2)], the divisions rounding down. *)
Theorem center_of_mapping_bounds (text : string) (exact_match : bool)
  (node d : list (string * json)) (t : string) :
  node_text node = Some t ->
  matches text exact_match t = true ->
  element_bounds node = JDict d ->
  (forall x y w h : Z,
      Py.lookup "x" d = Some (JInt x) ->
      Py.lookup "y" d = Some (JInt y) ->
      Py.lookup "width" d = Some (JInt w) ->
      Py.lookup "height" d = Some (JInt h) ->
      _find_element_by_text text exact_match (JDict node)
      = Ok (Some (x + w / 2, y + h / 2))
      /\ 2 * (w / 2) <= w < 2 * (w / 2) + 2
      /\ 2 * (h / 2) <= h < 2 * (h / 2) + 2)
  /\ (forall l tp r b : Z,
        Py.has_key "x" d && Py.has_key "y" d
          && Py.has_key "width" d && Py.has_key "height" d = false ->
        Py.lookup "left" d = Some (JInt l) ->
        Py.lookup "top" d = Some (JInt tp) ->
        Py.lookup "right" d = Some (JInt r) ->
        Py.lookup "bottom" d = Some (JInt b) ->
        _find_element_by_text text exact_match (JDict node)
        = Ok (Some ((l + r) / 2, (tp + b) / 2))
        /\ 2 * ((l + r) / 2) <= l + r < 2 * ((l + r) / 2) + 2
        /\ 2 * ((tp + b) / 2) <= tp + b < 2 * ((tp + b) / 2) + 2).
Proof.
  intros Ht Hm Hb. split.
  - intros x y w h Hx Hy Hw Hh. split; [|split; apply floor_half].
    unfold _find_element_by_text. rewrite search_at_counting_node.
    + rewrite Hb, (center_xywh d x y w h Hx Hy Hw Hh). reflexivity.
    + apply (counts_intro _ _ _ t Ht Hm). rewrite Hb.
      exact (truthy_dict_lookup _ _ _ Hx).
  - intros l tp r b Hno Hl Htp Hr Hbt. split; [|split; apply floor_half].
    unfold _find_element_by_text. rewrite search_at_counting_node.
    + rewrite Hb, (center_ltrb d l tp r b Hno Hl Htp Hr Hbt). reflexivity.
    + apply (counts_intro _ _ _ t Ht Hm). rewrite Hb.
      exact (truthy_dict_lookup _ _ _ Hl).
Qed.

Lemma center_of_mapping_bounds_witness :
  _find_element_by_text "ok" false
    (labelled "OK" (JDict [("x", JInt 10); ("y", JInt 20);
                           ("width", JInt 101); ("height", JInt (-3))]))
  = Ok (Some (60, 18))
  /\ _find_element_by_text "ok" false
       (labelled "OK" (JDict [("left", JInt 10); ("top", JInt 20);
                              ("right", JInt 111); ("bottom", JInt (-25))]))
     = Ok (Some (60, -3)).
Proof.
  split.
  - exact (proj1 (proj1 (center_of_mapping_bounds "ok" false
             [("text", JStr "OK");
              ("bounds", JDict [("x", JInt 10); ("y", JInt 20);
                                ("width", JInt 101); ("height", JInt (-3))])]
             [("x", JInt 10); ("y", JInt 20); ("width", JInt 101); ("height", JInt (-3))]
             "OK" eq_refl eq_refl eq_refl)
           10 20 101 (-3) eq_refl eq_refl eq_refl eq_refl)).
  - exact (proj1 (proj2 (center_of_mapping_bounds "ok" false
             [("text", JStr "OK");
              ("bounds", JDict [("left", JInt 10); ("top", JInt 20);
                                ("right", JInt 111); ("bottom", JInt (-25))])]
             [("left", JInt 10); ("top", JInt 20); ("right", JInt 111); ("bottom", JInt (-25))]
             "OK" eq_refl eq_refl eq_refl)
           10 20 111 (-25) eq_refl eq_refl eq_refl eq_refl eq_refl)).
Defined.

(** ** Letter case *)









Lemma center_fallback (bounds : json) :
  decoded bounds = false -> _get_center_coordinates bounds = Ok (100, 100).
Proof.
  destruct bounds as [| | | | items | d]; try reflexivity; simpl.
  - destruct items as [|b0 [|b1 [|b2 [|b3 more]]]]; try reflexivity. discriminate.
  - intros [-> ->]%orb_false_iff. reflexivity.
Qed.

(** C7, as the code has it.  For every matching node whose bounds value
    is a sequence of at least four elements that starts with the integers
    [a, b, c, d], the resolver returns [((a + c)/2, (b + d)/2)], the
    division rounding down, whichever of the two positional readings was
    meant; for every other bounds value the node carries, that is not a
    mapping with the keys of one of the two conventions either, it returns
    the fallback [(100, 100)]. *)
Theorem center_of_sequence_bounds (text : string) (exact_match : bool)
  (node : list (string * json)) (t : string) :
  node_text node = Some t ->
  matches text exact_match t = true ->
  Py.truthy (element_bounds node) = true ->
  (forall (a b c d : Z) (more : list json),
      element_bounds node = JList (JInt a :: JInt b :: JInt c :: JInt d :: more) ->
      _find_element_by_text text exact_match (JDict node)
      = Ok (Some ((a + c) / 2, (b + d) / 2))
      /\ 2 * ((a + c) / 2) <= a + c < 2 * ((a + c) / 2) + 2
      /\ 2 * ((b + d) / 2) <= b + d < 2 * ((b + d) / 2) + 2)
  /\ (decoded (element_bounds node) = false ->
      _find_element_by_text text exact_match (JDict node) = Ok (Some (100, 100))).
Proof.
  intros Ht Hm Hb.
  pose proof (counts_intro _ _ _ t Ht Hm Hb) as Hc.
  unfold _find_element_by_text. rewrite (search_at_counting_node _ _ _ Hc).
  split.
  - intros a b c d more ->. rewrite center_sequence.
    split; [reflexivity | split; apply floor_half].
  - intros Hd. rewrite (center_fallback _ Hd). reflexivity.
Qed.

Lemma center_of_sequence_bounds_witness :
  _find_element_by_text "OK" true
    (labelled "OK" (JList [JInt 0; JInt 0; JInt 10; JInt 10; JInt 7]))
  = Ok (Some (5, 5))
  /\ _find_element_by_text "OK" true (labelled "OK" (JList [JInt 1; JInt 2; JInt 3]))
     = Ok (Some (100, 100)).
Proof.
  split.
  - exact (proj1 (proj1 (center_of_sequence_bounds "OK" true
             [("text", JStr "OK");
              ("bounds", JList [JInt 0; JInt 0; JInt 10; JInt 10; JInt 7])]
             "OK" eq_refl eq_refl eq_refl)
           0 0 10 10 [JInt 7] eq_refl)).
  - exact (proj2 (center_of_sequence_bounds "OK" true
             [("text", JStr "OK"); ("bounds", JList [JInt 1; JInt 2; JInt 3])]
             "OK" eq_refl eq_refl eq_refl) eq_refl).
Defined.

(** C7, as stated, fails: a sequence of five elements is none of the
    shapes the specification names, and the resolver does not fall back to
    [(100, 100)] on it. *)
Lemma five_element_bounds_are_decoded :
  named_shape (JList [JInt 0; JInt 0; JInt 10; JInt 10; JInt 7]) = false
  /\ _find_element_by_text "OK" true
       (labelled "OK" (JList [JInt 0; JInt 0; JInt 10; JInt 10; JInt 7]))
     = Ok (Some (5, 5))
  /\ _find_element_by_text "OK" true
       (labelled "OK" (JList [JInt 0; JInt 0; JInt 10; JInt 10; JInt 7]))
     <> Ok (Some (100, 100)).
Proof. split; [reflexivity|]. split; [reflexivity | discriminate]. Qed.

(** ** Computations of the facade *)

Section MonadFacts.

Context {World : Type} `{Host World}.

Lemma bind_ok {A B : Type} (c : M World A) (k : A -> M World B)
  (m m' : Machine World) (a : A) :
  c m = (Ok a, m') -> bind c k m = k a m'.
Proof. unfold bind. intros ->. reflexivity. Qed.

Lemma bind_raise {A B : Type} (c : M World A) (k : A -> M World B)
  (m m' : Machine World) (e : exn) :
  c m = (Raise e, m') -> bind c k m = (Raise e, m').
Proof. unfold bind. intros ->. reflexivity. Qed.

Lemma require_connected_ok (m : Machine World) :
  _connected (session m) = true -> require_connected m = (Ok tt, m).
Proof.
  intros Hc. unfold require_connected, is_connected, get_session, bind, ret.
  rewrite Hc. reflexivity.
Qed.

Lemma require_connected_not (m : Machine World) :
  _connected (session m) = false -> require_connected m = (Raise IOSConnectionError, m).
Proof.
  intros Hc. unfold require_connected, is_connected, get_session, bind, ret, raise.
  rewrite Hc. reflexivity.
Qed.

Lemma self_udid_some (m : Machine World) (u : string) :
  udid (session m) = Some u -> self_udid m = (Ok u, m).
Proof.
  intros Hu. unfold self_udid, get_session, bind, ret. rewrite Hu. reflexivity.
Qed.

Lemma subprocess_run_outcome (m : Machine World) (argv : list string) (o : outcome) (w : World) :
  host_run argv (world m) = (o, w) ->
  subprocess_run argv m
  = (match o with
     | Exit0 out => Ok out
     | NonZero => Raise CalledProcessError
     | Missing => Raise FileNotFoundError
     | Fails cls => Raise (OtherException cls)
     end, after_call m argv o w).
Proof.
  intros Hr. unfold subprocess_run, after_call. rewrite Hr. destruct o; reflexivity.
Qed.

End MonadFacts.
(** ** Claims on the life cycle *)

(** C9. [disconnect] succeeds from every state, leaves the connected
    flag false and the cached record cleared, and a second [disconnect]
    changes nothing more. *)
Theorem disconnect_total_idempotent (World : Type) (H : Host World) (m : Machine World) :
  fst (disconnect m) = Ok tt
  /\ _connected (session (snd (disconnect m))) = false
  /\ _device_info (session (snd (disconnect m))) = None
  /\ udid (session (snd (disconnect m))) = udid (session m)
  /\ disconnect (snd (disconnect m)) = (Ok tt, snd (disconnect m)).
Proof. repeat split. Qed.

(** [connect] turns every exception of its body into a connection
    error: it never ends with device-not-found. *)
Lemma connect_never_not_found (World : Type) (H : Host World) (m : Machine World) :
  fst (connect m) <> Raise DeviceNotFoundError.
Proof.
  unfold connect, try_except.
  match goal with |- context [match ?c m with _ => _ end] => destruct (c m) as [[b|e|] m'] end;
    simpl; discriminate.
Qed.

(** C1, at the input of the test: discovery lists a device, the requested
    udid is not in the list, and [connect] ends with a connection error
    where the claim, the docstring and the test expect device-not-found. *)
Lemma connect_absent_udid_is_connection_error :
  fst (list_devices other_device_host)
  = Ok [{| d_udid := "other-udid"; d_name := "Other Device"; d_ios_version := "17.0" |}]
  /\ fst (connect other_device_host) = Raise IOSConnectionError
  /\ fst (connect other_device_host) <> Raise DeviceNotFoundError.
Proof. split; [reflexivity|]. split; [reflexivity | discriminate]. Qed.
(** ** Claims on the gestures *)

Section TapFacts.

Context {World : Type} `{Host World}.

Lemma with_fallback_primary_ok (primary secondary : string -> list string)
  (m : Machine World) (u out : string) (w : World) :
  udid (session m) = Some u ->
  host_run (primary u) (world m) = (Exit0 out, w) ->
  with_fallback primary secondary m
  = (Ok true, after_call m (primary u) (Exit0 out) w).
Proof.
  intros Hu Hr. unfold with_fallback, try_except.
  rewrite (bind_ok _ _ _ _ _ (self_udid_some m u Hu)).
  rewrite (bind_ok _ _ _ _ _ (subprocess_run_outcome m _ _ _ Hr)).
  reflexivity.
Qed.

Lemma with_fallback_primary_missing (primary secondary : string -> list string)
  (m : Machine World) (u : string) (w : World) :
  udid (session m) = Some u ->
  host_run (primary u) (world m) = (Missing, w) ->
  with_fallback primary secondary m
  = (Raise UnsupportedOperationError, after_call m (primary u) Missing w).
Proof.
  intros Hu Hr. unfold with_fallback, try_except.
  rewrite (bind_ok _ _ _ _ _ (self_udid_some m u Hu)).
  rewrite (bind_raise _ _ _ _ _ (subprocess_run_outcome m _ _ _ Hr)).
  reflexivity.
Qed.

Lemma with_fallback_secondary (primary secondary : string -> list string)
  (m : Machine World) (u : string) (w1 w2 : World) (o2 : outcome) :
  udid (session m) = Some u ->
  host_run (primary u) (world m) = (NonZero, w1) ->
  host_run (secondary u) w1 = (o2, w2) ->
  with_fallback primary secondary m
  = (match o2 with
     | Exit0 _ => Ok true
     | Fails cls => Raise (OtherException cls)
     | _ => Raise IOSConnectionError
     end,
     after_call (after_call m (primary u) NonZero w1) (secondary u) o2 w2).
Proof.
  intros Hu Hr1 Hr2. unfold with_fallback, try_except.
  rewrite (bind_ok _ _ _ _ _ (self_udid_some m u Hu)).
  rewrite (bind_raise _ _ _ _ _ (subprocess_run_outcome m _ _ _ Hr1)).
  rewrite (bind_ok _ _ _ _ _
             (self_udid_some (after_call m (primary u) NonZero w1) u Hu)).
  pose proof (subprocess_run_outcome (after_call m (primary u) NonZero w1)
                (secondary u) o2 w2 Hr2) as Hrun.
  destruct o2.
  - rewrite (bind_ok _ _ _ _ _ Hrun). reflexivity.
  - rewrite (bind_raise _ _ _ _ _ Hrun). reflexivity.
  - rewrite (bind_raise _ _ _ _ _ Hrun). reflexivity.
  - rewrite (bind_raise _ _ _ _ _ Hrun). reflexivity.
Qed.

Lemma with_fallback_primary_fails (primary secondary : string -> list string)
  (m : Machine World) (u cls : string) (w : World) :
  udid (session m) = Some u ->
  host_run (primary u) (world m) = (Fails cls, w) ->
  with_fallback primary secondary m
  = (Raise (OtherException cls), after_call m (primary u) (Fails cls) w).
Proof.
  intros Hu Hr. unfold with_fallback, try_except.
  rewrite (bind_ok _ _ _ _ _ (self_udid_some m u Hu)).
  rewrite (bind_raise _ _ _ _ _ (subprocess_run_outcome m _ _ _ Hr)).
  reflexivity.
Qed.

End TapFacts.

(** C5. [tap] on a connected device.  When the command of the first tool
    exits with a failure, the command of the second tool is run next; when
    that one fails too, or does not exist, the call raises a connection
    error; when the first tool does not exist, the call raises an
    unsupported-operation error and nothing else is run; the call returns
    [True] as soon as one of the two commands succeeds. *)
Theorem tap_fallback_chain (World : Type) (H : Host World) (m : Machine World)
  (u : string) (x y : Z) :
  _connected (session m) = true ->
  udid (session m) = Some u ->
  (forall out w,
      host_run (tap_primary x y u) (world m) = (Exit0 out, w) ->
      fst (tap x y m) = Ok true
      /\ calls (snd (tap x y m)) = (calls m ++ [(tap_primary x y u, Exit0 out)])%list)
  /\ (forall w,
        host_run (tap_primary x y u) (world m) = (Missing, w) ->
        fst (tap x y m) = Raise UnsupportedOperationError
        /\ calls (snd (tap x y m)) = (calls m ++ [(tap_primary x y u, Missing)])%list)
  /\ (forall w1 o2 w2,
        host_run (tap_primary x y u) (world m) = (NonZero, w1) ->
        host_run (tap_secondary x y u) w1 = (o2, w2) ->
        calls (snd (tap x y m))
        = (calls m ++ [(tap_primary x y u, NonZero); (tap_secondary x y u, o2)])%list
        /\ (forall out, o2 = Exit0 out -> fst (tap x y m) = Ok true)
        /\ (o2 = NonZero \/ o2 = Missing -> fst (tap x y m) = Raise IOSConnectionError)).
Proof.
  intros Hc Hu.
  assert (tap x y m = with_fallback (tap_primary x y) (tap_secondary x y) m) as Htap.
  { unfold tap. rewrite (bind_ok _ _ _ _ _ (require_connected_ok m Hc)). reflexivity. }
  rewrite Htap. split; [|split].
  - intros out w Hr. rewrite (with_fallback_primary_ok _ _ m u out w Hu Hr).
    split; reflexivity.
  - intros w Hr. rewrite (with_fallback_primary_missing _ _ m u w Hu Hr).
    split; reflexivity.
  - intros w1 o2 w2 Hr1 Hr2.
    rewrite (with_fallback_secondary _ _ m u w1 w2 o2 Hu Hr1 Hr2). simpl.
    split; [rewrite <- app_assoc; reflexivity|]. split.
    + intros out ->. reflexivity.
    + intros [-> | ->]; reflexivity.
Qed.

Lemma tap_fallback_chain_witness :
  fst (tap 10 20 (machine connected_session [NonZero; Exit0 ""])) = Ok true
  /\ fst (tap 10 20 (machine connected_session [NonZero; Missing]))
     = Raise IOSConnectionError
  /\ fst (tap 10 20 (machine connected_session [Missing; Exit0 ""]))
     = Raise UnsupportedOperationError
  /\ fst (tap 10 20 (machine connected_session [Exit0 ""])) = Ok true.
Proof.
  split; [|split; [|split]].
  - refine (proj1 (proj2 (proj2 (proj2 (tap_fallback_chain Script scripted
              (machine connected_session [NonZero; Exit0 ""]) "A1" 10 20
              eq_refl eq_refl)) _ (Exit0 "") _ eq_refl eq_refl)) "" eq_refl).
  - refine (proj2 (proj2 (proj2 (proj2 (tap_fallback_chain Script scripted
              (machine connected_session [NonZero; Missing]) "A1" 10 20
              eq_refl eq_refl)) _ Missing _ eq_refl eq_refl)) (or_intror eq_refl)).
  - refine (proj1 (proj1 (proj2 (tap_fallback_chain Script scripted
              (machine connected_session [Missing; Exit0 ""]) "A1" 10 20
              eq_refl eq_refl)) _ eq_refl)).
  - refine (proj1 (proj1 (tap_fallback_chain Script scripted
              (machine connected_session [Exit0 ""]) "A1" 10 20
              eq_refl eq_refl) "" _ eq_refl)).
Defined.

(** ** The information dump *)

Lemma split_once_colon (s a b : string) :
  PyStr.split_once ":" s = Some (a, b)
  <-> s = a +:+ ":" +:+ b /\ PyStr.contains ":" a = false.
Proof.
  revert a b. induction s as [|c r IH]; intros a b.
  - simpl. split; [discriminate|]. intros [Hs _]. destruct a; discriminate.
  - cbn [PyStr.split_once PyStr.startswith]. destruct (Ascii.eqb ":" c) eqn:E.
    + apply Ascii.eqb_eq in E. subst c.
      replace (PyStr.startswith "" r) with true by (destruct r; reflexivity).
      simpl. split.
      * intros [= <- <-]. split; reflexivity.
      * intros [Hs Hc]. destruct a as [|c' a'].
        -- simpl in Hs. injection Hs as ->. reflexivity.
        -- rewrite append_cons in Hs. injection Hs as <- _.
           simpl in Hc. discriminate.
    + apply Ascii.eqb_neq in E. split.
      * destruct (PyStr.split_once ":" r) as [[a' b']|] eqn:Hr in |- *; [|discriminate].
        intros [= <- <-]. apply IH in Hr as [-> Hc]. split; [reflexivity|].
        cbn [PyStr.contains PyStr.startswith].
        destruct (Ascii.eqb ":" c) eqn:E'; [apply Ascii.eqb_eq in E'; congruence|].
        exact Hc.
      * intros [Hs Hc]. destruct a as [|c' a'].
        -- simpl in Hs. injection Hs as Hc' _. congruence.
        -- rewrite append_cons in Hs. injection Hs as <- ->.
           cbn [PyStr.contains PyStr.startswith] in Hc.
           destruct (Ascii.eqb ":" c) eqn:E'; [discriminate|].
           rewrite (proj2 (IH a' b) (conj eq_refl Hc)). reflexivity.
Qed.

Lemma contains_split_once (sep s : string) :
  PyStr.contains sep s = true <-> exists ab, PyStr.split_once sep s = Some ab.
Proof.
  induction s as [|c r IH].
  - simpl. destruct (PyStr.startswith sep ""); split; eauto; try discriminate.
    intros [ab Hab]. discriminate.
  - cbn [PyStr.contains PyStr.split_once].
    destruct (PyStr.startswith sep (String c r)); [split; eauto|].
    rewrite IH. destruct (PyStr.split_once sep r) as [[a b]|]; split; eauto;
      intros [ab Hab]; discriminate.
Qed.

Lemma info_line_entry (info : gmap string string) (ln : string) :
  info_line info ln
  = match line_entry ln with
    | Some (k, v) => <[k := v]> info
    | None => info
    end.
Proof.
  unfold info_line, line_entry.
  destruct (PyStr.contains ":" ln) eqn:E.
  - destruct (PyStr.split_once ":" ln) as [[a b]|]; reflexivity.
  - destruct (PyStr.split_once ":" ln) as [[a b]|] eqn:Hs; [|reflexivity].
    assert (PyStr.contains ":" ln = true) by (apply contains_split_once; eauto).
    congruence.
Qed.

Lemma line_entry_spec (ln k v : string) :
  line_entry ln = Some (k, v) <-> key_value ln k v.
Proof.
  unfold line_entry, key_value. split.
  - destruct (PyStr.split_once ":" ln) as [[a b]|] eqn:Hs; [|discriminate].
    intros [= <- <-]. apply split_once_colon in Hs as [Hln Hc].
    exists a, b. repeat split; try assumption.
    intros Ho. apply contains_spec in Ho. congruence.
  - intros (a & b & Hln & Hno & -> & ->).
    assert (PyStr.contains ":" a = false) as Hc.
    { destruct (PyStr.contains ":" a) eqn:E; [|reflexivity].
      apply contains_spec in E. contradiction. }
    rewrite (proj2 (split_once_colon ln a b) (conj Hln Hc)). reflexivity.
Qed.

Lemma fold_info_lookup (lines : list string) (info : gmap string string) (k : string) :
  fold_left info_line lines info !! k
  = match last_entry k lines with
    | Some v => Some v
    | None => info !! k
    end.
Proof.
  revert info. induction lines as [|ln lines IH]; intros info; [reflexivity|].
  simpl. rewrite IH. destruct (last_entry k lines); [reflexivity|].
  rewrite info_line_entry. destruct (line_entry ln) as [[k' v']|]; [|reflexivity].
  destruct (String.eqb k' k) eqn:E.
  - apply String.eqb_eq in E. subst k'. apply lookup_insert_eq.
  - apply String.eqb_neq in E. apply lookup_insert_ne. exact E.
Qed.

Lemma last_entry_none (k : string) (lines : list string) :
  last_entry k lines = None
  <-> forall ln v, In ln lines -> ~ key_value ln k v.
Proof.
  induction lines as [|ln lines IH]; simpl.
  - split; [intros _ ln v [] | reflexivity].
  - destruct (last_entry k lines) as [v0|] eqn:E.
    + split; [discriminate|]. intros Hall.
      assert (Some v0 = None) as Habs; [|discriminate].
      apply IH. intros ln' v Hin. apply Hall. right. exact Hin.
    + destruct (line_entry ln) as [[k' v']|] eqn:El.
      * destruct (String.eqb k' k) eqn:Ek.
        -- apply String.eqb_eq in Ek. subst k'.
           split; [discriminate|]. intros Hall. exfalso.
           apply (Hall ln v' (or_introl eq_refl)). apply line_entry_spec. exact El.
        -- apply String.eqb_neq in Ek. split; [|reflexivity].
           intros _ ln' v [<- | Hin].
           ++ intros Hkv. apply line_entry_spec in Hkv. congruence.
           ++ exact (proj1 IH eq_refl ln' v Hin).
      * split; [|reflexivity]. intros _ ln' v [<- | Hin].
        -- intros Hkv. apply line_entry_spec in Hkv. congruence.
        -- exact (proj1 IH eq_refl ln' v Hin).
Qed.

Lemma last_entry_spec (k v : string) (lines : list string) :
  last_entry k lines = Some v <-> last_value lines k v.
Proof.
  induction lines as [|ln lines IH].
  - simpl. split; [discriminate|].
    intros (before & ln & after & Hl & _). destruct before; discriminate.
  - simpl. destruct (last_entry k lines) as [v0|] eqn:E.
    + split.
      * intros [= ->]. destruct (proj1 IH eq_refl) as (before & l & after & -> & Hkv & Hno).
        exists (ln :: before), l, after. repeat split; assumption.
      * intros (before & l & after & Hl & Hkv & Hno). destruct before as [|b before].
        -- simpl in Hl. injection Hl as <- <-.
           apply last_entry_none in Hno. congruence.
        -- simpl in Hl. injection Hl as <- ->. apply IH. exists before, l, after.
           repeat split; assumption.
    + split.
      * destruct (line_entry ln) as [[k' v']|] eqn:El; [|discriminate].
        destruct (String.eqb k' k) eqn:Ek; [|discriminate].
        apply String.eqb_eq in Ek. subst k'. intros [= ->].
        exists [], ln, lines. repeat split.
        -- apply line_entry_spec. exact El.
        -- apply last_entry_none. exact E.
      * intros (before & l & after & Hl & Hkv & Hno). destruct before as [|b before].
        -- simpl in Hl. injection Hl as <- <-.
           apply line_entry_spec in Hkv. rewrite Hkv, String.eqb_refl. reflexivity.
        -- simpl in Hl. injection Hl as <- ->.
           assert (None = Some v) as Habs
             by (apply IH; exists before, l, after; repeat split; assumption).
           discriminate.
Qed.

(** C8. On a connected device, for every text of the information dump,
    [get_device_info] returns the mapping in which a key has the value
    given by the last line that holds a colon and gives that key a value:
    the line is split at its first colon, both parts are stripped, and a
    line without a colon gives nothing. *)
Theorem get_device_info_mapping (World : Type) (H : Host World) (m : Machine World)
  (u out : string) (w : World) :
  _connected (session m) = true ->
  udid (session m) = Some u ->
  host_run ["ideviceinfo"; "-u"; u] (world m) = (Exit0 out, w) ->
  exists info : gmap string string,
    fst (get_device_info m) = Ok info
    /\ (forall key value : string,
          info !! key = Some value
          <-> last_value (PyStr.split_lines out) key value)
    /\ (forall ln : string, ~ occurs_in ":" ln -> forall key value, ~ key_value ln key value).
Proof.
  intros Hc Hu Hr. exists (parse_info out). split; [|split].
  - unfold get_device_info, try_except.
    rewrite (bind_ok _ _ _ _ _ (require_connected_ok m Hc)).
    rewrite (bind_ok _ _ _ _ _ (self_udid_some m u Hu)).
    rewrite (bind_ok _ _ _ _ _ (subprocess_run_outcome m _ _ _ Hr)).
    reflexivity.
  - intros key value. unfold parse_info.
    rewrite fold_info_lookup, lookup_empty, <- last_entry_spec.
    destruct (last_entry key (PyStr.split_lines out)); split; congruence.
  - intros ln Hno key value (a & b & -> & _). apply Hno. exists a, b. reflexivity.
Qed.

Lemma get_device_info_mapping_witness :
  exists info : gmap string string,
    fst (get_device_info info_host) = Ok info
    /\ info !! "DeviceName" = Some "Renamed"
    /\ info !! "TimeZone" = Some "Europe/Paris:1".
Proof.
  destruct (get_device_info_mapping Script scripted info_host "A1" _ _
              eq_refl eq_refl eq_refl) as (info & Hinfo & Hlast & _).
  exists info. split; [exact Hinfo|]. split.
  - apply Hlast, last_entry_spec. reflexivity.
  - apply Hlast, last_entry_spec. reflexivity.
Defined.

(** ** Discovery *)

Lemma record_of_not_missing (u : string) (cs : list call) (d : Device) :
  record_of u cs d -> Forall (fun c => snd c <> Missing) cs /\ d_udid d = u.
Proof. intros []; split; try reflexivity; repeat constructor; discriminate. Qed.

Lemma looked_up_facts (ids : list string) (cs : list call) (ds : list Device) :
  looked_up ids cs ds ->
  Forall (fun c => snd c <> Missing) cs
  /\ map d_udid ds = ids
  /\ List.length ds = List.length ids.
Proof.
  induction 1 as [|u ids cs1 cs d ds Hr _ (IHc & IHm & IHl)].
  - repeat split. constructor.
  - apply record_of_not_missing in Hr as [Hc Hu]. repeat split.
    + apply Forall_app. split; assumption.
    + simpl. congruence.
    + simpl. congruence.
Qed.

Lemma record_of_completed (u : string) (cs : list call) (d : Device) :
  record_of u cs d -> Forall completed cs.
Proof. destruct 1; repeat constructor. Qed.

Lemma looked_up_completed (ids : list string) (cs : list call) (ds : list Device) :
  looked_up ids cs ds -> Forall completed cs.
Proof.
  induction 1 as [|u ids cs1 cs d ds Hr _ IH]; [constructor|].
  apply Forall_app. split; [exact (record_of_completed u cs1 d Hr) | exact IH].
Qed.

Lemma completed_not_missing (cs : list call) :
  Forall completed cs -> ~ Exists (fun c => snd c = Missing) cs.
Proof.
  intros Hc Hm. apply Exists_exists in Hm as (c & Hin & Hm).
  rewrite Forall_forall in Hc. specialize (Hc c Hin).
  unfold completed in Hc. rewrite Hm in Hc. exact Hc.
Qed.

Lemma completed_not_fails (cs : list call) (argv : list string) (cls : string) :
  Forall completed cs -> ~ In (argv, Fails cls) cs.
Proof.
  intros Hc Hin. rewrite List.Forall_forall in Hc. exact (Hc _ Hin).
Qed.

Lemma broke_off_exists (cs : list call) (o : outcome) :
  broke_off cs o -> Exists (fun c => snd c = o) cs.
Proof.
  intros (cs0 & argv & -> & _). apply Exists_app. right. constructor. reflexivity.
Qed.

Lemma broke_off_app (cs1 cs : list call) (o : outcome) :
  Forall completed cs1 -> broke_off cs o -> broke_off (cs1 ++ cs) o.
Proof.
  intros H1 (cs0 & argv & -> & H0). exists (cs1 ++ cs0)%list, argv.
  split; [rewrite app_assoc; reflexivity | apply Forall_app; split; assumption].
Qed.

Lemma broke_off_one (argv : list string) (o : outcome) : broke_off [(argv, o)] o.
Proof. exists [], argv. split; [reflexivity | constructor]. Qed.

Section DiscoveryFacts.

Context {World : Type} `{Host World}.

(** The body of the loop: a record and the commands it took, or the
    metadata tool is not there, or a metadata command raised an exception
    of another class, which is let through. *)
Lemma device_record_result (u : string) (m : Machine World) :
  session (snd (device_record u m)) = session m
  /\ exists cs, calls (snd (device_record u m)) = (calls m ++ cs)%list
      /\ ((exists d, fst (device_record u m) = Ok d /\ record_of u cs d)
          \/ (fst (device_record u m) = Raise FileNotFoundError
              /\ broke_off cs Missing)
          \/ (exists cls, fst (device_record u m) = Raise (OtherException cls)
                          /\ broke_off cs (Fails cls))).
Proof.
  unfold device_record, try_except, bind, ret, subprocess_run.
  destruct (host_run (name_command u) (world m)) as [[n| | |cls] w1] eqn:E1; simpl.
  - destruct (host_run (version_command u) w1) as [[v| | |cls] w2] eqn:E2; simpl;
      (split; [reflexivity|]); rewrite <- app_assoc; eexists; (split; [reflexivity|]).
    + left. eexists. split; [reflexivity | constructor].
    + left. eexists. split; [reflexivity | constructor].
    + right. left. split; [reflexivity|].
      apply (broke_off_app [_]); [repeat constructor | apply broke_off_one].
    + right. right. exists cls. split; [reflexivity|].
      apply (broke_off_app [_]); [repeat constructor | apply broke_off_one].
  - split; [reflexivity|]. eexists. split; [reflexivity|].
    left. eexists. split; [reflexivity | constructor].
  - split; [reflexivity|]. eexists. split; [reflexivity|].
    right. left. split; [reflexivity | apply broke_off_one].
  - split; [reflexivity|]. eexists. split; [reflexivity|].
    right. right. exists cls. split; [reflexivity | apply broke_off_one].
Qed.

Lemma for_udid_result (ids : list string) (devices : list Device) (m : Machine World) :
  session (snd (for_udid ids devices m)) = session m
  /\ exists cs, calls (snd (for_udid ids devices m)) = (calls m ++ cs)%list
      /\ ((exists ds, fst (for_udid ids devices m) = Ok (devices ++ ds)
                      /\ looked_up ids cs ds)
          \/ (fst (for_udid ids devices m) = Raise FileNotFoundError
              /\ broke_off cs Missing)
          \/ (exists cls, fst (for_udid ids devices m) = Raise (OtherException cls)
                          /\ broke_off cs (Fails cls))).
Proof.
  revert devices m. induction ids as [|u ids IH]; intros devices m.
  - simpl. split; [reflexivity|]. exists []. split; [rewrite app_nil_r; reflexivity|].
    left. exists []. split; [rewrite app_nil_r; reflexivity | constructor].
  - cbn [for_udid]. unfold bind.
    destruct (device_record_result u m) as (Hs & cs1 & Hc & Hcase).
    destruct (device_record u m) as [r m1]. simpl in Hs, Hc, Hcase.
    destruct Hcase as [(d & -> & Hrec) | [(-> & Hmiss) | (cls & -> & Hfail)]].
    + destruct (IH (devices ++ [d])%list m1) as (Hs' & cs & Hc' & Hcase').
      pose proof (record_of_completed u cs1 d Hrec) as Hdone.
      split; [congruence|]. exists (cs1 ++ cs)%list.
      split; [rewrite Hc', Hc, app_assoc; reflexivity|].
      destruct Hcase' as [(ds & Hok & Hl) | [(Hraise & Hmiss) | (cls & Hraise & Hfail)]].
      * left. exists (d :: ds). split.
        -- rewrite Hok, <- app_assoc. reflexivity.
        -- constructor; assumption.
      * right. left. split; [exact Hraise | apply broke_off_app; assumption].
      * right. right. exists cls. split; [exact Hraise | apply broke_off_app; assumption].
    + simpl. split; [exact Hs|]. exists cs1. split; [exact Hc|].
      right. left. split; [reflexivity | exact Hmiss].
    + simpl. split; [exact Hs|]. exists cs1. split; [exact Hc|].
      right. right. exists cls. split; [reflexivity | exact Hfail].
Qed.

(** [list_devices] never writes the session; it runs the discovery
    command, then the metadata commands, and raises only what a command
    raised that is neither [CalledProcessError] nor [FileNotFoundError]. *)
Lemma list_devices_result (m : Machine World) :
  session (snd (list_devices m)) = session m
  /\ exists o cs,
      calls (snd (list_devices m)) = (calls m ++ (discovery_command, o) :: cs)%list
      /\ ((exists devices,
              fst (list_devices m) = Ok devices
              /\ match o with
                 | Exit0 out =>
                     looked_up (device_ids out) cs devices
                     \/ (devices = [] /\ broke_off cs Missing)
                 | Fails _ => False
                 | _ => devices = [] /\ cs = []
                 end)
          \/ (exists cls,
                 fst (list_devices m) = Raise (OtherException cls)
                 /\ broke_off ((discovery_command, o) :: cs) (Fails cls))).
Proof.
  unfold list_devices, try_except, bind, subprocess_run.
  fold discovery_command.
  destruct (host_run discovery_command (world m)) as [[out| | |cls] w1] eqn:E; simpl.
  - match goal with |- context [for_udid ?ids ?acc ?m1] =>
      destruct (for_udid_result ids acc m1) as (Hs & cs & Hc & Hcase);
      destruct (for_udid ids acc m1) as [r m2]
    end.
    simpl in Hs, Hc, Hcase.
    destruct Hcase as [(ds & -> & Hl) | [(-> & Hmiss) | (cls & -> & Hfail)]]; simpl.
    + split; [exact Hs|]. exists (Exit0 out), cs.
      split; [rewrite Hc, <- app_assoc; reflexivity|].
      left. exists ds. split; [reflexivity | left; exact Hl].
    + split; [exact Hs|]. exists (Exit0 out), cs.
      split; [rewrite Hc, <- app_assoc; reflexivity|].
      left. exists []. split; [reflexivity | right; split; [reflexivity | exact Hmiss]].
    + split; [exact Hs|]. exists (Exit0 out), cs.
      split; [rewrite Hc, <- app_assoc; reflexivity|].
      right. exists cls. split; [reflexivity|].
      apply (broke_off_app [_]); [repeat constructor | exact Hfail].
  - split; [reflexivity|]. exists NonZero, []. split; [reflexivity|].
    left. exists []. repeat split.
  - split; [reflexivity|]. exists Missing, []. split; [reflexivity|].
    left. exists []. repeat split.
  - split; [reflexivity|]. exists (Fails cls), []. split; [reflexivity|].
    right. exists cls. split; [reflexivity | apply broke_off_one].
Qed.

(** [list_devices] returns a list or lets through an exception of
    another class. *)
Lemma list_devices_ends (m : Machine World) :
  (exists devices, fst (list_devices m) = Ok devices)
  \/ (exists cls, fst (list_devices m) = Raise (OtherException cls)).
Proof.
  destruct (list_devices_result m) as (_ & o & cs & _ & [(ds & Hok & _) | (cls & Hr & _)]);
    eauto.
Qed.

End DiscoveryFacts.

(** C6, as the code has it.  [list_devices] returns a list unless one of
    its commands raises an exception that is neither [CalledProcessError]
    nor [FileNotFoundError]: that exception is let through, and the
    command that raised it is the last one run.  When it returns, on
    every discovery run in which the metadata tool is there (no metadata
    command ends with a missing executable) the list has exactly one
    record per discovered identifier, in order, and an identifier whose
    name or version command exits with a failure has the placeholder
    record; when the metadata tool is missing the list is empty. *)
Theorem list_devices_one_record_each (World : Type) (H : Host World) (m : Machine World) :
  ((exists devices : list Device, fst (list_devices m) = Ok devices)
   \/ (exists (cls : string) (cs : list call) (argv : list string),
          fst (list_devices m) = Raise (OtherException cls)
          /\ calls (snd (list_devices m)) = (calls m ++ cs ++ [(argv, Fails cls)])%list
          /\ Forall completed cs))
  /\ (forall e, fst (list_devices m) = Raise e -> exists cls, e = OtherException cls)
  /\ fst (list_devices m) <> OutOfFuel
  /\ forall (devices : list Device) (out : string) (cs : list call),
      fst (list_devices m) = Ok devices ->
      calls (snd (list_devices m))
      = (calls m ++ (discovery_command, Exit0 out) :: cs)%list ->
      (Forall (fun c => snd c <> Missing) cs ->
       looked_up (device_ids out) cs devices
       /\ map d_udid devices = device_ids out
       /\ List.length devices = List.length (device_ids out))
      /\ (Exists (fun c => snd c = Missing) cs -> devices = []).
Proof.
  destruct (list_devices_result m) as (_ & o & cs & Hcalls & Hcase).
  split; [|split; [|split]].
  - destruct Hcase as [(devices & Hok & _) | (cls & Hr & cs0 & argv & Hcs & Hdone)].
    + left. exists devices. exact Hok.
    + right. exists cls, cs0, argv. split; [exact Hr|]. split; [|exact Hdone].
      rewrite Hcalls, Hcs. reflexivity.
  - intros e He. destruct Hcase as [(devices & Hok & _) | (cls & Hr & _)].
    + rewrite Hok in He. discriminate He.
    + rewrite Hr in He. injection He as <-. exists cls. reflexivity.
  - destruct Hcase as [(devices & -> & _) | (cls & -> & _)]; discriminate.
  - intros devices out cs' Hok Hcalls'. rewrite Hcalls in Hcalls'.
    apply app_inv_head in Hcalls'. injection Hcalls' as -> ->.
    destruct Hcase as [(ds & Hok' & Hcase) | (cls & Hr & _)];
      [|rewrite Hr in Hok; discriminate Hok].
    rewrite Hok in Hok'. injection Hok' as <-.
    destruct Hcase as [Hl | [-> Hmiss]].
    + pose proof (looked_up_facts _ _ _ Hl) as (Hnm & Hmap & Hlen). split.
      * intros _. repeat split; assumption.
      * intros Hmiss. exfalso. apply Exists_exists in Hmiss as (c & Hin & Hc).
        rewrite Forall_forall in Hnm. exact (Hnm c Hin Hc).
    + split; [|reflexivity].
      intros Hnm. exfalso. apply broke_off_exists in Hmiss.
      apply Exists_exists in Hmiss as (c & Hin & Hc).
      rewrite Forall_forall in Hnm. exact (Hnm c Hin Hc).
Qed.

Lemma list_devices_one_record_each_witness :
  exists devices : list Device,
    fst (list_devices two_devices_host) = Ok devices
    /\ map d_udid devices = ["A1"; "B2"]
    /\ List.length devices = 2%nat
    /\ devices
       = [ {| d_udid := "A1"; d_name := "iPhone"; d_ios_version := "17.0" |};
           {| d_udid := "B2"; d_name := "Unknown Device"; d_ios_version := "Unknown" |} ].
Proof.
  destruct (list_devices_one_record_each Script scripted two_devices_host)
    as (_ & _ & _ & Hrun).
  eexists. split; [reflexivity|].
  destruct (Hrun _ (line "A1" +:+ line "B2")
              [ (name_command "A1", Exit0 (line "iPhone"));
                (version_command "A1", Exit0 (line "17.0"));
                (name_command "B2", Exit0 (line "iPad"));
                (version_command "B2", NonZero) ] eq_refl eq_refl) as [Hpresent _].
  destruct Hpresent as (_ & Hmap & Hlen).
  { repeat constructor; discriminate. }
  split; [exact Hmap|]. split; [exact Hlen|]. reflexivity.
Defined.

(** C6, as stated, fails: discovery finds one identifier, the metadata
    tool is missing, and the identifier has no record in the list. *)
Lemma missing_metadata_tool_drops_entries :
  device_ids (line "A1") = ["A1"]
  /\ fst (list_devices no_metadata_tool_host) = Ok []
  /\ calls (snd (list_devices no_metadata_tool_host))
     = [(discovery_command, Exit0 (line "A1")); (name_command "A1", Missing)]
  /\ (forall devices, fst (list_devices no_metadata_tool_host) = Ok devices ->
      List.length devices <> List.length (device_ids (line "A1"))).
Proof.
  split; [reflexivity|]. split; [reflexivity|]. split; [reflexivity|].
  intros devices [= <-]. discriminate.
Qed.

(** ** The session *)

Section SessionFacts.

Context {World : Type} `{Host World}.

Lemma keeps_ret {A : Type} (a : A) : keeps_session (ret (World := World) a).
Proof. intros m. reflexivity. Qed.

Lemma keeps_raise {A : Type} (e : exn) : keeps_session (raise (World := World) (A := A) e).
Proof. intros m. reflexivity. Qed.

Lemma keeps_out_of_fuel {A : Type} : keeps_session (out_of_fuel (World := World) (A := A)).
Proof. intros m. reflexivity. Qed.

Lemma keeps_lift {A : Type} (r : res A) : keeps_session (lift (World := World) r).
Proof. intros m. reflexivity. Qed.

Lemma keeps_get_session : keeps_session (get_session (World := World)).
Proof. intros m. reflexivity. Qed.

Lemma keeps_subprocess_run (argv : list string) : keeps_session (subprocess_run argv).
Proof.
  intros m. unfold subprocess_run.
  destruct (host_run argv (world m)) as [[out| | |cls] w]; reflexivity.
Qed.

Lemma keeps_time_time : keeps_session time_time.
Proof. intros m. unfold time_time. destruct (host_time (world m)). reflexivity. Qed.

Lemma keeps_time_sleep (ms : Z) : keeps_session (time_sleep ms).
Proof. intros m. reflexivity. Qed.

Lemma keeps_bind {A B : Type} (c : M World A) (k : A -> M World B) :
  keeps_session c -> (forall a, keeps_session (k a)) -> keeps_session (bind c k).
Proof.
  intros Hc Hk m. unfold bind. specialize (Hc m).
  destruct (c m) as [[a|e|] m']; simpl in Hc |- *; [|exact Hc|exact Hc].
  rewrite (Hk a m'). exact Hc.
Qed.

Lemma keeps_try_except {A : Type} (body : M World A) (handler : exn -> option (M World A)) :
  keeps_session body ->
  (forall e h, handler e = Some h -> keeps_session h) ->
  keeps_session (try_except body handler).
Proof.
  intros Hb Hh m. unfold try_except. specialize (Hb m).
  destruct (body m) as [[a|e|] m']; simpl in Hb |- *; [exact Hb| |exact Hb].
  destruct (handler e) as [h|] eqn:E; [|exact Hb].
  rewrite (Hh e h E m'). exact Hb.
Qed.

End SessionFacts.

(** Goes through a computation made of the operations above. *)
Ltac keeps :=
  repeat first
    [ apply keeps_ret | apply keeps_raise | apply keeps_out_of_fuel
    | apply keeps_lift | apply keeps_get_session | apply keeps_subprocess_run
    | apply keeps_time_time | apply keeps_time_sleep
    | assumption
    | apply keeps_bind; [|intros ?]
    | apply keeps_try_except;
      [|let e := fresh "e" in let h := fresh "h" in let E := fresh "E" in
        intros e h E; destruct e; try discriminate E; injection E as <-]
    | match goal with
      | |- keeps_session (match ?x with _ => _ end) => destruct x
      end ].

Section SessionOperations.

Context {World : Type} `{Host World}.

Lemma keeps_self_udid : keeps_session (World := World) self_udid.
Proof. unfold self_udid. keeps. Qed.

Lemma keeps_require_connected : keeps_session (World := World) require_connected.
Proof. unfold require_connected, is_connected. keeps. Qed.

Lemma keeps_list_devices : keeps_session (World := World) list_devices.
Proof. intros m. exact (proj1 (list_devices_result m)). Qed.

Lemma keeps_get_device_info : keeps_session (World := World) get_device_info.
Proof.
  pose proof keeps_self_udid. pose proof keeps_require_connected.
  unfold get_device_info, tool_failure. keeps.
Qed.

Lemma keeps_with_fallback (primary secondary : string -> list string) :
  keeps_session (World := World) (with_fallback primary secondary).
Proof. pose proof keeps_self_udid. unfold with_fallback. keeps. Qed.

Lemma keeps_tap (x y : Z) : keeps_session (World := World) (tap x y).
Proof.
  pose proof keeps_require_connected. pose proof (keeps_with_fallback (tap_primary x y)).
  unfold tap. keeps.
Qed.

Lemma keeps_swipe (a b c d : Z) (t : string) : keeps_session (World := World) (swipe a b c d t).
Proof.
  pose proof keeps_require_connected. unfold swipe.
  apply keeps_bind; [assumption | intros _; apply keeps_with_fallback].
Qed.

Lemma keeps_get_ui_hierarchy : keeps_session (World := World) _get_ui_hierarchy.
Proof. pose proof keeps_self_udid. unfold _get_ui_hierarchy. keeps. Qed.

Lemma keeps_poll (t : string) (exact_match : bool) : keeps_session (World := World) (poll t exact_match).
Proof. pose proof keeps_get_ui_hierarchy. unfold poll. keeps. Qed.

Lemma keeps_wait_loop (fuel : nat) (start_time timeout : Z) (t : string)
  (exact_match : bool) :
  keeps_session (World := World) (wait_loop fuel start_time timeout t exact_match).
Proof.
  induction fuel as [|fuel IH]; simpl; [apply keeps_out_of_fuel|].
  pose proof (keeps_poll t exact_match). keeps.
Qed.

(** Every operation outside the life cycle leaves the session as it
    is. *)
Lemma exec_keeps_session (o : operation) :
  life_cycle o = false -> keeps_session (World := World) (exec o).
Proof.
  pose proof keeps_self_udid. pose proof keeps_require_connected.
  pose proof keeps_list_devices. pose proof keeps_get_device_info.
  pose proof keeps_get_ui_hierarchy.
  destruct o; try discriminate; intros _; unfold exec, fmap_M;
    (apply keeps_bind; [|intros ?; apply keeps_ret]);
    try assumption.
  - unfold is_connected. keeps.
  - unfold device_info. keeps.
  - unfold __str__. keeps.
  - unfold install_app, tool_failure. keeps.
  - unfold uninstall_app, tool_failure. keeps.
  - unfold list_apps, tool_failure. keeps.
  - unfold reboot, tool_failure. keeps.
  - unfold screenshot, tool_failure. keeps.
  - apply keeps_tap.
  - apply keeps_swipe.
  - unfold input_text. apply keeps_bind; [assumption | intros _; apply keeps_with_fallback].
  - pose proof keeps_tap. unfold tap_by_text, any_failure. keeps.
  - unfold long_press, tool_failure. keeps.
  - unfold home_button. apply keeps_bind; [assumption | intros _; apply keeps_with_fallback].
  - pose proof keeps_swipe. unfold back_button, any_failure. keeps.
  - pose proof keeps_wait_loop. unfold wait_for_element_by_text. keeps. apply keeps_wait_loop.
  - unfold get_screen_size. keeps.
Qed.

End SessionOperations.
Lemma device_ids_nonempty (stdout : string) :
  Forall (fun u => u <> "") (device_ids stdout).
Proof.
  unfold device_ids. apply List.Forall_forall. intros u Hin.
  apply List.filter_In in Hin as [_ Hn]. destruct u; [discriminate | discriminate].
Qed.

Section ConnectFacts.

Context {World : Type} `{Host World}.

(** The records of [list_devices] have non-empty identifiers. *)
Lemma list_devices_udids (m : Machine World) (devices : list Device) :
  fst (list_devices m) = Ok devices ->
  Forall (fun d => d_udid d <> "") devices.
Proof.
  destruct (list_devices_result m)
    as (_ & o & cs & _ & [(ds & Hok & Hcase) | (cls & Hr & _)]);
    [|rewrite Hr; discriminate].
  rewrite Hok. intros [= <-].
  destruct o as [out| | |cls]; [| destruct Hcase as [-> _]; constructor ..
                               | contradiction].
  destruct Hcase as [Hl | [-> _]]; [|constructor].
  apply looked_up_facts in Hl as (_ & Hmap & _).
  pose proof (device_ids_nonempty out) as Hne. rewrite <- Hmap in Hne.
  exact (proj1 (List.Forall_map d_udid (fun u => u <> "") ds) Hne).
Qed.

(** [connect] either sets the three fields together, to a record of the
    discovery list and its identifier, or raises a connection error and
    leaves the session as it was. *)
Lemma connect_result (m : Machine World) :
  (exists d,
      fst (connect m) = Ok true
      /\ session (snd (connect m))
         = {| udid := Some (d_udid d); _device_info := Some d; _connected := true |}
      /\ d_udid d <> "")
  \/ (fst (connect m) = Raise IOSConnectionError
      /\ session (snd (connect m)) = session m).
Proof.
  pose proof (list_devices_udids m) as Hne.
  pose proof (keeps_list_devices m) as Hs.
  unfold connect, try_except, bind.
  destruct (list_devices_ends m) as [(devices & Hok) | (cls & Hok)];
    destruct (list_devices m) as [r m1]; simpl in Hs, Hok, Hne; subst r;
    [|right; split; [reflexivity | exact Hs]].
  specialize (Hne devices eq_refl).
  destruct devices as [|first rest]; [right; split; [reflexivity | exact Hs]|].
  unfold get_session. rewrite Hs.
  destruct (udid_given (udid (session m))) eqn:Hg.
  - destruct (find (has_udid (udid (session m))) (first :: rest)) as [d|] eqn:Hf.
    + left. exists d. apply find_some in Hf as [Hin Hd].
      destruct (udid (session m)) as [u|] eqn:Hu; [|discriminate].
      apply String.eqb_eq in Hd. subst u.
      split; [reflexivity|]. split.
      * simpl. rewrite Hs, Hu. reflexivity.
      * rewrite List.Forall_forall in Hne. exact (Hne d Hin).
    + right. split; [reflexivity | exact Hs].
  - left. exists first. split; [reflexivity|]. split; [reflexivity|].
    inversion Hne. assumption.
Qed.

End ConnectFacts.

(** C10. A session starts not connected; whenever its connected flag is
    true it has a device record and a non-empty udid, and every operation
    keeps it so: [connect] sets flag, record and udid together or raises
    and leaves the session as it was, [disconnect] clears the flag and the
    record, and every other operation leaves the session unchanged. *)
Theorem session_invariant (World : Type) (H : Host World) :
  (forall u : option string, session_ok (__init__ u) /\ _connected (__init__ u) = false)
  /\ (forall (o : operation) (m : Machine World),
        session_ok (session m) -> session_ok (session (snd (exec o m))))
  /\ (forall (o : operation) (m : Machine World),
        life_cycle o = false -> session (snd (exec o m)) = session m)
  /\ (forall m : Machine World,
        (exists d,
            fst (connect m) = Ok true
            /\ session (snd (connect m))
               = {| udid := Some (d_udid d); _device_info := Some d; _connected := true |}
            /\ d_udid d <> "")
        \/ (fst (connect m) = Raise IOSConnectionError
            /\ session (snd (connect m)) = session m))
  /\ (forall m : Machine World,
        session (snd (disconnect m))
        = {| udid := udid (session m); _device_info := None; _connected := false |}).
Proof.
  assert (forall m : Machine World,
             session_ok (session m) -> session_ok (session (snd (connect m)))) as Hconnect.
  { intros m Hok. destruct (connect_result m) as [(d & _ & -> & Hne) | [_ ->]]; [|exact Hok].
    intros _. split; [exists d; reflexivity | exists (d_udid d); split; [reflexivity | exact Hne]]. }
  assert (forall m : Machine World, session_ok (session (snd (disconnect m)))) as Hdisconnect.
  { intros m. discriminate. }
  split; [|split; [|split; [|split]]].
  - intros u. split; [discriminate | reflexivity].
  - intros o m Hok. destruct (life_cycle o) eqn:Hl.
    + destruct o; try discriminate Hl; unfold exec, fmap_M, __enter__, __exit__, bind.
      * specialize (Hconnect m Hok). destruct (connect m) as [[b|e|] m']; exact Hconnect.
      * exact (Hdisconnect m).
      * specialize (Hconnect m Hok). destruct (connect m) as [[b|e|] m']; exact Hconnect.
      * exact (Hdisconnect m).
    + rewrite (exec_keeps_session o Hl m). exact Hok.
  - intros o m Hl. exact (exec_keeps_session o Hl m).
  - exact connect_result.
  - reflexivity.
Qed.

Lemma session_invariant_witness :
  session_ok (session one_device_host)
  /\ session_ok (session (snd (exec Connect one_device_host)))
  /\ session (snd (exec Connect one_device_host))
     = {| udid := Some "A1";
          _device_info := Some {| d_udid := "A1"; d_name := "iPhone";
                                  d_ios_version := "17.0" |};
          _connected := true |}
  /\ session (snd (exec (Tap 1 2) (machine connected_session [NonZero; NonZero])))
     = connected_session.
Proof.
  pose proof (session_invariant Script scripted) as (Hinit & Hstep & Hkeep & _ & _).
  split; [exact (proj1 (Hinit None))|].
  split; [exact (Hstep Connect one_device_host (proj1 (Hinit None)))|].
  split; [reflexivity|].
  exact (Hkeep (Tap 1 2) (machine connected_session [NonZero; NonZero]) eq_refl).
Defined.

(** * Further properties *)

(** ** Stripping and splitting *)

Lemma lstrip_suffix (s : string) : exists p, s = p +:+ PyStr.lstrip s.
Proof.
  induction s as [|c r [p IH]]; [exists ""; reflexivity|].
  simpl. destruct (PyStr.isspace c).
  - exists (String c p). rewrite append_cons. congruence.
  - exists "". reflexivity.
Qed.

Lemma rstrip_prefix (s : string) : exists q, s = PyStr.rstrip s +:+ q.
Proof.
  induction s as [|c r [q IH]]; [exists ""; reflexivity|].
  simpl. destruct (PyStr.rstrip r) as [|x y] eqn:E.
  - destruct (PyStr.isspace c).
    + exists (String c r). reflexivity.
    + exists q. rewrite append_cons. simpl in IH. congruence.
  - exists q. rewrite append_cons. congruence.
Qed.

Lemma lstrip_head (s : string) (c : ascii) (t : string) :
  PyStr.lstrip s = String c t -> PyStr.isspace c = false.
Proof.
  induction s as [|a r IH]; simpl; [discriminate|].
  destruct (PyStr.isspace a) eqn:E; [exact IH|]. intros [= <- _]. exact E.
Qed.

Lemma rstrip_head (c : ascii) (r : string) :
  PyStr.isspace c = false -> exists t, PyStr.rstrip (String c r) = String c t.
Proof.
  intros Hc. simpl. destruct (PyStr.rstrip r); [rewrite Hc|]; eauto.
Qed.

Lemma rstrip_last (s t : string) (c : ascii) :
  PyStr.rstrip s = t +:+ String c "" -> PyStr.isspace c = false.
Proof.
  revert t. induction s as [|a r IH]; intros t; simpl.
  - destruct t; discriminate.
  - destruct (PyStr.rstrip r) as [|x y] eqn:E.
    + destruct (PyStr.isspace a) eqn:Ea; [destruct t; discriminate|].
      destruct t as [|b t]; simpl.
      * intros [= <-]. exact Ea.
      * rewrite append_cons. intros [= _ Habs]. destruct t; discriminate.
    + destruct t as [|b t].
      * simpl. discriminate.
      * rewrite append_cons. intros [= _ Heq]. exact (IH t Heq).
Qed.

Lemma rstrip_idempotent (s : string) : PyStr.rstrip (PyStr.rstrip s) = PyStr.rstrip s.
Proof.
  induction s as [|a r IH]; [reflexivity|].
  simpl. destruct (PyStr.rstrip r) as [|x y] eqn:E.
  - destruct (PyStr.isspace a) eqn:Ea; [reflexivity|]. simpl. rewrite Ea. reflexivity.
  - change (PyStr.rstrip (String a (String x y)))
      with (match PyStr.rstrip (String x y) with
            | "" => if PyStr.isspace a then "" else String a ""
            | r' => String a r'
            end).
    rewrite IH. reflexivity.
Qed.

Lemma lstrip_fixed (s : string) :
  (forall c t, s = String c t -> PyStr.isspace c = false) -> PyStr.lstrip s = s.
Proof.
  destruct s as [|c t]; [reflexivity|]. intros Hs. simpl.
  rewrite (Hs c t eq_refl). reflexivity.
Qed.

Lemma strip_head (s : string) (c : ascii) (t : string) :
  PyStr.strip s = String c t -> PyStr.isspace c = false.
Proof.
  unfold PyStr.strip. destruct (PyStr.lstrip s) as [|a r] eqn:E; [discriminate|].
  pose proof (lstrip_head s a r E) as Ha.
  destruct (rstrip_head a r Ha) as [t' ->]. intros [= <- _]. exact Ha.
Qed.

Lemma occurs_in_trans (a b c : string) : occurs_in a b -> occurs_in b c -> occurs_in a c.
Proof.
  intros (p & q & ->) (p' & q' & ->). exists (p' +:+ p), (q +:+ q').
  rewrite !append_assoc. reflexivity.
Qed.

(** [strip] returns a piece of its argument that neither starts nor
    ends with white space, and stripping twice changes nothing more. *)
Theorem strip_spec (s : string) :
  occurs_in (PyStr.strip s) s
  /\ no_outer_space (PyStr.strip s)
  /\ PyStr.strip (PyStr.strip s) = PyStr.strip s.
Proof.
  split; [|split; [split|]].
  - unfold PyStr.strip. destruct (lstrip_suffix s) as [p Hp].
    destruct (rstrip_prefix (PyStr.lstrip s)) as [q Hq].
    exists p, q. congruence.
  - exact (strip_head s).
  - intros t c. exact (rstrip_last _ t c).
  - unfold PyStr.strip at 1. rewrite (lstrip_fixed _ (strip_head s)).
    unfold PyStr.strip. apply rstrip_idempotent.
Qed.

Lemma startswith_drop (p s : string) :
  PyStr.startswith p s = true -> s = p +:+ PyStr.drop (String.length p) s.
Proof.
  revert s. induction p as [|a p IH]; intros s; [reflexivity|].
  destruct s as [|b s]; simpl; [discriminate|].
  destruct (Ascii.eqb a b) eqn:E; [|discriminate].
  apply Ascii.eqb_eq in E. subst b. intros Hs.
  rewrite append_cons. f_equal. exact (IH s Hs).
Qed.

(** [split(sep, 1)] cuts at the first occurrence of the separator:
    the two parts and the separator make up the text, no cut is further
    left, and there is no cut exactly when the separator does not occur. *)
Theorem split_once_first (sep s : string) :
  (forall a b,
      PyStr.split_once sep s = Some (a, b) ->
      s = a +:+ sep +:+ b
      /\ forall a' b', s = a' +:+ sep +:+ b' ->
                       (String.length a <= String.length a')%nat)
  /\ (PyStr.split_once sep s = None <-> ~ occurs_in sep s).
Proof.
  split.
  - induction s as [|c r IH]; intros a b.
    + simpl. destruct (PyStr.startswith sep "") eqn:E; [|discriminate].
      intros [= <- <-]. split; [exact (startswith_drop sep "" E) | intros; simpl; lia].
    + cbn [PyStr.split_once]. destruct (PyStr.startswith sep (String c r)) eqn:E.
      * intros [= <- <-]. split; [exact (startswith_drop sep _ E) | intros; simpl; lia].
      * destruct (PyStr.split_once sep r) as [[a0 b0]|] eqn:Er in |- *; [|discriminate].
        intros [= <- <-]. destruct (IH a0 b0 Er) as [Hr Hmin]. split.
        -- rewrite append_cons. congruence.
        -- intros a' b' Hs. destruct a' as [|c' a'].
           ++ assert (PyStr.startswith sep (String c r) = true)
                by (apply startswith_spec; exists b'; exact Hs).
              congruence.
           ++ rewrite append_cons in Hs. injection Hs as _ Hs.
              specialize (Hmin a' b' Hs). simpl. lia.
  - rewrite <- contains_spec.
    pose proof (contains_split_once sep s) as Hc.
    destruct (PyStr.split_once sep s) as [ab|].
    + split; [discriminate|]. intros Hn. exfalso. apply Hn, Hc. eauto.
    + split; [|reflexivity]. intros _ Hn. apply Hc in Hn as [ab Hab]. discriminate.
Qed.

Lemma split_once_first_witness :
  PyStr.split_once " - " "com.a-b - My - App" = Some ("com.a-b", "My - App")
  /\ "com.a-b - My - App" = "com.a-b" +:+ " - " +:+ "My - App".
Proof.
  split; [reflexivity|].
  exact (proj1 (proj1 (split_once_first " - " "com.a-b - My - App")
                  "com.a-b" "My - App" eq_refl)).
Defined.

(** ** More on the resolver *)

Lemma lower_char_idempotent (c : ascii) :
  PyStr.lower_char (PyStr.lower_char c) = PyStr.lower_char c.
Proof. destruct c as [[] [] [] [] [] [] [] []]; reflexivity. Qed.

Lemma lower_idempotent (s : string) : PyStr.lower (PyStr.lower s) = PyStr.lower s.
Proof.
  induction s as [|c r IH]; [reflexivity|].
  simpl. rewrite lower_char_idempotent, IH. reflexivity.
Qed.

(** The search uses the query only through the test on the text of a
    node. *)
Lemma search_recursive_ext (q1 q2 : string) (e1 e2 : bool) :
  (forall et, text_test q1 e1 et = text_test q2 e2 et) ->
  forall h,
    search_recursive q1 e1 h = search_recursive q2 e2 h
    /\ for_each q1 e1 h = for_each q2 e2 h.
Proof.
  intros Htest.
  assert (forall kvs, check_element q1 e1 kvs = check_element q2 e2 kvs) as Hcheck.
  { intros kvs. unfold check_element. rewrite Htest. reflexivity. }
  assert (forall items,
             Forall (fun x => search_recursive q1 e1 x = search_recursive q2 e2 x) items ->
             first_result (search_recursive q1 e1) items
             = first_result (search_recursive q2 e2) items) as Hloop.
  { induction 1 as [|x items Hx _ IH]; simpl; [reflexivity|]. rewrite Hx, IH. reflexivity. }
  induction h as [| b | n | s | items IH | kvs IH] using json_nested_ind;
    try (split; reflexivity).
  - assert (first_result (search_recursive q1 e1) items
            = first_result (search_recursive q2 e2) items) as Heq.
    { apply Hloop. eapply Forall_impl; [exact IH | intros x [Hx _]; exact Hx]. }
    split; exact Heq.
  - split; [|reflexivity].
    rewrite !search_recursive_dict, Hcheck.
    destruct (check_element q2 e2 kvs); [reflexivity|].
    rewrite element_children_key.
    destruct (Py.lookup (children_key kvs) kvs) as [v|] eqn:E; [|reflexivity].
    simpl.
    exact (proj2 (lookup_Forall
                    (fun j => search_recursive q1 e1 j = search_recursive q2 e2 j
                              /\ for_each q1 e1 j = for_each q2 e2 j)
                    _ _ _ IH E)).
Qed.

(** X1. Without [exact_match] the letter case of the query does not matter:
    the query and its lower-case form resolve alike on every input, be it
    to a point, to no match or to an exception. *)
Theorem partial_match_ignores_query_case (q : string) (h : json) :
  _find_element_by_text q false h = _find_element_by_text (PyStr.lower q) false h.
Proof.
  unfold _find_element_by_text. apply search_recursive_ext.
  intros et. unfold text_test. rewrite lower_idempotent. reflexivity.
Qed.

Lemma contains_empty (s : string) : PyStr.contains "" s = true.
Proof. destruct s; reflexivity. Qed.

Lemma counts_empty_exact (node : list (string * json)) : counts "" true node = false.
Proof.
  unfold counts, node_text, matches.
  destruct (element_text node) as [| | |t| |]; try reflexivity.
  destruct t; reflexivity.
Qed.

Lemma center_of_first_empty_exact (nodes : list (list (string * json))) :
  center_of_first "" true nodes = Ok None.
Proof.
  unfold center_of_first.
  assert (find (counts "" true) nodes = None) as ->; [|reflexivity].
  induction nodes as [|n nodes IH]; [reflexivity|].
  simpl. rewrite counts_empty_exact. exact IH.
Qed.

(** X2. The empty query.  With [exact_match] it finds nothing: the result is
    no match, on a value that is no hierarchy possibly an exception.
    Without [exact_match] it is found in every text: at a node that has
    a text and bounds, the test of the node and the search both leave
    with the center of these bounds, whatever the text is. *)
Theorem empty_query (h : json) :
  (hierarchy h = true -> _find_element_by_text "" true h = Ok None)
  /\ (_find_element_by_text "" true h = Ok None
      \/ exists e, _find_element_by_text "" true h = Raise e)
  /\ (forall (node : list (string * json)) (t : string),
        element_text node = JStr t ->
        t <> "" ->
        Py.truthy (element_bounds node) = true ->
        check_element "" false node
        = Some (match _get_center_coordinates (element_bounds node) with
                | Ok c => Ok (Some c)
                | Raise e => Raise e
                | OutOfFuel => OutOfFuel
                end)
        /\ _find_element_by_text "" false (JDict node)
           = match _get_center_coordinates (element_bounds node) with
             | Ok c => Ok (Some c)
             | Raise e => Raise e
             | OutOfFuel => OutOfFuel
             end).
Proof.
  split; [|split].
  - intros Hh. unfold _find_element_by_text.
    rewrite (proj1 (search_first_match_both "" true h) Hh).
    apply center_of_first_empty_exact.
  - unfold _find_element_by_text.
    destruct (proj1 (search_first_match_or_raise "" true h)) as [-> | Hr]; [|right; exact Hr].
    left. apply center_of_first_empty_exact.
  - intros node t Ht Hne Hb.
    assert (counts "" false node = true) as Hcounts.
    { unfold counts, node_text, matches. rewrite Ht, Hb.
      change (PyStr.lower "") with "".
      destruct t; [contradiction|]. cbn [PyStr.nonempty].
      rewrite contains_empty. reflexivity. }
    split.
    + rewrite (check_element_counts "" false node t Ht), Hcounts. reflexivity.
    + unfold _find_element_by_text. apply search_at_counting_node. exact Hcounts.
Qed.

Lemma empty_query_witness :
  _find_element_by_text "" true screen_example = Ok None
  /\ _find_element_by_text "" false
       (JDict [("text", JStr "Save"); ("bounds", JList [JInt 1; JInt 2; JInt 5; JInt 8])])
     = Ok (Some (3, 5)).
Proof.
  split.
  - exact (proj1 (empty_query screen_example) eq_refl).
  - exact (proj2 (proj2 (proj2 (empty_query JNull))
                    [("text", JStr "Save"); ("bounds", JList [JInt 1; JInt 2; JInt 5; JInt 8])]
                    "Save" eq_refl ltac:(discriminate) eq_refl)).
Defined.

(** X3. The center lies in the rectangle: between [x] and [x + width] for a
    mapping with a size that is not negative, between [left] and [right]
    for a mapping or a sequence of edges in order; likewise downwards. *)
Theorem center_within_bounds :
  (forall d x y w h cx cy,
      Py.lookup "x" d = Some (JInt x) -> Py.lookup "y" d = Some (JInt y) ->
      Py.lookup "width" d = Some (JInt w) -> Py.lookup "height" d = Some (JInt h) ->
      0 <= w -> 0 <= h ->
      _get_center_coordinates (JDict d) = Ok (cx, cy) ->
      x <= cx <= x + w /\ y <= cy <= y + h)
  /\ (forall d l t r b cx cy,
        Py.has_key "x" d && Py.has_key "y" d
          && Py.has_key "width" d && Py.has_key "height" d = false ->
        Py.lookup "left" d = Some (JInt l) -> Py.lookup "top" d = Some (JInt t) ->
        Py.lookup "right" d = Some (JInt r) -> Py.lookup "bottom" d = Some (JInt b) ->
        l <= r -> t <= b ->
        _get_center_coordinates (JDict d) = Ok (cx, cy) ->
        l <= cx <= r /\ t <= cy <= b)
  /\ (forall l t r b more cx cy,
        l <= r -> t <= b ->
        _get_center_coordinates (JList (JInt l :: JInt t :: JInt r :: JInt b :: more))
        = Ok (cx, cy) ->
        l <= cx <= r /\ t <= cy <= b).
Proof.
  split; [|split].
  - intros d x y w h cx cy Hx Hy Hw Hh Hw0 Hh0.
    rewrite (center_xywh d x y w h Hx Hy Hw Hh). intros [= <- <-].
    pose proof (floor_half w). pose proof (floor_half h). lia.
  - intros d l t r b cx cy Hno Hl Ht Hr Hb Hlr Htb.
    rewrite (center_ltrb d l t r b Hno Hl Ht Hr Hb). intros [= <- <-].
    pose proof (floor_half (l + r)). pose proof (floor_half (t + b)). lia.
  - intros l t r b more cx cy Hlr Htb. rewrite center_sequence. intros [= <- <-].
    pose proof (floor_half (l + r)). pose proof (floor_half (t + b)). lia.
Qed.

Lemma center_within_bounds_witness :
  (10 <= 60 <= 10 + 101 /\ 20 <= 21 <= 20 + 3)
  /\ (0 <= 5 <= 10 /\ -4 <= -2 <= 1).
Proof.
  split.
  - exact (proj1 center_within_bounds
             [("x", JInt 10); ("y", JInt 20); ("width", JInt 101); ("height", JInt 3)]
             10 20 101 3 60 21 eq_refl eq_refl eq_refl eq_refl
             ltac:(lia) ltac:(lia) eq_refl).
  - exact (proj2 (proj2 center_within_bounds) 0 (-4) 10 1 [] 5 (-2)
             ltac:(lia) ltac:(lia) eq_refl).
Defined.

(** ** More on the facade *)

Lemma exec_not_connected (World : Type) (H : Host World) (o : operation)
  (m : Machine World) :
  device_bound o = true ->
  _connected (session m) = false ->
  exec o m = (Raise IOSConnectionError, m).
Proof.
  intros Hd Hc. pose proof (require_connected_not m Hc) as Hr.
  destruct o; try discriminate Hd; unfold exec, fmap_M;
    apply bind_raise; apply bind_raise; exact Hr.
Qed.

(** X4. Every operation that needs a device raises a connection error on a
    session that is not connected, and runs no command and changes
    nothing for it. *)
Theorem not_connected_is_connection_error (World : Type) (H : Host World)
  (o : operation) (m : Machine World) :
  device_bound o = true ->
  _connected (session m) = false ->
  exec o m = (Raise IOSConnectionError, m).
Proof. exact (exec_not_connected World H o m). Qed.

Lemma not_connected_is_connection_error_witness :
  exec (Screenshot "shot.png") (machine (__init__ (Some "A1")) [Exit0 ""])
  = (Raise IOSConnectionError, machine (__init__ (Some "A1")) [Exit0 ""]).
Proof.
  exact (not_connected_is_connection_error Script scripted (Screenshot "shot.png")
           (machine (__init__ (Some "A1")) [Exit0 ""]) eq_refl eq_refl).
Defined.

Section ToolFacts.

Context {World : Type} `{Host World}.

(** The [try] statement of the operations that rely on one tool. *)
Lemma tool_call_result {A : Type} (argv : string -> list string) (f : string -> A)
  (m : Machine World) (u : string) (o : outcome) (w : World) :
  udid (session m) = Some u ->
  host_run (argv u) (world m) = (o, w) ->
  try_except
    (let* u := self_udid in
     let* out := subprocess_run (argv u) in
     ret (f out))
    tool_failure m
  = (match o with
     | Exit0 out => Ok (f out)
     | NonZero => Raise IOSConnectionError
     | Missing => Raise UnsupportedOperationError
     | Fails cls => Raise (OtherException cls)
     end, after_call m (argv u) o w).
Proof.
  intros Hu Hr. unfold try_except.
  rewrite (bind_ok _ _ _ _ _ (self_udid_some m u Hu)).
  pose proof (subprocess_run_outcome m (argv u) o w Hr) as Hrun.
  destruct o.
  - rewrite (bind_ok _ _ _ _ _ Hrun). reflexivity.
  - rewrite (bind_raise _ _ _ _ _ Hrun). reflexivity.
  - rewrite (bind_raise _ _ _ _ _ Hrun). reflexivity.
  - rewrite (bind_raise _ _ _ _ _ Hrun). reflexivity.
Qed.

(** An operation made of the connection test and that statement. *)
Lemma tool_operation_result {A : Type} (argv : string -> list string) (f : string -> A)
  (g : A -> value) (m : Machine World) (u : string) (o : outcome) (w : World) :
  _connected (session m) = true ->
  udid (session m) = Some u ->
  host_run (argv u) (world m) = (o, w) ->
  fmap_M g
    (let* _ := require_connected in
     try_except
       (let* u := self_udid in
        let* out := subprocess_run (argv u) in
        ret (f out))
       tool_failure) m
  = (match o with
     | Exit0 out => Ok (g (f out))
     | NonZero => Raise IOSConnectionError
     | Missing => Raise UnsupportedOperationError
     | Fails cls => Raise (OtherException cls)
     end, after_call m (argv u) o w).
Proof.
  intros Hc Hu Hr. unfold fmap_M. unfold bind at 1.
  rewrite (bind_ok _ _ _ _ _ (require_connected_ok m Hc)).
  rewrite (tool_call_result argv f m u o w Hu Hr). destruct o; reflexivity.
Qed.

End ToolFacts.

(** X5. The operations that rely on one tool, on a connected device: the
    command is run once; a failure of the command is a connection error,
    a missing tool an unsupported-operation error, an exception of another
    class raised by the command is let through, and a success gives the
    value of the operation. *)
Theorem single_tool_operations (World : Type) (H : Host World) (op : operation)
  (m : Machine World) (u : string) (argv : list string) (o : outcome) (w : World) :
  _connected (session m) = true ->
  udid (session m) = Some u ->
  tool_command op u = Some argv ->
  host_run argv (world m) = (o, w) ->
  snd (exec op m) = after_call m argv o w
  /\ fst (exec op m)
     = match o with
       | Exit0 out =>
           Ok (match op with
               | GetDeviceInfo => VInfo (parse_info out)
               | ListApps => VApps (fold_left app_line (PyStr.split_lines out) [])
               | Screenshot output_path => VStr output_path
               | _ => VBool true
               end)
       | NonZero => Raise IOSConnectionError
       | Missing => Raise UnsupportedOperationError
       | Fails cls => Raise (OtherException cls)
       end.
Proof.
  intros Hc Hu Hcmd Hr.
  assert (forall (A : Type) (argv' : string -> list string) (f : string -> A)
                 (g : A -> value) (r : res value),
             argv' u = argv ->
             exec op m
             = fmap_M g
                 (let* _ := require_connected in
                  try_except
                    (let* u := self_udid in
                     let* out := subprocess_run (argv' u) in
                     ret (f out))
                    tool_failure) m ->
             r = match o with
                 | Exit0 out => Ok (g (f out))
                 | NonZero => Raise IOSConnectionError
                 | Missing => Raise UnsupportedOperationError
                 | Fails cls => Raise (OtherException cls)
                 end ->
             snd (exec op m) = after_call m argv o w /\ fst (exec op m) = r) as Hgen.
  { intros A argv' f g r Hargv -> ->. subst argv.
    rewrite (tool_operation_result argv' f g m u o w Hc Hu Hr). split; reflexivity. }
  destruct op; try discriminate Hcmd; injection Hcmd as <-.
  - apply (Hgen _ (fun u => ["ideviceinfo"; "-u"; u]) parse_info VInfo);
      [reflexivity | reflexivity | destruct o; reflexivity].
  - apply (Hgen _ (fun u => ["ideviceinstaller"; "-u"; u; "-i"; ipa_path])
             (fun _ => true) VBool);
      [reflexivity | reflexivity | destruct o; reflexivity].
  - apply (Hgen _ (fun u => ["ideviceinstaller"; "-u"; u; "-U"; bundle])
             (fun _ => true) VBool);
      [reflexivity | reflexivity | destruct o; reflexivity].
  - apply (Hgen _ (fun u => ["ideviceinstaller"; "-u"; u; "-l"])
             (fun out => fold_left app_line (PyStr.split_lines out) []) VApps);
      [reflexivity | reflexivity | destruct o; reflexivity].
  - apply (Hgen _ (fun u => ["idevicediagnostics"; "-u"; u; "restart"])
             (fun _ => true) VBool);
      [reflexivity | reflexivity | destruct o; reflexivity].
  - apply (Hgen _ (fun u => ["idevicescreenshot"; "-u"; u; output_path])
             (fun _ => output_path) VStr);
      [reflexivity | reflexivity | destruct o; reflexivity].
  - apply (Hgen _ (fun u => dvt "longpress" u [str x; str y; "--duration"; duration])
             (fun _ => true) VBool);
      [reflexivity | reflexivity | destruct o; reflexivity].
Qed.

Lemma single_tool_operations_witness :
  fst (exec (LongPress 5 6 "1.0") (machine connected_session [NonZero; Exit0 ""]))
  = Raise IOSConnectionError
  /\ fst (exec (InstallApp "a.ipa") (machine connected_session [Missing]))
     = Raise UnsupportedOperationError.
Proof.
  split.
  - exact (proj2 (single_tool_operations Script scripted (LongPress 5 6 "1.0")
                    (machine connected_session [NonZero; Exit0 ""]) "A1" _ NonZero _
                    eq_refl eq_refl eq_refl eq_refl)).
  - exact (proj2 (single_tool_operations Script scripted (InstallApp "a.ipa")
                    (machine connected_session [Missing]) "A1" _ Missing _
                    eq_refl eq_refl eq_refl eq_refl)).
Defined.

(** X6. The gestures that have a second tool, [tap], [swipe], [input_text]
    and [home_button], on a connected device: the first command, then the
    second one only when the first exits with a failure; [True] when one of
    them succeeds, a connection error when both fail or the second tool is
    missing, an unsupported-operation error when the first tool is
    missing; an exception of another class raised by either command is
    let through, and ends the call at that command. *)
Theorem gesture_fallback_chain (World : Type) (H : Host World) (op : operation)
  (m : Machine World) (u : string) (primary secondary : list string)
  (o1 : outcome) (w1 : World) :
  _connected (session m) = true ->
  udid (session m) = Some u ->
  gesture_commands op u = Some (primary, secondary) ->
  host_run primary (world m) = (o1, w1) ->
  match o1 with
  | Exit0 _ => exec op m = (Ok (VBool true), after_call m primary o1 w1)
  | Missing => exec op m = (Raise UnsupportedOperationError, after_call m primary o1 w1)
  | Fails cls => exec op m = (Raise (OtherException cls), after_call m primary o1 w1)
  | NonZero =>
      forall o2 w2,
        host_run secondary w1 = (o2, w2) ->
        exec op m
        = (match o2 with
           | Exit0 _ => Ok (VBool true)
           | Fails cls => Raise (OtherException cls)
           | _ => Raise IOSConnectionError
           end,
           after_call (after_call m primary NonZero w1) secondary o2 w2)
  end.
Proof.
  intros Hc Hu Hcmd Hr. pose proof (require_connected_ok m Hc) as Hreq.
  assert (forall (p s : string -> list string),
             p u = primary -> s u = secondary ->
             match o1 with
             | Exit0 _ =>
                 fmap_M VBool (let* _ := require_connected in with_fallback p s) m
                 = (Ok (VBool true), after_call m primary o1 w1)
             | Missing =>
                 fmap_M VBool (let* _ := require_connected in with_fallback p s) m
                 = (Raise UnsupportedOperationError, after_call m primary o1 w1)
             | Fails cls =>
                 fmap_M VBool (let* _ := require_connected in with_fallback p s) m
                 = (Raise (OtherException cls), after_call m primary o1 w1)
             | NonZero =>
                 forall o2 w2,
                   host_run secondary w1 = (o2, w2) ->
                   fmap_M VBool (let* _ := require_connected in with_fallback p s) m
                   = (match o2 with
                      | Exit0 _ => Ok (VBool true)
                      | Fails cls => Raise (OtherException cls)
                      | _ => Raise IOSConnectionError
                      end,
                      after_call (after_call m primary NonZero w1) secondary o2 w2)
             end) as Hgen.
  { intros p s Hp Hs. subst primary secondary.
    destruct o1 as [out| | |cls]; [|intros o2 w2 Hr2| |];
      unfold fmap_M; unfold bind at 1; rewrite (bind_ok _ _ _ _ _ Hreq).
    - rewrite (with_fallback_primary_ok p s m u out w1 Hu Hr). reflexivity.
    - rewrite (with_fallback_secondary p s m u w1 w2 o2 Hu Hr Hr2).
      destruct o2; reflexivity.
    - rewrite (with_fallback_primary_missing p s m u w1 Hu Hr). reflexivity.
    - rewrite (with_fallback_primary_fails p s m u cls w1 Hu Hr). reflexivity. }
  destruct op; try discriminate Hcmd; injection Hcmd as Hp Hs.
  - exact (Hgen (tap_primary x y) (tap_secondary x y) Hp Hs).
  - exact (Hgen _ _ Hp Hs).
  - exact (Hgen _ _ Hp Hs).
  - exact (Hgen _ _ Hp Hs).
Qed.

Lemma gesture_fallback_chain_witness :
  exec (Swipe 1 2 3 4 "0.5") (machine connected_session [NonZero; Exit0 ""])
  = (Ok (VBool true),
     after_call
       (after_call (machine connected_session [NonZero; Exit0 ""])
          ["python3"; "-m"; "pymobiledevice3"; "developer"; "dvt"; "swipe";
           "--udid"; "A1"; "1"; "2"; "3"; "4"; "--duration"; "0.5"]
          NonZero {| replies := [Exit0 ""]; clock := 0 |})
       ["tidevice"; "--udid"; "A1"; "swipe"; "1"; "2"; "3"; "4"]
       (Exit0 "") {| replies := []; clock := 0 |}).
Proof.
  exact (gesture_fallback_chain Script scripted (Swipe 1 2 3 4 "0.5")
           (machine connected_session [NonZero; Exit0 ""]) "A1" _ _ NonZero _
           eq_refl eq_refl eq_refl eq_refl (Exit0 "") _ eq_refl).
Defined.

(** ** How the operations end *)

(** The search always ends, with a result or an exception. *)
Lemma center_has_fuel (bounds : json) : _get_center_coordinates bounds <> OutOfFuel.
Proof.
  assert (forall a b, Py.add_half a b <> OutOfFuel) as Ha
    by (intros a b; unfold Py.add_half; destruct (Py.as_int a), (Py.as_int b); discriminate).
  assert (forall a b, Py.half_sum a b <> OutOfFuel) as Hh
    by (intros a b; unfold Py.half_sum; destruct (Py.as_int a), (Py.as_int b); discriminate).
  assert (forall x y, x <> OutOfFuel -> y <> OutOfFuel -> Py.pair x y <> OutOfFuel) as Hp
    by (intros [a|e|] [b|e'|] Hx Hy; simpl; congruence).
  destruct bounds as [| | | | items | d]; try discriminate; simpl.
  - destruct items as [|b0 [|b1 [|b2 [|b3 more]]]]; try discriminate. apply Hp; apply Hh.
  - repeat match goal with |- context [if ?b then _ else _] => destruct b end;
      try discriminate; apply Hp; first [apply Ha | apply Hh].
Qed.

Lemma search_has_fuel (text : string) (exact_match : bool) (h : json) :
  search_recursive text exact_match h <> OutOfFuel
  /\ for_each text exact_match h <> OutOfFuel.
Proof.
  assert (forall kvs, check_element text exact_match kvs <> Some OutOfFuel) as Hcheck.
  { intros kvs. unfold check_element, text_test.
    destruct (Py.truthy (element_text kvs)); [|discriminate].
    destruct exact_match; destruct (element_text kvs); try discriminate;
      match goal with |- context [if ?b then _ else _] => destruct b end;
      try discriminate;
      (destruct (Py.truthy (element_bounds kvs)); [|discriminate]);
      pose proof (center_has_fuel (element_bounds kvs));
      destruct (_get_center_coordinates (element_bounds kvs)); congruence. }
  assert (forall items,
             Forall (fun x => search_recursive text exact_match x <> OutOfFuel) items ->
             first_result (search_recursive text exact_match) items <> OutOfFuel) as Hloop.
  { induction 1 as [|x items Hx _ IH]; simpl; [discriminate|].
    destruct (search_recursive text exact_match x) as [[c|]| |]; congruence. }
  induction h as [| b | n | s | items IH | kvs IH] using json_nested_ind;
    try (split; discriminate).
  - assert (first_result (search_recursive text exact_match) items <> OutOfFuel) as Hr.
    { apply Hloop. eapply Forall_impl; [exact IH | intros x [Hx _]; exact Hx]. }
    split; exact Hr.
  - split; [|discriminate]. rewrite search_recursive_dict.
    specialize (Hcheck kvs).
    destruct (check_element text exact_match kvs) as [r|]; [congruence|].
    rewrite element_children_key.
    destruct (Py.lookup (children_key kvs) kvs) as [v|] eqn:E; [|discriminate].
    simpl.
    exact (proj2 (lookup_Forall
                    (fun j => search_recursive text exact_match j <> OutOfFuel
                              /\ for_each text exact_match j <> OutOfFuel)
                    _ _ _ IH E)).
Qed.

Section EndsFacts.

Context {World : Type} `{Host World}.

Variable S : Session -> Prop.

Lemma ends_ret {A : Type} (Q : A -> Prop) (P : exn -> Prop) (F : Prop) (a : A) :
  Q a -> ends_in (World := World) S Q P F (ret a).
Proof. intros Ha m _. split; [reflexivity | exact Ha]. Qed.

Lemma ends_raise {A : Type} (Q : A -> Prop) (P : exn -> Prop) (F : Prop) (e : exn) :
  P e -> ends_in (World := World) S Q P F (raise e).
Proof. intros He m _. split; [reflexivity | exact He]. Qed.

Lemma ends_weaken {A : Type} (Q Q' : A -> Prop) (P P' : exn -> Prop) (F F' : Prop)
  (c : M World A) :
  ends_in S Q P F c ->
  (forall a, Q a -> Q' a) -> (forall e, P e -> P' e) -> (F -> F') ->
  ends_in S Q' P' F' c.
Proof.
  intros Hc HQ HP HF m Hm. destruct (Hc m Hm) as [Hs Hr]. split; [exact Hs|].
  destruct (fst (c m)); auto.
Qed.

Lemma ends_bind {A B : Type} (Qc : A -> Prop) (Q : B -> Prop) (P : exn -> Prop) (F : Prop)
  (c : M World A) (k : A -> M World B) :
  ends_in S Qc P F c ->
  (forall a, Qc a -> ends_in S Q P F (k a)) ->
  ends_in S Q P F (bind c k).
Proof.
  intros Hc Hk m Hm. unfold bind. destruct (Hc m Hm) as [Hs Hr].
  destruct (c m) as [[a|e|] m']; simpl in Hs, Hr |- *; [|split; assumption ..].
  rewrite <- Hs in Hm. destruct (Hk a Hr m' Hm) as [Hs' Hr'].
  split; [congruence | exact Hr'].
Qed.

Lemma ends_try_except {A : Type} (Q : A -> Prop) (Pb P : exn -> Prop) (F : Prop)
  (body : M World A) (handler : exn -> option (M World A)) :
  ends_in S Q Pb F body ->
  (forall e, Pb e ->
             match handler e with
             | Some h => ends_in S Q P F h
             | None => P e
             end) ->
  ends_in S Q P F (try_except body handler).
Proof.
  intros Hb Hh m Hm. unfold try_except. destruct (Hb m Hm) as [Hs Hr].
  destruct (body m) as [[a|e|] m']; simpl in Hs, Hr |- *;
    [split; assumption| |split; assumption].
  specialize (Hh e Hr). destruct (handler e) as [h|]; [|split; assumption].
  rewrite <- Hs in Hm. destruct (Hh m' Hm) as [Hs' Hr'].
  split; [congruence | exact Hr'].
Qed.

Lemma ends_subprocess_run (argv : list string) :
  ends_in (World := World) S (fun _ => True) (fun e => tool_error e \/ other_error e) False
    (subprocess_run argv).
Proof.
  intros m _. split; [exact (keeps_subprocess_run argv m)|].
  unfold subprocess_run, tool_error, other_error.
  destruct (host_run argv (world m)) as [[out| | |cls] w]; simpl; eauto.
Qed.

Lemma ends_self_udid (P : exn -> Prop) :
  (forall s, S s -> udid s = None -> P TypeError) ->
  ends_in (World := World) S (fun _ => True) P False self_udid.
Proof.
  intros HS m Hm. split; [exact (keeps_self_udid m)|].
  unfold self_udid, get_session, bind, ret, raise.
  destruct (udid (session m)) eqn:E; simpl; [exact I | exact (HS _ Hm E)].
Qed.

Lemma ends_require_connected (P : exn -> Prop) :
  P IOSConnectionError ->
  ends_in (World := World) S (fun _ => True) P False require_connected.
Proof.
  intros HP m _. split; [exact (keeps_require_connected m)|].
  unfold require_connected, is_connected, get_session, bind, ret, raise.
  destruct (_connected (session m)); simpl; [exact I | exact HP].
Qed.

Lemma ends_time_time : ends_in (World := World) S (fun _ => True) (fun _ => False) False time_time.
Proof.
  intros m _. split; [exact (keeps_time_time m)|].
  unfold time_time. destruct (host_time (world m)). exact I.
Qed.

Lemma ends_time_sleep (ms : Z) :
  ends_in (World := World) S (fun _ => True) (fun _ => False) False (time_sleep ms).
Proof. intros m _. split; [reflexivity | exact I]. Qed.

Lemma ends_find_element (t : string) (exact_match : bool) (ui : json) :
  ends_in (World := World) S (fun _ => True) (fun _ => True) False
    (lift (_find_element_by_text t exact_match ui)).
Proof.
  intros m _. split; [reflexivity|]. unfold lift, _find_element_by_text. simpl.
  pose proof (proj1 (search_has_fuel t exact_match ui)).
  destruct (search_recursive t exact_match ui); [exact I | exact I | congruence].
Qed.

(** The body of a [try] statement that runs one command. *)
Lemma ends_command {A : Type} (P : exn -> Prop) (argv : string -> list string)
  (k : string -> M World A) (Q : A -> Prop) :
  (forall s, S s -> udid s = None -> P TypeError) ->
  (forall e, other_error e -> P e) ->
  (forall out, ends_in S Q (fun e => tool_error e \/ P e) False (k out)) ->
  ends_in S Q (fun e => tool_error e \/ P e) False
    (let* u := self_udid in
     let* out := subprocess_run (argv u) in
     k out).
Proof.
  intros HS Ho Hk.
  apply (ends_bind (fun _ => True));
    [apply ends_self_udid; intros s Hs Hn; right; exact (HS s Hs Hn)|].
  intros u _. apply (ends_bind (fun _ => True)).
  - apply (ends_weaken _ _ _ _ _ _ _ (ends_subprocess_run (argv u))); auto.
    intros e [He | He]; [left; exact He | right; exact (Ho e He)].
  - intros out _. apply Hk.
Qed.

(** One tool: the value of [f], a connection error or an
    unsupported-operation error. *)
Lemma ends_tool_call {A : Type} (P : exn -> Prop) (argv : string -> list string)
  (f : string -> A) :
  (forall s, S s -> udid s = None -> P TypeError) ->
  (forall e, other_error e -> P e) ->
  P IOSConnectionError -> P UnsupportedOperationError ->
  ends_in S (fun a => exists out, a = f out) P False
    (try_except
       (let* u := self_udid in
        let* out := subprocess_run (argv u) in
        ret (f out))
       tool_failure).
Proof.
  intros HS Ho Hc Hu.
  apply (ends_try_except _ (fun e => tool_error e \/ P e)).
  - apply ends_command; [exact HS | exact Ho|]. intros out. apply ends_ret. eauto.
  - intros e [[-> | ->] | He]; simpl.
    + apply ends_raise. exact Hc.
    + apply ends_raise. exact Hu.
    + destruct e; try exact He; apply ends_raise; assumption.
Qed.

(** Two tools: [True], a connection error or an unsupported-operation
    error. *)
Lemma ends_with_fallback (P : exn -> Prop) (primary secondary : string -> list string) :
  (forall s, S s -> udid s = None -> P TypeError) ->
  (forall e, other_error e -> P e) ->
  P IOSConnectionError -> P UnsupportedOperationError ->
  ends_in S (fun b => b = true) P False (with_fallback primary secondary).
Proof.
  intros HS Ho Hc Hu. unfold with_fallback.
  assert (forall argv : string -> list string,
             ends_in S (fun b => b = true) (fun e => tool_error e \/ P e) False
               (let* u := self_udid in
                let* _ := subprocess_run (argv u) in
                ret true)) as Hbody.
  { intros argv. apply ends_command; [exact HS | exact Ho|].
    intros out. apply ends_ret. reflexivity. }
  assert (ends_in S (fun b => b = true) P False
            (try_except
               (let* u := self_udid in
                let* _ := subprocess_run (secondary u) in
                ret true)
               (fun e' =>
                  match e' with
                  | CalledProcessError | FileNotFoundError => Some (raise IOSConnectionError)
                  | _ => None
                  end))) as Hsecond.
  { apply (ends_try_except _ (fun e => tool_error e \/ P e)); [apply Hbody|].
    intros e [[-> | ->] | He]; simpl; try (apply ends_raise; exact Hc).
    destruct e; try exact He; apply ends_raise; exact Hc. }
  apply (ends_try_except _ (fun e => tool_error e \/ P e)); [apply Hbody|].
  intros e [[-> | ->] | He]; simpl.
  - exact Hsecond.
  - apply ends_raise. exact Hu.
  - destruct e; try exact He; [exact Hsecond | apply ends_raise; exact Hu].
Qed.

Lemma ends_tap (P : exn -> Prop) (x y : Z) :
  (forall s, S s -> udid s = None -> P TypeError) ->
  (forall e, other_error e -> P e) ->
  P IOSConnectionError -> P UnsupportedOperationError ->
  ends_in (World := World) S (fun b => b = true) P False (tap x y).
Proof.
  intros HS Ho Hc Hu. unfold tap.
  apply (ends_bind (fun _ => True)); [apply ends_require_connected; exact Hc|].
  intros _ _. apply ends_with_fallback; assumption.
Qed.

Lemma ends_swipe (P : exn -> Prop) (a b c d : Z) (t : string) :
  (forall s, S s -> udid s = None -> P TypeError) ->
  (forall e, other_error e -> P e) ->
  P IOSConnectionError -> P UnsupportedOperationError ->
  ends_in (World := World) S (fun b => b = true) P False (swipe a b c d t).
Proof.
  intros HS Ho Hc Hu. unfold swipe.
  apply (ends_bind (fun _ => True)); [apply ends_require_connected; exact Hc|].
  intros _ _. apply ends_with_fallback; assumption.
Qed.

(** [back_button] returns [True] or raises a connection error. *)
Lemma ends_back_button :
  ends_in (World := World) S (fun b => b = true) (fun e => e = IOSConnectionError) False
    back_button.
Proof.
  unfold back_button.
  apply (ends_bind (fun _ => True)); [apply ends_require_connected; reflexivity|].
  intros _ _. apply (ends_try_except _ (fun _ => True)).
  - apply ends_swipe; auto.
  - intros e _. apply ends_raise. reflexivity.
Qed.

(** [_get_ui_hierarchy] ends with a hierarchy or an exception. *)
Lemma ends_get_ui_hierarchy :
  ends_in (World := World) S (fun _ => True) (fun _ => True) False _get_ui_hierarchy.
Proof.
  unfold _get_ui_hierarchy.
  apply (ends_try_except _ (fun e => tool_error e \/ True)).
  - apply ends_command; [auto | auto|]. intros out.
    destruct (json_loads out); [apply ends_ret | apply ends_raise]; auto.
  - intros e _. destruct e; simpl; try exact I; try (apply ends_raise; exact I).
    apply (ends_try_except _ (fun e => tool_error e \/ True)).
    + apply ends_command; [auto | auto|]. intros out. apply ends_ret. exact I.
    + intros e _. destruct e; simpl; try exact I; apply ends_raise; exact I.
Qed.

(** [tap_by_text] returns [True] or raises a connection error. *)
Lemma ends_tap_by_text (t : string) (exact_match : bool) :
  ends_in (World := World) S (fun b => b = true) (fun e => e = IOSConnectionError) False
    (tap_by_text t exact_match).
Proof.
  unfold tap_by_text.
  apply (ends_bind (fun _ => True)); [apply ends_require_connected; reflexivity|].
  intros _ _. apply (ends_try_except _ (fun _ => True)).
  - apply (ends_bind (fun _ => True)); [apply ends_get_ui_hierarchy|].
    intros ui _. apply (ends_bind (fun _ => True)); [apply ends_find_element|].
    intros [[x y]|] _; [apply ends_tap; auto | apply ends_raise; exact I].
  - intros e _. apply ends_raise. reflexivity.
Qed.

(** A turn of the polling loop never raises. *)
Lemma ends_poll (t : string) (exact_match : bool) :
  ends_in (World := World) S (fun _ => True) (fun _ => False) False (poll t exact_match).
Proof.
  unfold poll. apply (ends_try_except _ (fun _ => True)).
  - apply (ends_bind (fun _ => True)); [apply ends_get_ui_hierarchy|].
    intros ui _. apply (ends_bind (fun _ => True)); [apply ends_find_element|].
    intros [c|] _; [apply ends_ret; exact I|].
    apply (ends_bind (fun _ => True)).
    + apply (ends_weaken _ _ _ _ _ _ _ (ends_time_sleep 500)); auto; intros; contradiction.
    + intros _ _. apply ends_ret. exact I.
  - intros e _. apply (ends_bind (fun _ => True)); [apply ends_time_sleep|].
    intros _ _. apply ends_ret. exact I.
Qed.

Lemma ends_wait_loop (fuel : nat) (start_time timeout : Z) (t : string)
  (exact_match : bool) :
  ends_in (World := World) S (fun _ => True) (fun _ => False) True
    (wait_loop fuel start_time timeout t exact_match).
Proof.
  induction fuel as [|fuel IH]; simpl; [intros m _; split; [reflexivity | exact I]|].
  apply (ends_bind (fun _ => True)).
  - apply (ends_weaken _ _ _ _ _ _ _ ends_time_time); auto; intros; contradiction.
  - intros now _. destruct (now - start_time <? timeout * 1000); [|apply ends_ret; exact I].
    apply (ends_bind (fun _ => True)).
    + apply (ends_weaken _ _ _ _ _ _ _ (ends_poll t exact_match)); auto; intros; contradiction.
    + intros [|] _; [apply ends_ret; exact I | exact IH].
Qed.

(** [wait_for_element_by_text] raises nothing but the connection error
    of a session that is not connected. *)
Lemma ends_wait_for_element_by_text (fuel : nat) (t : string) (timeout : Z)
  (exact_match : bool) :
  ends_in (World := World) S (fun _ => True) (fun e => e = IOSConnectionError) True
    (wait_for_element_by_text fuel t timeout exact_match).
Proof.
  unfold wait_for_element_by_text.
  apply (ends_bind (fun _ => True)).
  - apply (ends_weaken _ _ _ _ _ _ _
             (ends_require_connected (fun e => e = IOSConnectionError) eq_refl)); auto;
      intros; contradiction.
  - intros _ _. apply (ends_bind (fun _ => True)).
    + apply (ends_weaken _ _ _ _ _ _ _ ends_time_time); auto; intros; contradiction.
    + intros start _.
      apply (ends_weaken _ _ _ _ _ _ _ (ends_wait_loop fuel start timeout t exact_match));
        auto; intros; contradiction.
Qed.

Lemma ends_get_device_info (P : exn -> Prop) :
  (forall s, S s -> udid s = None -> P TypeError) ->
  (forall e, other_error e -> P e) ->
  P IOSConnectionError -> P UnsupportedOperationError ->
  ends_in (World := World) S (fun _ => True) P False get_device_info.
Proof.
  intros HS Ho Hc Hu. unfold get_device_info.
  apply (ends_bind (fun _ => True)); [apply ends_require_connected; exact Hc|].
  intros _ _.
  apply (ends_weaken _ _ _ _ _ _ _
           (ends_tool_call P (fun u => ["ideviceinfo"; "-u"; u]) parse_info HS Ho Hc Hu));
    auto.
Qed.



End EndsFacts.

Section ExecEnds.

Context {World : Type} `{Host World}.

Variable S : Session -> Prop.


End ExecEnds.

(** ** The command an exception comes from *)

Section TraceFacts.

Context {World : Type} `{Host World}.

Lemma grows_same {A : Type} (c : M World A) :
  (forall m, calls (snd (c m)) = calls m) -> grows c.
Proof. intros Hc m. exists []. rewrite app_nil_r. exact (Hc m). Qed.

Lemma grows_ret {A : Type} (a : A) : grows (ret (World := World) a).
Proof. apply grows_same. reflexivity. Qed.

Lemma grows_raise {A : Type} (e : exn) : grows (raise (World := World) (A := A) e).
Proof. apply grows_same. reflexivity. Qed.

Lemma grows_out_of_fuel {A : Type} : grows (out_of_fuel (World := World) (A := A)).
Proof. apply grows_same. reflexivity. Qed.

Lemma grows_lift {A : Type} (r : res A) : grows (lift (World := World) r).
Proof. apply grows_same. reflexivity. Qed.

Lemma grows_get_session : grows (get_session (World := World)).
Proof. apply grows_same. reflexivity. Qed.

Lemma grows_put_session (s : Session) : grows (put_session (World := World) s).
Proof. apply grows_same. reflexivity. Qed.

Lemma grows_time_time : grows (World := World) time_time.
Proof.
  apply grows_same. intros m. unfold time_time. destruct (host_time (world m)). reflexivity.
Qed.

Lemma grows_time_sleep (ms : Z) : grows (World := World) (time_sleep ms).
Proof. apply grows_same. reflexivity. Qed.

Lemma grows_subprocess_run (argv : list string) : grows (World := World) (subprocess_run argv).
Proof.
  intros m. unfold subprocess_run.
  destruct (host_run argv (world m)) as [[out| | |cls] w]; eexists; reflexivity.
Qed.

Lemma grows_bind {A B : Type} (c : M World A) (k : A -> M World B) :
  grows c -> (forall a, grows (k a)) -> grows (bind c k).
Proof.
  intros Hc Hk m. unfold bind. destruct (Hc m) as [cs Hcs].
  destruct (c m) as [[a|e|] m']; simpl in Hcs |- *; [|exists cs; exact Hcs ..].
  destruct (Hk a m') as [cs' Hcs']. exists (cs ++ cs')%list.
  rewrite Hcs', Hcs, app_assoc. reflexivity.
Qed.

Lemma grows_try_except {A : Type} (body : M World A) (handler : exn -> option (M World A)) :
  grows body ->
  (forall e h, handler e = Some h -> grows h) ->
  grows (try_except body handler).
Proof.
  intros Hb Hh m. unfold try_except. destruct (Hb m) as [cs Hcs].
  destruct (body m) as [[a|e|] m']; simpl in Hcs |- *;
    [exists cs; exact Hcs | | exists cs; exact Hcs].
  destruct (handler e) as [h|] eqn:E; [|exists cs; exact Hcs].
  destruct (Hh e h E m') as [cs' Hcs']. exists (cs ++ cs')%list.
  rewrite Hcs', Hcs, app_assoc. reflexivity.
Qed.

Lemma passes_grows {A : Type} (c : M World A) : passes_on c -> grows c.
Proof. intros [Hg _]. exact Hg. Qed.

(** A computation that raises no exception of another class. *)
Lemma passes_none {A : Type} (c : M World A) :
  grows c -> (forall m cls, fst (c m) <> Raise (OtherException cls)) -> passes_on c.
Proof. intros Hg Hn. split; [exact Hg|]. intros m cls Hr. destruct (Hn m cls Hr). Qed.

Lemma passes_ret {A : Type} (a : A) : passes_on (ret (World := World) a).
Proof. apply passes_none; [apply grows_ret | discriminate]. Qed.

Lemma passes_out_of_fuel {A : Type} : passes_on (out_of_fuel (World := World) (A := A)).
Proof. apply passes_none; [apply grows_out_of_fuel | discriminate]. Qed.

Lemma passes_raise {A : Type} (e : exn) :
  (forall cls, e <> OtherException cls) ->
  passes_on (raise (World := World) (A := A) e).
Proof.
  intros He. apply passes_none; [apply grows_raise|].
  intros m cls [= Hr]. exact (He cls Hr).
Qed.

Lemma passes_get_session : passes_on (get_session (World := World)).
Proof. apply passes_none; [apply grows_get_session | discriminate]. Qed.

Lemma passes_put_session (s : Session) : passes_on (put_session (World := World) s).
Proof. apply passes_none; [apply grows_put_session | discriminate]. Qed.

Lemma passes_time_time : passes_on (World := World) time_time.
Proof.
  apply passes_none; [apply grows_time_time|].
  intros m cls. unfold time_time. destruct (host_time (world m)). discriminate.
Qed.

Lemma passes_time_sleep (ms : Z) : passes_on (World := World) (time_sleep ms).
Proof. apply passes_none; [apply grows_time_sleep | discriminate]. Qed.

Lemma passes_subprocess_run (argv : list string) :
  passes_on (World := World) (subprocess_run argv).
Proof.
  split; [apply grows_subprocess_run|].
  intros m cls. unfold subprocess_run.
  destruct (host_run argv (world m)) as [[out| | |cls'] w]; simpl; try discriminate.
  intros [= ->]. exists [], argv. reflexivity.
Qed.

Lemma passes_bind {A B : Type} (c : M World A) (k : A -> M World B) :
  passes_on c -> (forall a, passes_on (k a)) -> passes_on (bind c k).
Proof.
  intros [Hg Hc] Hk.
  split; [apply grows_bind; [exact Hg | intros a; exact (passes_grows _ (Hk a))]|].
  intros m cls. unfold bind. specialize (Hc m cls). destruct (Hg m) as [cs Hcs].
  destruct (c m) as [[a|e|] m']; simpl in Hc, Hcs |- *;
    [|intros [= ->]; exact (Hc eq_refl)|discriminate].
  intros Hr. destruct (proj2 (Hk a) m' cls Hr) as (cs' & argv & Hcs').
  exists (cs ++ cs')%list, argv. rewrite Hcs', Hcs, !app_assoc. reflexivity.
Qed.

(** A [try] statement whose body passes on what it raises. *)
Lemma passes_try_except {A : Type} (body : M World A)
  (handler : exn -> option (M World A)) :
  passes_on body ->
  (forall e h, handler e = Some h -> passes_on h) ->
  passes_on (try_except body handler).
Proof.
  intros [Hg Hb] Hh.
  split; [apply grows_try_except;
          [exact Hg | intros e h E; exact (passes_grows _ (Hh e h E))]|].
  intros m cls. unfold try_except. specialize (Hb m cls). destruct (Hg m) as [cs Hcs].
  destruct (body m) as [[a|e|] m']; simpl in Hb, Hcs |- *; [discriminate| |discriminate].
  destruct (handler e) as [h|] eqn:E; [|exact Hb].
  intros Hr. destruct (proj2 (Hh e h E) m' cls Hr) as (cs' & argv & Hcs').
  exists (cs ++ cs')%list, argv. rewrite Hcs', Hcs, !app_assoc. reflexivity.
Qed.

(** A [try] statement with an [except Exception] clause. *)
Lemma passes_try_all {A : Type} (body : M World A) (handler : exn -> option (M World A)) :
  grows body ->
  (forall e, exists h, handler e = Some h /\ passes_on h) ->
  passes_on (try_except body handler).
Proof.
  intros Hg Hh.
  split; [apply grows_try_except; [exact Hg|];
          intros e h E; destruct (Hh e) as (h' & E' & Hp);
          rewrite E in E'; injection E' as <-; exact (passes_grows _ Hp)|].
  intros m cls. unfold try_except. destruct (Hg m) as [cs Hcs].
  destruct (body m) as [[a|e|] m']; simpl in Hcs |- *; [discriminate| |discriminate].
  destruct (Hh e) as (h & -> & Hp).
  intros Hr. destruct (proj2 Hp m' cls Hr) as (cs' & argv & Hcs').
  exists (cs ++ cs')%list, argv. rewrite Hcs', Hcs, !app_assoc. reflexivity.
Qed.

End TraceFacts.

(** Goes through a computation made of steps that only add calls. *)
Ltac grows :=
  repeat first
    [ apply grows_ret | apply grows_raise | apply grows_out_of_fuel
    | apply grows_lift | apply grows_get_session | apply grows_put_session
    | apply grows_subprocess_run | apply grows_time_time | apply grows_time_sleep
    | assumption
    | apply grows_bind; [|intros ?]
    | apply grows_try_except;
      [|let e := fresh "e" in let h := fresh "h" in let E := fresh "E" in
        intros e h E; destruct e; try discriminate E; injection E as <-]
    | match goal with
      | |- grows (match ?x with _ => _ end) => destruct x
      end ].

(** Goes through a computation made of steps that pass on what the
    commands raise. *)
Ltac passes :=
  repeat first
    [ apply passes_ret | apply passes_out_of_fuel
    | apply passes_raise; discriminate
    | apply passes_get_session | apply passes_put_session
    | apply passes_subprocess_run | apply passes_time_time | apply passes_time_sleep
    | assumption
    | apply passes_bind; [|intros ?]
    | apply passes_try_except;
      [|let e := fresh "e" in let h := fresh "h" in let E := fresh "E" in
        intros e h E; destruct e; try discriminate E; injection E as <-]
    | match goal with
      | |- passes_on (match ?x with _ => _ end) => destruct x
      end ].

Section TraceOperations.

Context {World : Type} `{Host World}.

Lemma passes_self_udid : passes_on (World := World) self_udid.
Proof. unfold self_udid. passes. Qed.

Lemma passes_require_connected : passes_on (World := World) require_connected.
Proof. unfold require_connected, is_connected. passes. Qed.

Lemma passes_tool_call {A : Type} (argv : string -> list string) (f : string -> A) :
  passes_on (World := World)
    (let* _ := require_connected in
     try_except
       (let* u := self_udid in
        let* out := subprocess_run (argv u) in
        ret (f out))
       tool_failure).
Proof.
  pose proof passes_self_udid. pose proof passes_require_connected.
  unfold tool_failure. passes.
Qed.

Lemma passes_with_fallback (primary secondary : string -> list string) :
  passes_on (World := World) (with_fallback primary secondary).
Proof. pose proof passes_self_udid. unfold with_fallback. passes. Qed.

Lemma passes_gesture (primary secondary : string -> list string) :
  passes_on (World := World)
    (let* _ := require_connected in with_fallback primary secondary).
Proof.
  apply passes_bind; [apply passes_require_connected | intros _; apply passes_with_fallback].
Qed.

Lemma passes_list_devices : passes_on (World := World) list_devices.
Proof.
  assert (forall u, passes_on (World := World) (device_record u)) as Hrec
    by (intros u; unfold device_record; passes).
  assert (forall ids devices, passes_on (World := World) (for_udid ids devices)) as Hfor.
  { induction ids as [|u ids IH]; intros devices; simpl; [apply passes_ret|].
    apply passes_bind; [apply Hrec | intros d; apply IH]. }
  unfold list_devices. passes. apply Hfor.
Qed.

Lemma passes_connect : passes_on (World := World) connect.
Proof.
  pose proof (passes_grows _ passes_list_devices) as Hl.
  unfold connect. apply passes_try_all.
  - unfold set_udid, set_device_info, set_connected. grows.
  - intros e. eexists. split; [reflexivity | passes].
Qed.

Lemma passes_get_ui_hierarchy : passes_on (World := World) _get_ui_hierarchy.
Proof. pose proof passes_self_udid. unfold _get_ui_hierarchy. passes. Qed.

Lemma passes_tap_by_text (t : string) (exact_match : bool) :
  passes_on (World := World) (tap_by_text t exact_match).
Proof.
  pose proof (passes_grows _ passes_get_ui_hierarchy).
  pose proof (fun x y => passes_grows _ (passes_gesture (tap_primary x y) (tap_secondary x y)))
    as Htap.
  unfold tap_by_text.
  apply passes_bind; [apply passes_require_connected | intros _].
  apply passes_try_all.
  - grows.
  - intros e. eexists. split; [reflexivity | passes].
Qed.

Lemma passes_back_button : passes_on (World := World) back_button.
Proof.
  unfold back_button.
  apply passes_bind; [apply passes_require_connected | intros _].
  apply passes_try_all.
  - apply passes_grows. unfold swipe. apply passes_gesture.
  - intros e. eexists. split; [reflexivity | passes].
Qed.






End TraceOperations.






(** ** Gestures by text, polling and screen size *)

Section HierarchyFacts.

Context {World : Type} `{Host World}.

Lemma get_ui_hierarchy_primary (m : Machine World) (u out : string) (w : World) :
  udid (session m) = Some u ->
  host_run (ui_command u) (world m) = (Exit0 out, w) ->
  _get_ui_hierarchy m
  = (match json_loads out with
     | Some ui => Ok ui
     | None => Raise JSONDecodeError
     end, after_call m (ui_command u) (Exit0 out) w).
Proof.
  intros Hu Hr. unfold _get_ui_hierarchy, try_except.
  rewrite (bind_ok _ _ _ _ _ (self_udid_some m u Hu)).
  change (dvt "ui" u ["--format"; "json"]) with (ui_command u).
  rewrite (bind_ok _ _ _ _ _ (subprocess_run_outcome m _ _ _ Hr)).
  destruct (json_loads out); reflexivity.
Qed.

Lemma get_ui_hierarchy_secondary (m : Machine World) (u : string) (w1 w2 : World)
  (o2 : outcome) :
  udid (session m) = Some u ->
  host_run (ui_command u) (world m) = (NonZero, w1) ->
  host_run (dump_command u) w1 = (o2, w2) ->
  _get_ui_hierarchy m
  = (match o2 with
     | Exit0 out => Ok (JDict [("hierarchy", JStr out)])
     | Fails cls => Raise (OtherException cls)
     | _ => Raise UnsupportedOperationError
     end,
     after_call (after_call m (ui_command u) NonZero w1) (dump_command u) o2 w2).
Proof.
  intros Hu Hr1 Hr2. unfold _get_ui_hierarchy, try_except.
  rewrite (bind_ok _ _ _ _ _ (self_udid_some m u Hu)).
  change (dvt "ui" u ["--format"; "json"]) with (ui_command u).
  rewrite (bind_raise _ _ _ _ _ (subprocess_run_outcome m _ _ _ Hr1)).
  rewrite (bind_ok _ _ _ _ _
             (self_udid_some (after_call m (ui_command u) NonZero w1) u Hu)).
  pose proof (subprocess_run_outcome (after_call m (ui_command u) NonZero w1)
                (dump_command u) o2 w2 Hr2) as Hrun.
  fold (dump_command u).
  destruct o2.
  - rewrite (bind_ok _ _ _ _ _ Hrun). reflexivity.
  - rewrite (bind_raise _ _ _ _ _ Hrun). reflexivity.
  - rewrite (bind_raise _ _ _ _ _ Hrun). reflexivity.
  - rewrite (bind_raise _ _ _ _ _ Hrun). reflexivity.
Qed.

End HierarchyFacts.

(** The dump of the second tool, wrapped as [{"hierarchy": text}], has
    no element the search could find. *)
Lemma raw_dump_no_match (t : string) (exact_match : bool) (out : string) :
  _find_element_by_text t exact_match (JDict [("hierarchy", JStr out)]) = Ok None.
Proof. reflexivity. Qed.

(** X8. [tap_by_text] returns [True] or raises a connection error, whatever
    fails underneath, and leaves the session as it is.  When the
    hierarchy comes from the second tool no text is ever found: the call
    raises a connection error after the two dump commands, without a
    tap. *)
Theorem tap_by_text_ends (World : Type) (H : Host World) (m : Machine World)
  (t : string) (exact_match : bool) :
  (fst (tap_by_text t exact_match m) = Ok true
   \/ fst (tap_by_text t exact_match m) = Raise IOSConnectionError)
  /\ session (snd (tap_by_text t exact_match m)) = session m
  /\ (forall u w1 out w2,
        _connected (session m) = true ->
        udid (session m) = Some u ->
        host_run (ui_command u) (world m) = (NonZero, w1) ->
        host_run (dump_command u) w1 = (Exit0 out, w2) ->
        tap_by_text t exact_match m
        = (Raise IOSConnectionError,
           after_call (after_call m (ui_command u) NonZero w1)
             (dump_command u) (Exit0 out) w2)).
Proof.
  destruct (ends_tap_by_text (fun _ => True) t exact_match m I) as [Hs Hr].
  split; [|split; [exact Hs|]].
  - destruct (fst (tap_by_text t exact_match m)) as [b|e|];
      [left; congruence | right; congruence | contradiction].
  - intros u w1 out w2 Hc Hu Hr1 Hr2. unfold tap_by_text.
    rewrite (bind_ok _ _ _ _ _ (require_connected_ok m Hc)). unfold try_except.
    rewrite (bind_ok _ _ _ _ _
               (get_ui_hierarchy_secondary m u w1 w2 (Exit0 out) Hu Hr1 Hr2)).
    unfold bind, lift. rewrite raw_dump_no_match. reflexivity.
Qed.

Lemma tap_by_text_ends_witness :
  tap_by_text "OK" false (machine connected_session [NonZero; Exit0 "<dump>"; Exit0 ""])
  = (Raise IOSConnectionError,
     after_call
       (after_call (machine connected_session [NonZero; Exit0 "<dump>"; Exit0 ""])
          (ui_command "A1") NonZero {| replies := [Exit0 "<dump>"; Exit0 ""]; clock := 0 |})
       (dump_command "A1") (Exit0 "<dump>") {| replies := [Exit0 ""]; clock := 0 |}).
Proof.
  exact (proj2 (proj2 (tap_by_text_ends Script scripted
                         (machine connected_session [NonZero; Exit0 "<dump>"; Exit0 ""])
                         "OK" false))
           "A1" _ "<dump>" _ eq_refl eq_refl eq_refl eq_refl).
Defined.

(** X9. [tap_by_text] with the hierarchy of the first tool: when the search
    finds a point the call is the tap at that point, with every failure of
    the tap turned into a connection error; when it finds none, or
    raises, the call raises a connection error and no tap is run. *)
Theorem tap_by_text_taps_found_point (World : Type) (H : Host World)
  (m : Machine World) (t : string) (exact_match : bool) (u out : string) (w : World)
  (ui : json) :
  _connected (session m) = true ->
  udid (session m) = Some u ->
  host_run (ui_command u) (world m) = (Exit0 out, w) ->
  json_loads out = Some ui ->
  let m1 := after_call m (ui_command u) (Exit0 out) w in
  tap_by_text t exact_match m
  = match _find_element_by_text t exact_match ui with
    | Ok (Some (x, y)) =>
        (match fst (tap x y m1) with
         | Raise _ => Raise IOSConnectionError
         | r => r
         end, snd (tap x y m1))
    | _ => (Raise IOSConnectionError, m1)
    end.
Proof.
  intros Hc Hu Hr Hj m1. unfold tap_by_text.
  rewrite (bind_ok _ _ _ _ _ (require_connected_ok m Hc)). unfold try_except.
  pose proof (get_ui_hierarchy_primary m u out w Hu Hr) as Hui. rewrite Hj in Hui.
  rewrite (bind_ok _ _ _ _ _ Hui). fold m1. unfold bind at 1, lift.
  pose proof (proj1 (search_has_fuel t exact_match ui)) as Hfuel.
  unfold _find_element_by_text.
  destruct (search_recursive t exact_match ui) as [[[x y]|]|e|];
    [|reflexivity|reflexivity|congruence].
  destruct (tap x y m1) as [[b|e|] m2]; reflexivity.
Qed.

Lemma tap_by_text_taps_found_point_witness :
  @tap_by_text Script canned "save" false
    (machine connected_session [Exit0 "screen"; NonZero; Exit0 ""])
  = (Ok true,
     {| session := connected_session;
        world := {| replies := []; clock := 0 |};
        calls := [ (ui_command "A1", Exit0 "screen");
                   (tap_primary 60 40 "A1", NonZero);
                   (tap_secondary 60 40 "A1", Exit0 "") ] |}).
Proof.
  exact (tap_by_text_taps_found_point Script canned
           (machine connected_session [Exit0 "screen"; NonZero; Exit0 ""])
           "save" false "A1" "screen" _ screen_example
           eq_refl eq_refl eq_refl eq_refl).
Defined.

(** X10. [back_button] returns [True] or raises a connection error, and
    leaves the session as it is; the unsupported-operation error of the
    swipe that carries it out, raised when the first tool is missing,
    becomes a connection error too. *)
Theorem back_button_ends (World : Type) (H : Host World) (m : Machine World) :
  (fst (back_button m) = Ok true \/ fst (back_button m) = Raise IOSConnectionError)
  /\ session (snd (back_button m)) = session m
  /\ (forall u w,
        _connected (session m) = true ->
        udid (session m) = Some u ->
        host_run (back_command u) (world m) = (Missing, w) ->
        fst (swipe 10 300 200 300 "0.3" m) = Raise UnsupportedOperationError
        /\ back_button m
           = (Raise IOSConnectionError, after_call m (back_command u) Missing w)).
Proof.
  destruct (ends_back_button (fun _ => True) m I) as [Hs Hr].
  split; [|split; [exact Hs|]].
  - destruct (fst (back_button m)) as [b|e|];
      [left; congruence | right; congruence | contradiction].
  - intros u w Hc Hu Hrun.
    assert (swipe 10 300 200 300 "0.3" m
            = (Raise UnsupportedOperationError, after_call m (back_command u) Missing w))
      as Hswipe.
    { unfold swipe. rewrite (bind_ok _ _ _ _ _ (require_connected_ok m Hc)).
      exact (with_fallback_primary_missing _ _ m u w Hu Hrun). }
    split; [rewrite Hswipe; reflexivity|].
    unfold back_button. rewrite (bind_ok _ _ _ _ _ (require_connected_ok m Hc)).
    unfold try_except. rewrite Hswipe. reflexivity.
Qed.

Lemma back_button_ends_witness :
  fst (swipe 10 300 200 300 "0.3" (machine connected_session [Missing]))
  = Raise UnsupportedOperationError
  /\ back_button (machine connected_session [Missing])
     = (Raise IOSConnectionError,
        after_call (machine connected_session [Missing]) (back_command "A1") Missing
          {| replies := []; clock := 0 |}).
Proof.
  exact (proj2 (proj2 (back_button_ends Script scripted (machine connected_session [Missing])))
           "A1" _ eq_refl eq_refl eq_refl).
Defined.

Section ConnectedEnds.

Context {World : Type} `{Host World}.

Variable S : Session -> Prop.
Hypothesis S_connected : forall s, S s -> _connected s = true.

Lemma ends_require_connected_ok :
  ends_in (World := World) S (fun _ => True) (fun _ => False) False require_connected.
Proof.
  intros m Hm. split; [exact (keeps_require_connected m)|].
  rewrite (require_connected_ok m (S_connected _ Hm)). exact I.
Qed.

Lemma ends_wait_connected (fuel : nat) (t : string) (timeout : Z) (exact_match : bool) :
  ends_in (World := World) S (fun _ => True) (fun _ => False) True
    (wait_for_element_by_text fuel t timeout exact_match).
Proof.
  unfold wait_for_element_by_text.
  apply (ends_bind S (fun _ => True)).
  - apply (ends_weaken S _ _ _ _ _ _ _ ends_require_connected_ok); auto.
  - intros _ _. apply (ends_bind S (fun _ => True)).
    + apply (ends_weaken S _ _ _ _ _ _ _ (ends_time_time S)); auto.
    + intros start _. apply ends_wait_loop.
Qed.

Lemma ends_get_screen_size_connected :
  ends_in (World := World) S known_size (fun _ => False) False get_screen_size.
Proof.
  unfold get_screen_size.
  apply (ends_bind S (fun _ => True)); [apply ends_require_connected_ok|].
  intros _ _. apply (ends_try_except S _ (fun _ => True)).
  - apply (ends_bind S (fun _ => True)); [apply ends_get_device_info; auto|].
    intros info _. apply ends_ret. unfold known_size.
    destruct (Py.lookup (default "" (info !! "ProductType")) screen_sizes) as [p|] eqn:E.
    + right. exists (default "" (info !! "ProductType")). exact E.
    + left. reflexivity.
  - intros e _. apply ends_ret. left. reflexivity.
Qed.

End ConnectedEnds.

(** X11. [wait_for_element_by_text] on a connected session raises nothing:
    what goes wrong while it polls counts as not found yet.  With a
    timeout that is not positive, and a clock that does not go back, it
    returns [False] at once and runs no command. *)
Theorem wait_for_element_swallows_errors (World : Type) (H : Host World)
  (m : Machine World) (fuel : nat) (t : string) (timeout : Z) (exact_match : bool) :
  _connected (session m) = true ->
  ((exists b, fst (wait_for_element_by_text fuel t timeout exact_match m) = Ok b)
   \/ fst (wait_for_element_by_text fuel t timeout exact_match m) = OutOfFuel)
  /\ session (snd (wait_for_element_by_text fuel t timeout exact_match m)) = session m
  /\ (forall t0 w0 t1 w1,
        host_time (world m) = (t0, w0) ->
        host_time w0 = (t1, w1) ->
        t0 <= t1 -> timeout <= 0 ->
        wait_for_element_by_text (Datatypes.S fuel) t timeout exact_match m
        = (Ok false, {| session := session m; world := w1; calls := calls m |})).
Proof.
  intros Hc. split; [|split].
  - destruct (ends_wait_connected (fun s => s = session m) ltac:(intros s ->; exact Hc)
                fuel t timeout exact_match m eq_refl) as [_ Hr].
    destruct (fst (wait_for_element_by_text fuel t timeout exact_match m)) as [b|e|];
      [left; eauto | contradiction | right; reflexivity].
  - exact (proj1 (ends_wait_for_element_by_text (fun _ => True) fuel t timeout
                    exact_match m I)).
  - intros t0 w0 t1 w1 H0 H1 Hle Hto. unfold wait_for_element_by_text.
    rewrite (bind_ok _ _ _ _ _ (require_connected_ok m Hc)).
    assert (time_time m
            = (Ok t0, {| session := session m; world := w0; calls := calls m |})) as Ht0
      by (unfold time_time; rewrite H0; reflexivity).
    rewrite (bind_ok _ _ _ _ _ Ht0). cbn [wait_loop].
    assert (time_time {| session := session m; world := w0; calls := calls m |}
            = (Ok t1, {| session := session m; world := w1; calls := calls m |})) as Ht1
      by (unfold time_time; simpl; rewrite H1; reflexivity).
    rewrite (bind_ok _ _ _ _ _ Ht1).
    assert ((t1 - t0 <? timeout * 1000) = false) as -> by (apply Z.ltb_ge; lia).
    reflexivity.
Qed.

Lemma wait_for_element_swallows_errors_witness :
  wait_for_element_by_text 1 "OK" 0 false (machine connected_session [Exit0 ""])
  = (Ok false, machine connected_session [Exit0 ""])
  /\ fst (wait_for_element_by_text 5 "OK" 1 false (machine connected_session [Missing]))
     = Ok false.
Proof.
  split.
  - exact (proj2 (proj2 (wait_for_element_swallows_errors Script scripted
                           (machine connected_session [Exit0 ""]) 0 "OK" 0 false eq_refl))
             0 _ 0 _ eq_refl eq_refl ltac:(lia) ltac:(lia)).
  - reflexivity.
Defined.

Section InfoFacts.

Context {World : Type} `{Host World}.

Lemma get_device_info_result (m : Machine World) (u : string) (o : outcome) (w : World) :
  _connected (session m) = true ->
  udid (session m) = Some u ->
  host_run (info_command u) (world m) = (o, w) ->
  get_device_info m
  = (match o with
     | Exit0 out => Ok (parse_info out)
     | NonZero => Raise IOSConnectionError
     | Missing => Raise UnsupportedOperationError
     | Fails cls => Raise (OtherException cls)
     end, after_call m (info_command u) o w).
Proof.
  intros Hc Hu Hr. unfold get_device_info.
  rewrite (bind_ok _ _ _ _ _ (require_connected_ok m Hc)).
  exact (tool_call_result (fun u => ["ideviceinfo"; "-u"; u]) parse_info m u o w Hu Hr).
Qed.

End InfoFacts.

(** X12. [get_screen_size] on a connected session always returns a size, one
    of its table or the default one: the size of the model named by the
    [ProductType] line of the information dump when the table has it, the
    default [(375, 667)] when the model is not in the table, the line is
    missing or the dump cannot be had. *)
Theorem get_screen_size_total (World : Type) (H : Host World) (m : Machine World) :
  _connected (session m) = true ->
  (exists p, fst (get_screen_size m) = Ok p /\ known_size p)
  /\ session (snd (get_screen_size m)) = session m
  /\ (forall u o w,
        udid (session m) = Some u ->
        host_run (info_command u) (world m) = (o, w) ->
        get_screen_size m
        = (Ok (match o with
               | Exit0 out =>
                   match parse_info out !! "ProductType" with
                   | Some model => default (375, 667) (Py.lookup model screen_sizes)
                   | None => (375, 667)
                   end
               | _ => (375, 667)
               end), after_call m (info_command u) o w)).
Proof.
  intros Hc.
  destruct (ends_get_screen_size_connected (fun s => s = session m)
              ltac:(intros s ->; exact Hc) m eq_refl) as [Hs Hr].
  split; [|split; [exact Hs|]].
  - destruct (fst (get_screen_size m)) as [p|e|]; [eauto | contradiction | contradiction].
  - intros u o w Hu Hrun. unfold get_screen_size.
    rewrite (bind_ok _ _ _ _ _ (require_connected_ok m Hc)). unfold try_except.
    destruct o as [out| | |cls].
    + rewrite (bind_ok _ _ _ _ _ (get_device_info_result m u _ w Hc Hu Hrun)).
      unfold ret. destruct (parse_info out !! "ProductType"); reflexivity.
    + rewrite (bind_raise _ _ _ _ _ (get_device_info_result m u _ w Hc Hu Hrun)).
      reflexivity.
    + rewrite (bind_raise _ _ _ _ _ (get_device_info_result m u _ w Hc Hu Hrun)).
      reflexivity.
    + rewrite (bind_raise _ _ _ _ _ (get_device_info_result m u _ w Hc Hu Hrun)).
      reflexivity.
Qed.

Lemma get_screen_size_total_witness :
  get_screen_size iphone14_host
  = (Ok (390, 844),
     after_call iphone14_host (info_command "A1")
       (Exit0 (line "DeviceName: Test iPhone" +:+ line "ProductType: iPhone15,4"))
       {| replies := []; clock := 0 |})
  /\ fst (get_screen_size (machine connected_session [NonZero])) = Ok (375, 667).
Proof.
  split.
  - exact (proj2 (proj2 (get_screen_size_total Script scripted iphone14_host eq_refl))
             "A1" _ _ eq_refl eq_refl).
  - exact (f_equal fst
             (proj2 (proj2 (get_screen_size_total Script scripted
                              (machine connected_session [NonZero]) eq_refl))
                "A1" NonZero _ eq_refl eq_refl)).
Defined.

(** ** Discovery, connection and listings *)

(** X13. When discovery fails, the discovery tool is missing or no identifier
    is listed, [list_devices] returns the empty list after that one
    command, and [connect] raises a connection error.  When the discovery
    command raises an exception of another class, [list_devices] lets it
    through and [connect] raises a connection error all the same. *)
Theorem no_device_no_connection (World : Type) (H : Host World) (m : Machine World)
  (o : outcome) (w : World) :
  host_run discovery_command (world m) = (o, w) ->
  match o with
  | Exit0 out => device_ids out = []
  | _ => True
  end ->
  list_devices m
  = (match o with
     | Fails cls => Raise (OtherException cls)
     | _ => Ok []
     end, after_call m discovery_command o w)
  /\ connect m = (Raise IOSConnectionError, after_call m discovery_command o w).
Proof.
  intros Hr Hids.
  assert (list_devices m
          = (match o with
             | Fails cls => Raise (OtherException cls)
             | _ => Ok []
             end, after_call m discovery_command o w)) as Hl.
  { unfold list_devices, try_except. fold discovery_command.
    pose proof (subprocess_run_outcome m discovery_command o w Hr) as Hrun.
    destruct o as [out| | |cls].
    - rewrite (bind_ok _ _ _ _ _ Hrun), Hids. reflexivity.
    - rewrite (bind_raise _ _ _ _ _ Hrun). reflexivity.
    - rewrite (bind_raise _ _ _ _ _ Hrun). reflexivity.
    - rewrite (bind_raise _ _ _ _ _ Hrun). reflexivity. }
  split; [exact Hl|].
  unfold connect, try_except.
  destruct o as [out| | |cls];
    [rewrite (bind_ok _ _ _ _ _ Hl); reflexivity ..
    | rewrite (bind_raise _ _ _ _ _ Hl); reflexivity].
Qed.

Lemma no_device_no_connection_witness :
  list_devices (machine (__init__ None) [Exit0 (line "" +:+ line "  ")])
  = (Ok [], after_call (machine (__init__ None) [Exit0 (line "" +:+ line "  ")])
              discovery_command (Exit0 (line "" +:+ line "  "))
              {| replies := []; clock := 0 |})
  /\ fst (connect (machine (__init__ None) [Missing])) = Raise IOSConnectionError.
Proof.
  split.
  - exact (proj1 (no_device_no_connection Script scripted
                    (machine (__init__ None) [Exit0 (line "" +:+ line "  ")])
                    (Exit0 (line "" +:+ line "  ")) _ eq_refl eq_refl)).
  - exact (f_equal fst
             (proj2 (no_device_no_connection Script scripted
                       (machine (__init__ None) [Missing]) Missing _ eq_refl I))).
Defined.

(** X14. Which device [connect] selects, given the list of discovery.  With
    no udid asked for, or the empty one, it is the first device of the
    list, and its udid becomes the udid of the session; with a udid asked
    for it is the first device of the list with that udid, and a
    connection error when there is none. *)
Theorem connect_selection (World : Type) (H : Host World) (m m1 : Machine World)
  (devices : list Device) :
  list_devices m = (Ok devices, m1) ->
  (devices = [] -> connect m = (Raise IOSConnectionError, m1))
  /\ (forall first rest,
        devices = first :: rest ->
        udid_given (udid (session m)) = false ->
        connect m
        = (Ok true,
           with_session m1 {| udid := Some (d_udid first); _device_info := Some first;
                              _connected := true |}))
  /\ (forall u,
        udid (session m) = Some u -> u <> "" -> devices <> [] ->
        connect m
        = match find (fun d => String.eqb (d_udid d) u) devices with
          | Some d =>
              (Ok true,
               with_session m1 {| udid := Some u; _device_info := Some d;
                                  _connected := true |})
          | None => (Raise IOSConnectionError, m1)
          end).
Proof.
  intros Hl. pose proof (keeps_list_devices m) as Hs. rewrite Hl in Hs. simpl in Hs.
  split; [|split].
  - intros ->. unfold connect, try_except. rewrite (bind_ok _ _ _ _ _ Hl). reflexivity.
  - intros first rest -> Hg. unfold connect, try_except.
    rewrite (bind_ok _ _ _ _ _ Hl). unfold bind, get_session. simpl.
    rewrite Hs, Hg. reflexivity.
  - intros u Hu Hne Hd. destruct devices as [|first rest]; [contradiction|].
    unfold connect, try_except. rewrite (bind_ok _ _ _ _ _ Hl).
    unfold bind, get_session. simpl fst. simpl snd. cbv beta iota.
    rewrite Hs, Hu.
    assert (udid_given (Some u) = true) as -> by (destruct u; [contradiction | reflexivity]).
    change (has_udid (Some u)) with (fun d => String.eqb (d_udid d) u).
    destruct (find (fun d => String.eqb (d_udid d) u) (first :: rest)) as [d|];
      [|reflexivity].
    unfold with_session. simpl. rewrite Hs, Hu. reflexivity.
Qed.

Lemma connect_selection_witness :
  session (snd (connect (two_named_devices_host (Some ""))))
  = {| udid := Some "A1";
       _device_info := Some {| d_udid := "A1"; d_name := "iPhone"; d_ios_version := "17.0" |};
       _connected := true |}
  /\ session (snd (connect (two_named_devices_host (Some "B2"))))
     = {| udid := Some "B2";
          _device_info := Some {| d_udid := "B2"; d_name := "iPad"; d_ios_version := "16.5" |};
          _connected := true |}.
Proof.
  split.
  - exact (f_equal (fun r => session (snd r))
             (proj1 (proj2 (connect_selection Script scripted
                              (two_named_devices_host (Some "")) _ _ eq_refl))
                _ _ eq_refl eq_refl)).
  - exact (f_equal (fun r => session (snd r))
             (proj2 (proj2 (connect_selection Script scripted
                              (two_named_devices_host (Some "B2")) _ _ eq_refl))
                "B2" eq_refl ltac:(discriminate) ltac:(discriminate))).
Defined.

Lemma contains_char_cons (c a : ascii) (s : string) :
  PyStr.contains (String c "") (String a s)
  = if Ascii.eqb c a then true else PyStr.contains (String c "") s.
Proof.
  cbn [PyStr.contains PyStr.startswith]. destruct (Ascii.eqb c a); [|reflexivity].
  destruct s; reflexivity.
Qed.

(** No line of [split("\n")] holds a newline. *)
Lemma split_lines_no_newline (s : string) :
  Forall (fun ln => ~ occurs_in newline ln) (PyStr.split_lines s).
Proof.
  assert (Forall (fun ln => PyStr.contains newline ln = false) (PyStr.split_lines s)) as Hc.
  { induction s as [|c r IH]; [repeat constructor|].
    simpl. destruct (Ascii.eqb c "010") eqn:E.
    - constructor; [reflexivity | exact IH].
    - destruct (PyStr.split_lines r) as [|h t]; [repeat constructor|].
      + unfold newline. rewrite contains_char_cons, Ascii.eqb_sym, E. reflexivity.
      + inversion IH as [|? ? Hh Ht]. subst. constructor; [|exact Ht].
        unfold newline. rewrite contains_char_cons, Ascii.eqb_sym, E. exact Hh. }
  eapply Forall_impl; [exact Hc|]. intros ln Hln Ho.
  apply contains_spec in Ho. congruence.
Qed.

Lemma device_ids_clean (stdout : string) :
  Forall (fun u => u <> "" /\ ~ occurs_in newline u) (device_ids stdout).
Proof.
  unfold device_ids. apply List.Forall_forall. intros u Hin.
  apply List.filter_In in Hin as [Hin Hn]. split.
  - destruct u; discriminate.
  - pose proof (split_lines_no_newline (PyStr.strip stdout)) as Hall.
    rewrite List.Forall_forall in Hall. exact (Hall u Hin).
Qed.

Lemma looked_up_clean (ids : list string) (cs : list call) (ds : list Device) :
  looked_up ids cs ds ->
  Forall (fun d => no_outer_space (d_name d) /\ no_outer_space (d_ios_version d)) ds.
Proof.
  induction 1 as [|u ids cs1 cs d ds Hr _ IH]; constructor; [|exact IH].
  destruct Hr; simpl; split;
    first [ exact (proj1 (proj2 (strip_spec _)))
          | exact (proj1 (proj2 (strip_spec "Unknown Device")))
          | exact (proj1 (proj2 (strip_spec "Unknown"))) ].
Qed.

(** X15. The records of [list_devices]: the udid is not empty and holds no
    newline, the name and the version neither start nor end with white
    space. *)
Theorem list_devices_records_clean (World : Type) (H : Host World) (m : Machine World)
  (devices : list Device) :
  fst (list_devices m) = Ok devices ->
  Forall (fun d => d_udid d <> "" /\ ~ occurs_in newline (d_udid d)
                   /\ no_outer_space (d_name d) /\ no_outer_space (d_ios_version d))
    devices.
Proof.
  destruct (list_devices_result m)
    as (_ & o & cs & _ & [(ds & Hok & Hcase) | (cls & Hr & _)]);
    [|rewrite Hr; discriminate].
  rewrite Hok. intros [= <-].
  assert (forall out, looked_up (device_ids out) cs ds ->
                      Forall (fun d => d_udid d <> "" /\ ~ occurs_in newline (d_udid d)
                                       /\ no_outer_space (d_name d)
                                       /\ no_outer_space (d_ios_version d)) ds) as Hgen.
  { intros out Hl. pose proof (looked_up_clean _ _ _ Hl) as Hclean.
    apply looked_up_facts in Hl as (_ & Hmap & _).
    pose proof (device_ids_clean out) as Hids. rewrite <- Hmap in Hids.
    pose proof (proj1 (List.Forall_map d_udid
                         (fun u => u <> "" /\ ~ occurs_in newline u) ds) Hids) as Hu.
    rewrite List.Forall_forall in Hu, Hclean. apply List.Forall_forall.
    intros d Hin. destruct (Hu d Hin) as [H1 H2], (Hclean d Hin) as [H3 H4].
    exact (conj H1 (conj H2 (conj H3 H4))). }
  destruct o as [out| | |cls]; [| destruct Hcase as [-> _]; constructor ..
                               | contradiction].
  destruct Hcase as [Hl | [-> _]]; [exact (Hgen out Hl) | constructor].
Qed.

Lemma list_devices_records_clean_witness :
  Forall (fun d => d_udid d <> "" /\ ~ occurs_in newline (d_udid d)
                   /\ no_outer_space (d_name d) /\ no_outer_space (d_ios_version d))
    [ {| d_udid := "A1"; d_name := "iPhone"; d_ios_version := "17.0" |};
      {| d_udid := "B2"; d_name := "iPad"; d_ios_version := "16.5" |} ].
Proof.
  exact (list_devices_records_clean Script scripted (two_named_devices_host None) _ eq_refl).
Defined.

Lemma occurs_in_refl (s : string) : occurs_in s s.
Proof. exists "", "". rewrite append_empty_r. reflexivity. Qed.

(** X16. The mapping of [get_device_info]: a key holds no colon, and keys and
    values neither start nor end with white space nor hold a newline. *)
Theorem parse_info_entries_clean (out key value : string) :
  parse_info out !! key = Some value ->
  ~ occurs_in ":" key
  /\ no_outer_space key /\ no_outer_space value
  /\ ~ occurs_in newline key /\ ~ occurs_in newline value.
Proof.
  unfold parse_info. rewrite fold_info_lookup, lookup_empty.
  destruct (last_entry key (PyStr.split_lines out)) as [v|] eqn:E; [|discriminate].
  intros [= ->]. apply last_entry_spec in E
    as (before & ln & after & Hlines & (a & b & Hln & Hcolon & -> & ->) & _).
  assert (~ occurs_in newline ln) as Hnl.
  { pose proof (split_lines_no_newline out) as Hall. rewrite Hlines in Hall.
    apply Forall_app in Hall as [_ Hall]. inversion Hall. assumption. }
  assert (occurs_in a ln) as Ha by (exists "", (":" +:+ b); exact Hln).
  assert (occurs_in b ln) as Hb.
  { exists (a +:+ ":"), "". rewrite append_empty_r, append_assoc. exact Hln. }
  pose proof (strip_spec a) as (Hsa & Hoa & _).
  pose proof (strip_spec b) as (Hsb & Hob & _).
  repeat split; try apply Hoa; try apply Hob.
  - intros Ho. apply Hcolon. exact (occurs_in_trans _ _ _ Ho Hsa).
  - intros Ho. apply Hnl.
    exact (occurs_in_trans _ _ _ Ho (occurs_in_trans _ _ _ Hsa Ha)).
  - intros Ho. apply Hnl.
    exact (occurs_in_trans _ _ _ Ho (occurs_in_trans _ _ _ Hsb Hb)).
Qed.

Lemma parse_info_entries_clean_witness :
  ~ occurs_in ":" "TimeZone" /\ no_outer_space "TimeZone"
  /\ no_outer_space "Europe/Paris:1"
  /\ ~ occurs_in newline "TimeZone" /\ ~ occurs_in newline "Europe/Paris:1".
Proof.
  exact (parse_info_entries_clean
           (line "DeviceName: Test iPhone" +:+ line "  TimeZone :  Europe/Paris:1 ")
           "TimeZone" "Europe/Paris:1" eq_refl).
Defined.

Lemma append_same_length (a a' x x' : string) :
  a +:+ x = a' +:+ x' -> String.length a = String.length a' -> a = a' /\ x = x'.
Proof.
  revert a'. induction a as [|c a IH]; intros [|c' a'] Heq Hlen; try discriminate.
  - split; [reflexivity | exact Heq].
  - rewrite !append_cons in Heq. injection Heq as -> Heq. injection Hlen as Hlen.
    destruct (IH a' Heq Hlen) as [-> ->]. split; reflexivity.
Qed.

Lemma app_line_entry (apps : list App) (ln : string) :
  app_line apps ln
  = match app_of_line ln with
    | Some app => apps ++ [app]
    | None => apps
    end.
Proof.
  unfold app_line, app_of_line. destruct (PyStr.contains " - " ln) eqn:E.
  - destruct (PyStr.split_once " - " ln) as [[a b]|]; reflexivity.
  - destruct (PyStr.split_once " - " ln) as [[a b]|] eqn:Hs; [|reflexivity].
    assert (PyStr.contains " - " ln = true) by (apply contains_split_once; eauto).
    congruence.
Qed.

Lemma fold_app_line (lines : list string) (apps : list App) :
  fold_left app_line lines apps = apps ++ omap app_of_line lines.
Proof.
  revert apps. induction lines as [|ln lines IH]; intros apps.
  - simpl. rewrite app_nil_r. reflexivity.
  - simpl. rewrite IH, app_line_entry.
    destruct (app_of_line ln) as [app|]; [rewrite <- app_assoc|]; reflexivity.
Qed.

(** X17. The list of [list_apps] on a connected device: one entry for each
    line of the listing that holds [" - "], in the order of the lines; the
    entry has the text before the first [" - "] of the line as its bundle
    identifier and the text after it as its name, both stripped; the other
    lines give nothing. *)
Theorem list_apps_entries (World : Type) (H : Host World) (m : Machine World)
  (u out : string) (w : World) :
  _connected (session m) = true ->
  udid (session m) = Some u ->
  host_run ["ideviceinstaller"; "-u"; u; "-l"] (world m) = (Exit0 out, w) ->
  fst (list_apps m) = Ok (omap app_of_line (PyStr.split_lines out))
  /\ (forall ln app,
        app_of_line ln = Some app
        <-> exists a b,
            ln = a +:+ " - " +:+ b
            /\ (forall a' b', ln = a' +:+ " - " +:+ b' ->
                              (String.length a <= String.length a')%nat)
            /\ app = {| bundle_id := PyStr.strip a; app_name := PyStr.strip b |})
  /\ (forall ln, app_of_line ln = None <-> ~ occurs_in " - " ln).
Proof.
  intros Hc Hu Hr. split; [|split].
  - unfold list_apps. rewrite (bind_ok _ _ _ _ _ (require_connected_ok m Hc)).
    rewrite (tool_call_result (fun u => ["ideviceinstaller"; "-u"; u; "-l"])
               (fun out => fold_left app_line (PyStr.split_lines out) []) m u _ w Hu Hr).
    simpl. rewrite (fold_app_line _ []). reflexivity.
  - intros ln app. unfold app_of_line. split.
    + destruct (PyStr.split_once " - " ln) as [[a b]|] eqn:E; [|discriminate].
      intros [= <-]. destruct (proj1 (split_once_first " - " ln) a b E) as [Hln Hmin].
      exists a, b. repeat split; assumption.
    + intros (a & b & Hln & Hmin & ->).
      destruct (PyStr.split_once " - " ln) as [[a0 b0]|] eqn:E.
      * destruct (proj1 (split_once_first " - " ln) a0 b0 E) as [Hln0 Hmin0].
        pose proof (Hmin a0 b0 Hln0). pose proof (Hmin0 a b Hln).
        assert (a0 +:+ (" - " +:+ b0) = a +:+ (" - " +:+ b)) as Heq by congruence.
        destruct (append_same_length _ _ _ _ Heq ltac:(lia)) as [-> Hb].
        destruct (append_same_length " - " " - " b0 b Hb eq_refl) as [_ ->]. reflexivity.
      * exfalso. apply (proj2 (split_once_first " - " ln)) in E. apply E.
        exists a, b. exact Hln.
  - intros ln. unfold app_of_line.
    rewrite <- (proj2 (split_once_first " - " ln)).
    destruct (PyStr.split_once " - " ln) as [[a b]|]; split; congruence.
Qed.

Lemma list_apps_entries_witness :
  fst (list_apps (machine connected_session
                    [Exit0 (line "Total: 2 apps" +:+ line "com.a-b - My - App"
                            +:+ line " org.x  -  X ")]))
  = Ok [ {| bundle_id := "com.a-b"; app_name := "My - App" |};
         {| bundle_id := "org.x"; app_name := "X" |} ].
Proof.
  exact (proj1 (list_apps_entries Script scripted
                  (machine connected_session
                     [Exit0 (line "Total: 2 apps" +:+ line "com.a-b - My - App"
                             +:+ line " org.x  -  X ")])
                  "A1" _ _ eq_refl eq_refl eq_refl)).
Defined.

(** ** The command line *)

Section ConsoleFacts.

Context {World : Type} `{Host World}.

Local Abbreviation Console := (World * list message)%type.

Lemma silent_ret {A : Type} (a : A) : keeps_console (ret (World := Console) a).
Proof. intros m. reflexivity. Qed.

Lemma silent_raise {A : Type} (e : exn) :
  keeps_console (raise (World := Console) (A := A) e).
Proof. intros m. reflexivity. Qed.

Lemma silent_bind {A B : Type} (c : M Console A) (k : A -> M Console B) :
  keeps_console c -> (forall a, keeps_console (k a)) -> keeps_console (bind c k).
Proof.
  intros Hc Hk m. unfold bind. specialize (Hc m).
  destruct (c m) as [[a|e|] m']; simpl in Hc |- *; [|exact Hc|exact Hc].
  rewrite (Hk a m'). exact Hc.
Qed.

Lemma silent_try_except {A : Type} (body : M Console A)
  (handler : exn -> option (M Console A)) :
  keeps_console body ->
  (forall e h, handler e = Some h -> keeps_console h) ->
  keeps_console (try_except body handler).
Proof.
  intros Hb Hh m. unfold try_except. specialize (Hb m).
  destruct (body m) as [[a|e|] m']; simpl in Hb |- *; [exact Hb| |exact Hb].
  destruct (handler e) as [h|] eqn:E; [|exact Hb].
  rewrite (Hh e h E m'). exact Hb.
Qed.

Lemma silent_subprocess_run (argv : list string) :
  keeps_console (subprocess_run (World := Console) argv).
Proof.
  intros m. unfold subprocess_run, console. simpl.
  destruct (host_run argv (fst (world m))) as [[out| | |cls] w]; reflexivity.
Qed.

Lemma silent_lift {A : Type} (r : res A) : keeps_console (lift (World := Console) r).
Proof. intros m. reflexivity. Qed.

Lemma silent_get_session : keeps_console (get_session (World := Console)).
Proof. intros m. reflexivity. Qed.

Lemma silent_put_session (s : Session) : keeps_console (put_session (World := Console) s).
Proof. intros m. reflexivity. Qed.

Lemma silent_list_devices : keeps_console (list_devices (World := Console)).
Proof.
  assert (forall u, keeps_console (device_record (World := Console) u)) as Hrec.
  { intros u. unfold device_record. apply silent_try_except.
    - apply silent_bind; [apply silent_subprocess_run|]. intros n.
      apply silent_bind; [apply silent_subprocess_run|]. intros v. apply silent_ret.
    - intros e h E. destruct e; try discriminate E. injection E as <-. apply silent_ret. }
  assert (forall ids devices, keeps_console (for_udid (World := Console) ids devices)) as Hfor.
  { induction ids as [|u ids IH]; intros devices; simpl; [apply silent_ret|].
    apply silent_bind; [apply Hrec | intros d; apply IH]. }
  unfold list_devices. apply silent_try_except.
  - apply silent_bind; [apply silent_subprocess_run | intros out; apply Hfor].
  - intros e h E. destruct e; try discriminate E; injection E as <-; apply silent_ret.
Qed.

Lemma silent_connect : keeps_console (connect (World := Console)).
Proof.
  assert (forall s, keeps_console (put_session (World := Console) s)) as Hput
    by (intros s m; reflexivity).
  assert (keeps_console (get_session (World := Console))) as Hget
    by (intros m; reflexivity).
  unfold connect. apply silent_try_except.
  - apply silent_bind; [apply silent_list_devices|]. intros [|first rest];
      [apply silent_raise|].
    apply silent_bind; [exact Hget|]. intros s.
    apply silent_bind.
    + destruct (udid_given (udid s)).
      * destruct (find (has_udid (udid s)) (first :: rest));
          [apply silent_ret | apply silent_raise].
      * apply silent_bind; [|intros _; apply silent_ret].
        unfold set_udid. apply silent_bind; [exact Hget | intros s'; apply Hput].
    + intros d. apply silent_bind; [|intros _; apply silent_bind; [|intros _; apply silent_ret]].
      * unfold set_device_info. apply silent_bind; [exact Hget | intros s'; apply Hput].
      * unfold set_connected. apply silent_bind; [exact Hget | intros s'; apply Hput].
  - intros e h [= <-]. apply silent_raise.
Qed.

Lemma ends_print (S : Session -> Prop) (msg : message) :
  ends_in (World := Console) S (fun _ => True) (fun _ => False) False (print msg).
Proof. intros m _. split; [reflexivity | exact I]. Qed.

End ConsoleFacts.

(** Goes through a computation made of silent steps. *)
Ltac silent :=
  repeat first
    [ apply silent_ret | apply silent_raise | apply silent_lift
    | apply silent_get_session | apply silent_subprocess_run
    | assumption
    | apply silent_bind; [|intros ?]
    | apply silent_try_except;
      [|let e := fresh "e" in let h := fresh "h" in let E := fresh "E" in
        intros e h E; destruct e; try discriminate E; injection E as <-]
    | match goal with
      | |- keeps_console (match ?x with _ => _ end) => destruct x
      end ].

Section CommandFacts.

Context {World : Type} `{Host World}.

Local Abbreviation Console := (World * list message)%type.

Lemma silent_self_udid : keeps_console (self_udid (World := Console)).
Proof. unfold self_udid. silent. Qed.

Lemma silent_require_connected : keeps_console (require_connected (World := Console)).
Proof. unfold require_connected, is_connected. silent. Qed.

Lemma silent_tool_call {A : Type} (argv : string -> list string) (f : string -> A) :
  keeps_console (World := World)
    (let* _ := require_connected in
     try_except
       (let* u := self_udid in
        let* out := subprocess_run (argv u) in
        ret (f out))
       tool_failure).
Proof.
  pose proof silent_self_udid. pose proof silent_require_connected.
  unfold tool_failure. silent.
Qed.

Lemma silent_with_fallback (primary secondary : string -> list string) :
  keeps_console (World := World) (with_fallback primary secondary).
Proof. pose proof silent_self_udid. unfold with_fallback. silent. Qed.

Lemma silent_gesture (primary secondary : string -> list string) :
  keeps_console (World := World)
    (let* _ := require_connected in with_fallback primary secondary).
Proof.
  apply silent_bind; [apply silent_require_connected | intros _; apply silent_with_fallback].
Qed.

Lemma silent_get_ui_hierarchy : keeps_console (World := World) _get_ui_hierarchy.
Proof. pose proof silent_self_udid. unfold _get_ui_hierarchy. silent. Qed.

Lemma silent_tap_by_text (t : string) (exact_match : bool) :
  keeps_console (World := World) (tap_by_text t exact_match).
Proof.
  pose proof silent_require_connected. pose proof silent_get_ui_hierarchy.
  pose proof (fun x y => silent_gesture (tap_primary x y) (tap_secondary x y)) as Htap.
  unfold tap_by_text, any_failure. silent.
Qed.

Lemma silent_back_button : keeps_console (World := World) back_button.
Proof.
  pose proof silent_require_connected.
  unfold back_button, any_failure. silent; unfold swipe; apply silent_gesture.
Qed.

(** An operation of the facade, then the message of its success. *)
Lemma reports_operation {A : Type} (op : M Console A) (k : A -> M Console bool)
  (msg : A -> message) (Q : A -> Prop) (said : message -> Prop) (raised : exn -> Prop) :
  ends_in (fun s => udid s <> None) Q raised False op ->
  keeps_console op ->
  (forall a, Q a -> k a = (let* _ := print (msg a) in ret true)) ->
  (forall a, Q a -> said (msg a)) ->
  reports said raised (let* a := op in k a).
Proof.
  intros Hop Hsilent Hk Hsaid m Hu.
  destruct (Hop m Hu) as [Hkeep Hres]. specialize (Hsilent m).
  unfold bind. destruct (op m) as [[a|e|] m1]; simpl in *; [| |contradiction].
  - rewrite (Hk a Hres). unfold bind, print, ret. simpl.
    split; [exact Hkeep|]. split; [reflexivity|].
    exists (msg a). split; [exact (Hsaid a Hres)|].
    unfold console in *. simpl. rewrite Hsilent. reflexivity.
  - split; [exact Hkeep | split; [exact Hres | exact Hsilent]].
Qed.

(** [with IOSDevice(udid=u) as device: body], step by step: the body
    runs on the session [connect] leaves, and the session is
    disconnected when the body is left; a failure of [connect] leaves
    the [with] statement before the body. *)
Lemma with_device_steps {A : Type} (u : option string) (body : M Console A)
  (m : Machine Console) :
  with_device u body m
  = match fst (connect (with_session m (__init__ u))) with
    | Ok _ =>
        (fst (body (snd (connect (with_session m (__init__ u))))),
         with_session (snd (body (snd (connect (with_session m (__init__ u))))))
           {| udid := udid (session (snd (body (snd (connect (with_session m (__init__ u)))))));
              _device_info := None; _connected := false |})
    | Raise e => (Raise e, snd (connect (with_session m (__init__ u))))
    | OutOfFuel => (OutOfFuel, snd (connect (with_session m (__init__ u))))
    end.
Proof.
  unfold with_device, bind at 1, put_session at 1. cbv beta iota.
  fold (with_session m (__init__ u)).
  generalize (with_session m (__init__ u)). intros m0.
  unfold bind at 1, __enter__, bind at 1.
  destruct (connect m0) as [[b|e|] m1]; simpl; try reflexivity.
  destruct (body m1) as [r m2]. simpl.
  unfold __exit__, disconnect, bind, set_connected, set_device_info, get_session,
    put_session, with_session. simpl. destruct r; reflexivity.
Qed.

(** The statement of a command on a device: what it returns and
    prints, and the session it leaves. *)
Lemma device_command_outcomes (u : option string) (body : M Console bool)
  (said : message -> Prop) (raised : exn -> Prop) :
  reports said raised body ->
  (forall e, raised e -> public_error e \/ other_error e) ->
  forall m : Machine Console,
    (_connected (session (snd (device_command u body m))) = false
     /\ _device_info (session (snd (device_command u body m))) = None)
    /\ ((fst (device_command u body m) = Ok true
         /\ fst (connect (with_session m (__init__ u))) = Ok true
         /\ exists msg, said msg
              /\ console (snd (device_command u body m)) = console m ++ [msg])
        \/ (fst (device_command u body m) = Ok false
            /\ console (snd (device_command u body m)) = console m ++ [MsgConnectionError])
        \/ (exists e,
               fst (device_command u body m) = Raise e
               /\ raised e
               /\ (e = UnsupportedOperationError \/ other_error e)
               /\ fst (connect (with_session m (__init__ u))) = Ok true
               /\ console (snd (device_command u body m)) = console m))
    /\ (fst (connect (with_session m (__init__ u))) <> Ok true ->
        fst (device_command u body m) = Ok false).
Proof.
  intros Hbody Hpublic m.
  unfold device_command, try_except. rewrite with_device_steps.
  set (m0 := with_session m (__init__ u)).
  pose proof (silent_connect m0) as Hsilent.
  assert (console m0 = console m) as Hm0 by reflexivity.
  destruct (connect_result m0) as [(d & Hok & Hsess & Hne) | [Hr Hsess]].
  - destruct (connect m0) as [r m1]. simpl in Hok, Hsess, Hsilent |- *. subst r.
    destruct (Hbody m1 ltac:(rewrite Hsess; discriminate)) as [Hkeep Hres].
    destruct (body m1) as [r m2]. simpl in Hkeep, Hres |- *.
    destruct r as [b|e|]; [| |contradiction]; simpl.
    + destruct Hres as (-> & msg & Hmsg & Hcon).
      split; [split; reflexivity | split; [|intros Hn; contradiction]].
      left. split; [reflexivity | split; [reflexivity|]].
      exists msg. split; [exact Hmsg|].
      unfold console in *. simpl. rewrite Hcon, Hsilent. reflexivity.
    + destruct Hres as [Hraised Hcon].
      destruct (Hpublic e Hraised) as [[-> | ->] | [cls ->]]; simpl.
      * split; [split; reflexivity | split; [|intros Hn; contradiction]].
        right. left. split; [reflexivity|].
        unfold console in *. simpl. rewrite Hcon, Hsilent. reflexivity.
      * split; [split; reflexivity | split; [|intros Hn; contradiction]].
        right. right. exists UnsupportedOperationError.
        split; [reflexivity | split; [exact Hraised | split; [left; reflexivity|]]].
        split; [reflexivity|].
        unfold console in *. simpl. rewrite Hcon, Hsilent. reflexivity.
      * split; [split; reflexivity | split; [|intros Hn; contradiction]].
        right. right. exists (OtherException cls).
        split; [reflexivity | split; [exact Hraised | split; [right; exists cls; reflexivity|]]].
        split; [reflexivity|].
        unfold console in *. simpl. rewrite Hcon, Hsilent. reflexivity.
  - destruct (connect m0) as [r m1]. simpl in Hr, Hsess, Hsilent |- *. subst r.
    simpl. rewrite Hsess.
    split; [split; reflexivity | split; [|intros _; reflexivity]].
    right. left. split; [reflexivity|].
    unfold console in *. simpl. rewrite Hsilent. reflexivity.
Qed.

(** The body of each command on a device. *)
Lemma command_reports (u : option string) (c : command) :
  on_device c = true ->
  exists body,
    run_command u c = device_command u body
    /\ reports (success_message c) (command_error c) body.
Proof.
  assert (forall (c : command) (s : Session),
             udid s <> None -> udid s = None -> command_error c TypeError) as HS
    by (intros c' s Hs Hn; destruct (Hs Hn)).
  assert (forall c, command_error c IOSConnectionError) as Hc by (intros c'; left; reflexivity).
  assert (forall (c : command) (e : exn),
             tool_bound c = true -> other_error e -> command_error c e) as Ho
    by (intros c' e Hb He; right; split; [right; exact He | exact Hb]).
  assert (forall (A : Type) (argv : string -> list string) (f : string -> A) (c : command),
             tool_bound c = true ->
             ends_in (World := Console) (fun s => udid s <> None)
               (fun a => exists out, a = f out) (command_error c) False
               (let* _ := require_connected in
                try_except
                  (let* u := self_udid in
                   let* out := subprocess_run (argv u) in
                   ret (f out))
                  tool_failure)) as Htool.
  { intros A argv f c' Hb.
    apply ends_bind with (Qc := fun _ => True);
      [apply ends_require_connected; apply Hc | intros _ _].
    apply ends_tool_call;
      [apply HS | intros e; apply Ho; exact Hb | apply Hc
      | right; split; [left; reflexivity | exact Hb]]. }
  assert (forall (primary secondary : string -> list string) (c : command),
             tool_bound c = true ->
             ends_in (World := Console) (fun s => udid s <> None)
               (fun b => b = true) (command_error c) False
               (let* _ := require_connected in with_fallback primary secondary)) as Hgesture.
  { intros primary secondary c' Hb.
    apply ends_bind with (Qc := fun _ => True);
      [apply ends_require_connected; apply Hc | intros _ _].
    apply ends_with_fallback;
      [apply HS | intros e; apply Ho; exact Hb | apply Hc
      | right; split; [left; reflexivity | exact Hb]]. }
  intros Hon. destruct c; try discriminate Hon; clear Hon; simpl;
    (eexists; split; [reflexivity|]).
  - eapply reports_operation with (msg := MsgDeviceInformation);
      [apply Htool; reflexivity | apply silent_tool_call | reflexivity
      | intros a _; exists a; reflexivity].
  - eapply reports_operation with (msg := MsgScreenshotSaved);
      [apply Htool; reflexivity | apply silent_tool_call | reflexivity
      | intros a [out ->]; reflexivity].
  - eapply reports_operation with (msg := MsgFoundApps);
      [apply Htool; reflexivity | apply silent_tool_call | reflexivity
      | intros a _; exists a; reflexivity].
  - eapply reports_operation with (msg := fun _ => MsgTapped x y);
      [apply Hgesture; reflexivity | apply silent_gesture | reflexivity | reflexivity].
  - eapply reports_operation with (msg := fun _ => MsgTappedText t exact)
                                  (Q := fun b => b = true);
      [ eapply ends_weaken; [apply ends_tap_by_text | auto | intros e ->; apply Hc | auto]
      | apply silent_tap_by_text | intros a ->; reflexivity | reflexivity].
  - eapply reports_operation with (msg := fun _ => MsgSwiped x1 y1 x2 y2 duration);
      [apply Hgesture; reflexivity | apply silent_gesture | reflexivity | reflexivity].
  - eapply reports_operation with (msg := fun _ => MsgInputText t);
      [apply Hgesture; reflexivity | apply silent_gesture | reflexivity | reflexivity].
  - eapply reports_operation with (msg := fun _ => MsgPressedHome);
      [apply Hgesture; reflexivity | apply silent_gesture | reflexivity | reflexivity].
  - eapply reports_operation with (msg := fun _ => MsgBackGesture)
                                  (Q := fun b => b = true);
      [ eapply ends_weaken; [apply ends_back_button | auto | intros e ->; apply Hc | auto]
      | apply silent_back_button | reflexivity | reflexivity].
  - eapply reports_operation with (msg := fun _ => MsgLongPressed x y duration);
      [apply Htool; reflexivity | apply silent_tool_call | reflexivity | reflexivity].
Qed.

Lemma command_error_cases (c : command) (e : exn) :
  command_error c e -> public_error e \/ other_error e.
Proof. intros [-> | [[-> | He] _]]; [left; left | left; right | right]; auto. Qed.

(** What [cmd_list_devices] prints for the devices. *)
Lemma print_devices_result (devices : list Device) (i : nat) (m : Machine Console) :
  print_devices i devices m
  = (Ok tt, {| session := session m;
               world := (fst (world m), snd (world m) ++ device_lines i devices);
               calls := calls m |}).
Proof.
  revert i m. induction devices as [|d rest IH]; intros i m; simpl.
  - unfold ret. rewrite app_nil_r. destruct m as [s [w c] cs]; reflexivity.
  - unfold bind, print. simpl. rewrite IH. simpl. rewrite <- app_assoc. reflexivity.
Qed.

(** *** The command an exception of the command line comes from *)

Lemma passes_print (msg : message) : passes_on (World := Console) (print msg).
Proof. apply passes_none; [apply grows_same; reflexivity | discriminate]. Qed.

Lemma passes_print_devices (devices : list Device) (i : nat) :
  passes_on (World := Console) (print_devices i devices).
Proof.
  revert i. induction devices as [|d rest IH]; intros i; simpl; [apply passes_ret|].
  apply passes_bind; [apply passes_print | intros _; apply IH].
Qed.

Lemma passes_cmd_list_devices : passes_on (World := Console) cmd_list_devices.
Proof.
  unfold cmd_list_devices. apply passes_bind; [apply passes_list_devices|].
  intros [|d rest].
  - apply passes_bind; [apply passes_print | intros _; apply passes_ret].
  - apply passes_bind; [apply passes_print | intros _].
    apply passes_bind; [apply passes_print_devices | intros _; apply passes_ret].
Qed.

Lemma passes_device_command (u : option string) (body : M Console bool) :
  passes_on body -> passes_on (device_command u body).
Proof.
  intros Hbody.
  assert (passes_on (with_device u body)) as Hwith.
  { pose proof (passes_connect (World := Console)) as [Hgc Hpc].
    destruct Hbody as [Hgb Hpb].
    assert (forall m : Machine Console,
               calls (with_session m (__init__ u)) = calls m) as Hm0 by reflexivity.
    split.
    - intros m. rewrite with_device_steps.
      destruct (Hgc (with_session m (__init__ u))) as [cs Hcs]. rewrite Hm0 in Hcs.
      destruct (fst (connect (with_session m (__init__ u)))); simpl;
        [|exists cs; exact Hcs ..].
      destruct (Hgb (snd (connect (with_session m (__init__ u))))) as [cs' Hcs'].
      exists (cs ++ cs')%list. rewrite Hcs', Hcs, app_assoc. reflexivity.
    - intros m cls. rewrite with_device_steps.
      destruct (Hgc (with_session m (__init__ u))) as [cs Hcs]. rewrite Hm0 in Hcs.
      pose proof (Hpc (with_session m (__init__ u)) cls) as Hp. rewrite Hm0 in Hp.
      destruct (fst (connect (with_session m (__init__ u)))); simpl;
        [|exact Hp | discriminate].
      intros Hr.
      destruct (Hpb (snd (connect (with_session m (__init__ u)))) cls Hr)
        as (cs' & argv & Hcs').
      exists (cs ++ cs')%list, argv. rewrite Hcs', Hcs, !app_assoc. reflexivity. }
  unfold device_command. apply passes_try_except; [exact Hwith|].
  intros e h E. destruct e; try discriminate E; injection E as <-;
    (apply passes_bind; [apply passes_print | intros _; apply passes_ret]).
Qed.

Lemma passes_run_command (u : option string) (c : command) :
  passes_on (World := Console) (run_command u c).
Proof.
  assert (forall (A : Type) (op : M Console A) (k : A -> M Console bool),
             passes_on op -> (forall a, passes_on (k a)) ->
             passes_on (device_command u (let* a := op in k a))) as Hgen
    by (intros A op k Hop Hk; apply passes_device_command, passes_bind; assumption).
  assert (forall (A : Type) (msg : A -> message) (a : A),
             passes_on (World := Console) (let* _ := print (msg a) in ret true)) as Hsay
    by (intros A msg a; apply passes_bind;
        [apply passes_print | intros _; apply passes_ret]).
  destruct c; simpl.
  - apply passes_cmd_list_devices.
  - apply Hgen; [apply passes_tool_call | apply (Hsay _ MsgDeviceInformation)].
  - apply Hgen; [apply passes_tool_call | apply (Hsay _ MsgScreenshotSaved)].
  - apply Hgen; [apply passes_tool_call | apply (Hsay _ MsgFoundApps)].
  - apply Hgen; [apply passes_gesture | apply (Hsay _ (fun _ => MsgTapped x y))].
  - apply Hgen; [apply passes_tap_by_text|].
    intros [|]; (apply passes_bind; [apply passes_print | intros _; apply passes_ret]).
  - apply Hgen; [apply passes_gesture
                | apply (Hsay _ (fun _ => MsgSwiped x1 y1 x2 y2 duration))].
  - apply Hgen; [apply passes_gesture | apply (Hsay _ (fun _ => MsgInputText t))].
  - apply Hgen; [apply passes_gesture | apply (Hsay _ (fun _ => MsgPressedHome))].
  - apply Hgen; [apply passes_back_button | apply (Hsay _ (fun _ => MsgBackGesture))].
  - apply Hgen; [apply passes_tool_call
                | apply (Hsay _ (fun _ => MsgLongPressed x y duration))].
Qed.

(** A command on a device: what it returns, raises and prints, and the
    session it leaves. *)
Lemma run_command_outcomes (u : option string) (c : command) (m : Machine Console) :
  on_device c = true ->
  (_connected (session (snd (run_command u c m))) = false
   /\ _device_info (session (snd (run_command u c m))) = None)
  /\ ((fst (run_command u c m) = Ok true
       /\ fst (connect (with_session m (__init__ u))) = Ok true
       /\ exists msg, success_message c msg
            /\ console (snd (run_command u c m)) = console m ++ [msg])
      \/ (fst (run_command u c m) = Ok false
          /\ console (snd (run_command u c m)) = console m ++ [MsgConnectionError])
      \/ (tool_bound c = true
          /\ fst (connect (with_session m (__init__ u))) = Ok true
          /\ console (snd (run_command u c m)) = console m
          /\ (fst (run_command u c m) = Raise UnsupportedOperationError
              \/ exists cls cs argv,
                  fst (run_command u c m) = Raise (OtherException cls)
                  /\ calls (snd (run_command u c m))
                     = (calls m ++ cs ++ [(argv, Fails cls)])%list))).
Proof.
  intros Hon. pose proof (passes_run_command u c) as [_ Hpass]. specialize (Hpass m).
  destruct (command_reports u c Hon) as (body & Hrun & Hbody). rewrite Hrun in *.
  destruct (device_command_outcomes u body _ _ Hbody (command_error_cases c) m)
    as (Hsess & Hcases & _).
  split; [exact Hsess|].
  destruct Hcases as [Hcase | [Hcase | (e & Hr & Hraised & He & Hok & Hcon)]];
    [auto | auto |].
  right. right.
  assert (tool_bound c = true) as Hb.
  { destruct Hraised as [-> | [_ Hb]]; [|exact Hb].
    destruct He as [He | [cls He]]; discriminate He. }
  split; [exact Hb | split; [exact Hok | split; [exact Hcon|]]].
  destruct He as [-> | [cls ->]]; [left; exact Hr | right].
  destruct (Hpass cls Hr) as (cs & argv & Hcs). exists cls, cs, argv. auto.
Qed.

(** What [cmd_list_devices] returns and prints. *)
Lemma cmd_list_devices_result (m : Machine Console) :
  session (snd (cmd_list_devices m)) = session m
  /\ calls (snd (cmd_list_devices m)) = calls (snd (list_devices m))
  /\ ((exists devices,
          fst (list_devices m) = Ok devices
          /\ fst (cmd_list_devices m) = Ok (match devices with [] => false | _ => true end)
          /\ console (snd (cmd_list_devices m))
             = console m
               ++ match devices with
                  | [] => [MsgNoDevicesFound]
                  | _ => MsgFoundDevices (List.length devices) :: device_lines 1 devices
                  end)
      \/ (exists cls cs argv,
             fst (cmd_list_devices m) = Raise (OtherException cls)
             /\ console (snd (cmd_list_devices m)) = console m
             /\ calls (snd (cmd_list_devices m))
                = (calls m ++ cs ++ [(argv, Fails cls)])%list
             /\ Forall completed cs)).
Proof.
  pose proof (silent_list_devices m) as Hsilent.
  destruct (list_devices_result m) as (Hs & o & cs & Hcalls & Hcase).
  unfold cmd_list_devices.
  destruct (list_devices m) as [r m1] eqn:E. simpl in Hs, Hsilent, Hcalls, Hcase |- *.
  destruct Hcase as [(devices & -> & _) | (cls & -> & cs0 & argv & Hcs & Hdone)].
  - rewrite (bind_ok _ _ _ _ _ E).
    destruct devices as [|d rest].
    + unfold bind, print, ret, console in *. simpl.
      split; [exact Hs | split; [reflexivity|]].
      left. exists []. split; [reflexivity | split; [reflexivity|]].
      rewrite Hsilent. reflexivity.
    + unfold bind, print. rewrite print_devices_result. unfold ret, console in *. simpl.
      split; [exact Hs | split; [reflexivity|]].
      left. exists (d :: rest). split; [reflexivity | split; [reflexivity|]].
      rewrite Hsilent, <- app_assoc. reflexivity.
  - rewrite (bind_raise _ _ _ _ _ E). simpl.
    split; [exact Hs | split; [reflexivity|]].
    right. exists cls, cs0, argv.
    split; [reflexivity | split; [exact Hsilent | split; [|exact Hdone]]].
    rewrite Hcalls, Hcs. reflexivity.
Qed.

(** What a command returns, and what goes through it. *)
Lemma run_command_fst (u : option string) (c : command) (m : Machine Console) :
  fst (run_command u c m) = Ok true
  \/ fst (run_command u c m) = Ok false
  \/ ((tool_bound c = true \/ c = CmdDevices)
      /\ ((fst (run_command u c m) = Raise UnsupportedOperationError
           /\ tool_bound c = true)
          \/ exists cls cs argv,
              fst (run_command u c m) = Raise (OtherException cls)
              /\ calls (snd (run_command u c m))
                 = (calls m ++ cs ++ [(argv, Fails cls)])%list)).
Proof.
  destruct (on_device c) eqn:Hon.
  - destruct (run_command_outcomes u c m Hon)
      as [_ [(Hr & _) | [(Hr & _) | (Hb & _ & _ & [Hr | (cls & cs & argv & Hr & Hcs)])]]];
      [auto | auto | |].
    + right. right. split; [left; exact Hb | left; split; assumption].
    + right. right. split; [left; exact Hb | right; exists cls, cs, argv; auto].
  - destruct c; try discriminate Hon. simpl.
    destruct (cmd_list_devices_result m)
      as (_ & _ & [(devices & _ & Hr & _) | (cls & cs & argv & Hr & _ & Hcs & _)]).
    + rewrite Hr. destruct devices; auto.
    + right. right. split; [right; reflexivity | right; exists cls, cs, argv; auto].
Qed.

(** The result of [main] from the result of the command. *)
Lemma main_fst (u : option string) (c : command) (m : Machine Console) :
  fst (main u (Some c) m)
  = match fst (run_command u c m) with
    | Ok b => Ok (if b then 0 else 1)
    | Raise e => Raise e
    | OutOfFuel => OutOfFuel
    end.
Proof. unfold main, bind. destruct (run_command u c m) as [[b|e|] m']; reflexivity. Qed.

Lemma main_snd (u : option string) (c : command) (m : Machine Console) :
  snd (main u (Some c) m) = snd (run_command u c m).
Proof. unfold main, bind. destruct (run_command u c m) as [[b|e|] m']; reflexivity. Qed.

(** The console of a host keeps what has been printed when a tool
    runs. *)
Lemma host_run_console (argv : list string) (w w' : Console) (o : outcome) :
  host_run argv w = (o, w') -> snd w' = snd w.
Proof.
  simpl. destruct (host_run argv (fst w)) as [o' w0]. intros [= _ <-]. reflexivity.
Qed.

(** A command on a device that cannot be connected. *)
Lemma device_command_unreachable (u : option string) (body : M Console bool)
  (m : Machine Console) (devices : list Device) :
  fst (list_devices (with_session m (__init__ u))) = Ok devices ->
  devices = [] \/ (udid_given u = true /\ find (has_udid u) devices = None) ->
  fst (device_command u body m) = Ok false
  /\ console (snd (device_command u body m)) = console m ++ [MsgConnectionError]
  /\ calls (snd (device_command u body m))
     = calls (snd (list_devices (with_session m (__init__ u)))).
Proof.
  intros Hl Hd. set (m0 := with_session m (__init__ u)) in *.
  pose proof (silent_list_devices m0) as Hsilent.
  pose proof (keeps_list_devices m0) as Hkeep.
  assert (connect m0 = (Raise IOSConnectionError, snd (list_devices m0))) as Hconnect.
  { unfold connect, try_except.
    destruct (list_devices m0) as [r m1] eqn:E. simpl in Hl, Hkeep |- *. subst r.
    rewrite (bind_ok _ _ _ _ _ E).
    destruct Hd as [-> | [Hg Hf]]; [reflexivity|].
    destruct devices as [|first rest]; [reflexivity|].
    unfold bind at 1, get_session at 1. cbv beta iota. rewrite Hkeep. simpl udid.
    rewrite Hg, Hf. reflexivity. }
  unfold device_command, try_except. rewrite with_device_steps. fold m0.
  rewrite Hconnect. simpl. unfold console in *. simpl. rewrite Hsilent. auto.
Qed.

(** The first tool of a [tool_bound] command is missing. *)
Lemma device_command_missing_tool (u : option string) (c : command) (m : Machine Console)
  (u' : string) (argv : list string) (w : Console) :
  fst (connect (with_session m (__init__ u))) = Ok true ->
  udid (session (snd (connect (with_session m (__init__ u))))) = Some u' ->
  first_command c u' = Some argv ->
  host_run argv (world (snd (connect (with_session m (__init__ u))))) = (Missing, w) ->
  fst (run_command u c m) = Raise UnsupportedOperationError
  /\ console (snd (run_command u c m)) = console m
  /\ calls (snd (run_command u c m))
     = calls (snd (connect (with_session m (__init__ u)))) ++ [(argv, Missing)].
Proof.
  intros Hok Hu Hcmd Hrun. set (m0 := with_session m (__init__ u)) in *.
  pose proof (silent_connect m0) as Hsilent.
  pose proof (host_run_console _ _ _ _ Hrun) as Hw.
  assert (_connected (session (snd (connect m0))) = true) as Hc.
  { destruct (connect_result m0) as [(d & _ & -> & _) | [Hr _]]; [reflexivity|].
    rewrite Hr in Hok. discriminate Hok. }
  set (m1 := snd (connect m0)) in *.
  assert (forall (A : Type) (argv' : string -> list string) (f : string -> A)
                 (k : A -> M Console bool),
             argv' u' = argv ->
             (let* a := (let* _ := require_connected in
                         try_except
                           (let* u := self_udid in
                            let* out := subprocess_run (argv' u) in
                            ret (f out))
                           tool_failure) in k a) m1
             = (Raise UnsupportedOperationError, after_call m1 argv Missing w)) as Htool.
  { intros A argv' f k Ha. apply bind_raise.
    rewrite (bind_ok _ _ _ _ _ (require_connected_ok m1 Hc)).
    rewrite (tool_call_result argv' f m1 u' Missing w Hu); [|rewrite Ha; exact Hrun].
    rewrite Ha. reflexivity. }
  assert (forall (primary secondary : string -> list string) (k : bool -> M Console bool),
             primary u' = argv ->
             (let* a := (let* _ := require_connected in with_fallback primary secondary) in
              k a) m1
             = (Raise UnsupportedOperationError, after_call m1 argv Missing w)) as Hgesture.
  { intros primary secondary k Ha. apply bind_raise.
    rewrite (bind_ok _ _ _ _ _ (require_connected_ok m1 Hc)).
    rewrite (with_fallback_primary_missing primary secondary m1 u' w Hu);
      [|rewrite Ha; exact Hrun].
    rewrite Ha. reflexivity. }
  assert (forall body : M Console bool,
             body m1 = (Raise UnsupportedOperationError, after_call m1 argv Missing w) ->
             fst (device_command u body m) = Raise UnsupportedOperationError
             /\ console (snd (device_command u body m)) = console m
             /\ calls (snd (device_command u body m)) = calls m1 ++ [(argv, Missing)])
    as Hbody.
  { intros body Hb. unfold device_command, try_except. rewrite with_device_steps.
    fold m0. rewrite Hok. fold m1. rewrite Hb. simpl.
    unfold console in *. simpl. rewrite Hw. fold m1 in Hsilent. auto. }
  destruct c; try discriminate Hcmd; simpl in Hcmd; injection Hcmd as Hcmd; simpl;
    apply Hbody.
  - apply (Htool _ (fun u => ["ideviceinfo"; "-u"; u])). exact Hcmd.
  - apply (Htool _ (fun u => ["idevicescreenshot"; "-u"; u; output])). exact Hcmd.
  - apply (Htool _ (fun u => ["ideviceinstaller"; "-u"; u; "-l"])). exact Hcmd.
  - apply (Hgesture (tap_primary x y) (tap_secondary x y)). exact Hcmd.
  - apply Hgesture. exact Hcmd.
  - apply Hgesture. exact Hcmd.
  - apply Hgesture. exact Hcmd.
  - apply (Htool _ (fun u => dvt "longpress" u [str x; str y; "--duration"; duration])).
    exact Hcmd.
Qed.

End CommandFacts.

(** X18. A command of the command line on a device, as long as its
    prints succeed, ends in one of four ways, and leaves the session
    disconnected in each of them: it returns [True] after the message of
    its success, which needs the connection; or it returns [False] after
    the message of a connection error; or the unsupported-operation error
    of its operation goes through it, nothing printed; or an exception of
    another class goes through it, nothing printed, and the command that
    raised it is the last one run.  The last two never happen for
    [tap-text] and [back], and happen only once the device is connected.
    The messages [No iOS device found.] and [Element with text ... not
    found] are never printed. *)
Theorem cli_command_outcomes (World : Type) (H : Host World) (u : option string)
  (c : command) (m : Machine (World * list message)) :
  on_device c = true ->
  (_connected (session (snd (run_command u c m))) = false
   /\ _device_info (session (snd (run_command u c m))) = None)
  /\ ((fst (run_command u c m) = Ok true
       /\ fst (connect (with_session m (__init__ u))) = Ok true
       /\ exists msg, success_message c msg
            /\ console (snd (run_command u c m)) = console m ++ [msg])
      \/ (fst (run_command u c m) = Ok false
          /\ console (snd (run_command u c m)) = console m ++ [MsgConnectionError])
      \/ (tool_bound c = true
          /\ fst (connect (with_session m (__init__ u))) = Ok true
          /\ console (snd (run_command u c m)) = console m
          /\ (fst (run_command u c m) = Raise UnsupportedOperationError
              \/ exists cls cs argv,
                  fst (run_command u c m) = Raise (OtherException cls)
                  /\ calls (snd (run_command u c m))
                     = (calls m ++ cs ++ [(argv, Fails cls)])%list))).
Proof.
  intros Hon. pose proof (passes_run_command u c) as [_ Hpass]. specialize (Hpass m).
  destruct (command_reports u c Hon) as (body & Hrun & Hbody). rewrite Hrun in *.
  destruct (device_command_outcomes u body _ _ Hbody (command_error_cases c) m)
    as (Hsess & Hcases & _).
  split; [exact Hsess|].
  destruct Hcases as [Hcase | [Hcase | (e & Hr & Hraised & He & Hok & Hcon)]];
    [auto | auto |].
  right. right.
  assert (tool_bound c = true) as Hb.
  { destruct Hraised as [-> | [_ Hb]]; [|exact Hb].
    destruct He as [He | [cls He]]; discriminate He. }
  split; [exact Hb | split; [exact Hok | split; [exact Hcon|]]].
  destruct He as [-> | [cls ->]]; [left; exact Hr | right].
  destruct (Hpass cls Hr) as (cs & argv & Hcs). exists cls, cs, argv. auto.
Qed.

Lemma cli_command_outcomes_witness :
  on_device CmdBack = true
  /\ fst (run_command None CmdBack (one_device_process [Fails "PermissionError"])) = Ok false
  /\ console (snd (run_command None CmdBack (one_device_process [Fails "PermissionError"])))
     = [MsgConnectionError]
  /\ _connected
       (session (snd (run_command None CmdBack (one_device_process [Fails "PermissionError"]))))
     = false
  /\ fst (run_command None (CmdTap 1 2) (one_device_process [Fails "PermissionError"]))
     = Raise (OtherException "PermissionError").
Proof.
  split; [reflexivity|].
  pose proof (cli_command_outcomes Script scripted None CmdBack
                (one_device_process [Fails "PermissionError"]) eq_refl) as [[Hc _] _].
  split; [reflexivity | split; [reflexivity | split; [exact Hc | reflexivity]]].
Defined.

(** X19. [cmd_list_devices] leaves the session as it is and runs the
    commands of [list_devices] and nothing else.  When [list_devices]
    returns, and the prints succeed, it returns [False] after the one
    message that no device was found when the list is empty, and
    otherwise [True] after the number of devices and one entry for each
    device, in the order of the list and numbered from 1.  Otherwise an
    exception of another class raised by a command of [list_devices] goes
    through it: nothing is printed, and the command that raised it is the
    last one run. *)
Theorem cmd_list_devices_report (World : Type) (H : Host World)
  (m : Machine (World * list message)) :
  session (snd (cmd_list_devices m)) = session m
  /\ calls (snd (cmd_list_devices m)) = calls (snd (list_devices m))
  /\ ((exists devices,
          fst (list_devices m) = Ok devices
          /\ fst (cmd_list_devices m) = Ok (match devices with [] => false | _ => true end)
          /\ console (snd (cmd_list_devices m))
             = console m
               ++ match devices with
                  | [] => [MsgNoDevicesFound]
                  | _ => MsgFoundDevices (List.length devices) :: device_lines 1 devices
                  end)
      \/ (exists cls cs argv,
             fst (cmd_list_devices m) = Raise (OtherException cls)
             /\ console (snd (cmd_list_devices m)) = console m
             /\ calls (snd (cmd_list_devices m))
                = (calls m ++ cs ++ [(argv, Fails cls)])%list
             /\ Forall completed cs)).
Proof.
  pose proof (silent_list_devices m) as Hsilent.
  destruct (list_devices_result m) as (Hs & o & cs & Hcalls & Hcase).
  unfold cmd_list_devices.
  destruct (list_devices m) as [r m1] eqn:E. simpl in Hs, Hsilent, Hcalls, Hcase |- *.
  destruct Hcase as [(devices & -> & _) | (cls & -> & cs0 & argv & Hcs & Hdone)].
  - rewrite (bind_ok _ _ _ _ _ E).
    destruct devices as [|d rest].
    + unfold bind, print, ret, console in *. simpl.
      split; [exact Hs | split; [reflexivity|]].
      left. exists []. split; [reflexivity | split; [reflexivity|]].
      rewrite Hsilent. reflexivity.
    + unfold bind, print. rewrite print_devices_result. unfold ret, console in *. simpl.
      split; [exact Hs | split; [reflexivity|]].
      left. exists (d :: rest). split; [reflexivity | split; [reflexivity|]].
      rewrite Hsilent, <- app_assoc. reflexivity.
  - rewrite (bind_raise _ _ _ _ _ E). simpl.
    split; [exact Hs | split; [reflexivity|]].
    right. exists cls, cs0, argv.
    split; [reflexivity | split; [exact Hsilent | split; [|exact Hdone]]].
    rewrite Hcalls, Hcs. reflexivity.
Qed.

(** X20. What comes out of [main], as long as the prints succeed.  With
    no command it is status 1 after the help, with no tool run.  With
    [tap-text] or [back] it is always a status, 0 or 1.  With another
    command it is a status or an exception that goes through [main]:
    the unsupported-operation error of a command on a device other than
    those two, or an exception of another class raised by the last
    command that was run.  The status is 0 exactly when the command
    returned [True]. *)
Theorem main_exit_status (World : Type) (H : Host World) (u : option string)
  (c : option command) (m : Machine (World * list message)) :
  (c = None ->
   fst (main u c m) = Ok 1
   /\ console (snd (main u c m)) = console m ++ [MsgHelp]
   /\ calls (snd (main u c m)) = calls m
   /\ session (snd (main u c m)) = session m)
  /\ (forall t exact, c = Some (CmdTapText t exact) \/ c = Some CmdBack ->
      fst (main u c m) = Ok 0 \/ fst (main u c m) = Ok 1)
  /\ (fst (main u c m) = Ok 0
      <-> exists c', c = Some c' /\ fst (run_command u c' m) = Ok true)
  /\ (fst (main u c m) = Ok 0 \/ fst (main u c m) = Ok 1
      \/ exists c',
          c = Some c'
          /\ (tool_bound c' = true \/ c' = CmdDevices)
          /\ ((fst (main u c m) = Raise UnsupportedOperationError /\ tool_bound c' = true)
              \/ exists cls cs argv,
                  fst (main u c m) = Raise (OtherException cls)
                  /\ calls (snd (main u c m))
                     = (calls m ++ cs ++ [(argv, Fails cls)])%list)).
Proof.
  destruct c as [c|].
  - rewrite main_fst, main_snd.
    split; [discriminate|].
    pose proof (run_command_fst u c m) as Hfst.
    split; [|split].
    + intros t exact [[= ->] | [= ->]];
        (destruct Hfst as [-> | [-> | ([Hb | Hb] & _)]];
         [left; reflexivity | right; reflexivity | discriminate Hb | discriminate Hb]).
    + clear Hfst. destruct (fst (run_command u c m)) as [[|]|e|] eqn:E; split;
        try discriminate;
        try (intros (c' & [= <-] & Hc); rewrite E in Hc; discriminate Hc).
      * intros _. exists c. split; [reflexivity | exact E].
      * reflexivity.
    + destruct Hfst as [-> | [-> | (Hb & [[Hr Htb] | (cls & cs & argv & Hr & Hcs)])]].
      * left. reflexivity.
      * right. left. reflexivity.
      * right. right. exists c. rewrite Hr.
        split; [reflexivity | split; [exact Hb | left; split; [reflexivity | exact Htb]]].
      * right. right. exists c. rewrite Hr.
        split; [reflexivity | split; [exact Hb | right; exists cls, cs, argv; auto]].
  - simpl. split; [intros _; auto|].
    split; [intros t exact [Hc | Hc]; discriminate Hc|].
    split; [split; [discriminate | intros (c' & Hc & _); discriminate Hc]|].
    right. left. reflexivity.
Qed.

Lemma main_exit_status_witness :
  fst (main None None (one_device_process [])) = Ok 1
  /\ calls (snd (main None None (one_device_process []))) = []
  /\ fst (main None (Some CmdHome) (one_device_process [NonZero; Exit0 ""])) = Ok 0
  /\ (fst (main None (Some CmdBack) (one_device_process [Fails "ValueError"])) = Ok 0
      \/ fst (main None (Some CmdBack) (one_device_process [Fails "ValueError"])) = Ok 1).
Proof.
  pose proof (main_exit_status Script scripted None None (one_device_process []))
    as [Hnone _].
  destruct (Hnone eq_refl) as (H1 & _ & H2 & _).
  split; [exact H1 | split; [exact H2 | split]].
  - apply (proj2 (proj1 (proj2 (proj2 (main_exit_status Script scripted None (Some CmdHome)
                                         (one_device_process [NonZero; Exit0 ""])))))).
    exists CmdHome. split; reflexivity.
  - exact (proj1 (proj2 (main_exit_status Script scripted None (Some CmdBack)
                           (one_device_process [Fails "ValueError"])))
             "" false (or_intror eq_refl)).
Defined.

(** X21. A command on a device when discovery finds no device, or not
    the udid asked for: the command returns [False] and [main] ends
    with status 1, after the message of a connection error and no other
    message, and no tool is run after those of the discovery. *)
Theorem cli_unreachable_device (World : Type) (H : Host World) (u : option string)
  (c : command) (m : Machine (World * list message)) (devices : list Device) :
  on_device c = true ->
  fst (list_devices (with_session m (__init__ u))) = Ok devices ->
  devices = [] \/ (udid_given u = true /\ find (has_udid u) devices = None) ->
  fst (main u (Some c) m) = Ok 1
  /\ console (snd (main u (Some c) m)) = console m ++ [MsgConnectionError]
  /\ calls (snd (main u (Some c) m))
     = calls (snd (list_devices (with_session m (__init__ u)))).
Proof.
  intros Hon Hl Hd. rewrite main_fst, main_snd.
  destruct (command_reports u c Hon) as (body & -> & _).
  destruct (device_command_unreachable u body m devices Hl Hd) as (-> & Hcon & Hcalls).
  auto.
Qed.

Lemma cli_unreachable_device_witness :
  fst (main (Some "B2") (Some (CmdTap 1 2)) (one_device_process [Exit0 ""])) = Ok 1
  /\ console (snd (main (Some "B2") (Some (CmdTap 1 2)) (one_device_process [Exit0 ""])))
     = [MsgConnectionError].
Proof.
  destruct (cli_unreachable_device Script scripted (Some "B2") (CmdTap 1 2)
              (one_device_process [Exit0 ""])
              [{| d_udid := "A1"; d_name := "iPhone"; d_ios_version := "17.0" |}]
              eq_refl eq_refl (or_intror (conj eq_refl eq_refl))) as (H1 & H2 & _).
  split; [exact H1 | exact H2].
Defined.

(** X22. A command on a connected device whose first tool is missing on
    the host, for the commands other than [tap-text] and [back]: the
    unsupported-operation error goes through the command and through
    [main], which gives no exit status; nothing is printed, and the
    missing tool is the only one tried after the connection. *)
Theorem cli_missing_tool_uncaught (World : Type) (H : Host World) (u : option string)
  (c : command) (m : Machine (World * list message)) (u' : string) (argv : list string)
  (w : World * list message) :
  fst (connect (with_session m (__init__ u))) = Ok true ->
  udid (session (snd (connect (with_session m (__init__ u))))) = Some u' ->
  first_command c u' = Some argv ->
  host_run argv (world (snd (connect (with_session m (__init__ u))))) = (Missing, w) ->
  fst (main u (Some c) m) = Raise UnsupportedOperationError
  /\ console (snd (main u (Some c) m)) = console m
  /\ calls (snd (main u (Some c) m))
     = calls (snd (connect (with_session m (__init__ u)))) ++ [(argv, Missing)].
Proof.
  intros Hok Hu Hcmd Hrun. rewrite main_fst, main_snd.
  destruct (device_command_missing_tool u c m u' argv w Hok Hu Hcmd Hrun)
    as (-> & Hcon & Hcalls).
  auto.
Qed.

Lemma cli_missing_tool_uncaught_witness :
  fst (main None (Some (CmdScreenshot "s.png")) (one_device_process [Missing]))
  = Raise UnsupportedOperationError
  /\ console (snd (main None (Some (CmdScreenshot "s.png")) (one_device_process [Missing])))
     = [].
Proof.
  destruct (cli_missing_tool_uncaught Script scripted None (CmdScreenshot "s.png")
              (one_device_process [Missing]) "A1"
              ["idevicescreenshot"; "-u"; "A1"; "s.png"]
              ({| replies := []; clock := 0 |}, [])
              eq_refl eq_refl eq_refl eq_refl) as (H1 & H2 & _).
  split; [exact H1 | exact H2].
Defined.
